(** * cg-set-wan-bfd: bulk BFD / LQM / BWM update of WAN interfaces

  A shallow embedding of [cg-set-wan-bfd.py] and the properties of its
  matching, discovery, confirmation, mutation and authentication code.

  A Python string is embedded as the Rocq string of its UTF-8 bytes, so
  that a literal of this file denotes the Python literal of the same text;
  [lower], [upper] and [strip] are [str.lower], [str.upper] and [str.strip]
  on the characters that these bytes encode.  Dictionaries with string keys are
  [gmap string _]; the insertion-ordered dictionary of matched interfaces
  is an association list.  Effects (printing, the controller's API, the
  terminal, the environment) are threaded through a state-and-outcome
  monad whose state carries the trace of everything the program did. *)

From Stdlib Require Import Ascii String NArith ZArith Bool.
From stdpp Require Import gmap strings list fin_maps.

Local Open Scope string_scope.
Local Open Scope list_scope.

(** ** Python values and strings *)

(** The JSON scalars that the fields read by the program hold. *)
Inductive value :=
  | VNone
  | VBool (b : bool)
  | VStr (s : string).

#[global] Instance value_eq_dec : EqDecision value.
Proof. solve_decision. Defined.

#[global] Instance value_countable : Countable value.
Proof.
  refine (inj_countable'
  (fun v => match v with
            | VNone => inl ()
            | VBool b => inr (inl b)
            | VStr s => inr (inr s)
            end)
  (fun x => match x with
            | inl _ => VNone
            | inr (inl b) => VBool b
            | inr (inr s) => VStr s
            end) _).
  by intros [].
Defined.

(** [str(v)] *)
Definition py_str (v : value) : string :=
  match v with
  | VNone => "None"
  | VBool true => "True"
  | VBool false => "False"
  | VStr s => s
  end.

(** Truth value of an object in a condition. *)
Definition truthy (v : value) : bool :=
  match v with
  | VNone => false
  | VBool b => b
  | VStr s => negb (String.eqb s "")
  end.

Module PyStr.

(** *** Characters

    A character of a string is a block of one to four bytes, as UTF-8 lays
    the code points out; a byte that opens or continues no well-formed
    block is carried along and stands for no code point. *)

(** A continuation byte, [10xxxxxx]. *)
Definition is_cont (n : N) : bool := ((0x80 <=? n) && (n <? 0xC0))%N.

(** The number of bytes of the block that the byte [n] opens. *)
Definition width (n : N) : nat :=
  if (n <? 0xC0)%N then 1
  else if (n <? 0xE0)%N then 2
  else if (n <? 0xF0)%N then 3
  else if (n <? 0xF8)%N then 4
  else 1.

Definition flush (held : string) (l : list string) : list string :=
  match held with
  | EmptyString => l
  | _ => held :: l
  end.

(** The characters of [s], after the bytes [held] of a block that still
    lacks [need] continuation bytes. *)
Fixpoint chars_from (need : nat) (held : string) (s : string) : list string :=
  match s with
  | EmptyString => flush held []
  | String b r =>
      let n := N_of_ascii b in
      if negb (Nat.eqb need 0) && is_cont n then
        match need with
        | S (S k) => chars_from (S k) (held +:+ String b EmptyString) r
        | _ => (held +:+ String b EmptyString) :: chars_from 0 EmptyString r
        end
      else
        flush held
          match width n with
          | S (S k) => chars_from (S k) (String b EmptyString) r
          | _ => String b EmptyString :: chars_from 0 EmptyString r
          end
  end.

(** The characters of a string, in order. *)
Definition chars (s : string) : list string := chars_from 0 EmptyString s.

(** [''.join(l)] *)
Definition join (l : list string) : string := fold_right String.append EmptyString l.

(** The place of no code point, past the last one. *)
Definition no_code_point : N := 0x110000.

(** [ord(ch)] of a character; overlong blocks, surrogates and blocks past
    [U+10FFFF] are no characters of a Python string. *)
Definition cp_of (ch : string) : N :=
  match ch with
  | String b0 EmptyString =>
      let n0 := N_of_ascii b0 in
      if (n0 <? 0x80)%N then n0 else no_code_point
  | String b0 (String b1 EmptyString) =>
      let n0 := N_of_ascii b0 in
      let n1 := N_of_ascii b1 in
      let c := ((n0 - 0xC0) * 64 + (n1 - 0x80))%N in
      if ((0xC0 <=? n0) && (n0 <? 0xE0) && is_cont n1 && (0x80 <=? c))%N
      then c else no_code_point
  | String b0 (String b1 (String b2 EmptyString)) =>
      let n0 := N_of_ascii b0 in
      let n1 := N_of_ascii b1 in
      let n2 := N_of_ascii b2 in
      let c := (((n0 - 0xE0) * 64 + (n1 - 0x80)) * 64 + (n2 - 0x80))%N in
      if ((0xE0 <=? n0) && (n0 <? 0xF0) && is_cont n1 && is_cont n2 &&
          (0x800 <=? c) && negb ((0xD800 <=? c) && (c <=? 0xDFFF)))%N
      then c else no_code_point
  | String b0 (String b1 (String b2 (String b3 EmptyString))) =>
      let n0 := N_of_ascii b0 in
      let n1 := N_of_ascii b1 in
      let n2 := N_of_ascii b2 in
      let n3 := N_of_ascii b3 in
      let c := ((((n0 - 0xF0) * 64 + (n1 - 0x80)) * 64 + (n2 - 0x80)) * 64
                + (n3 - 0x80))%N in
      if ((0xF0 <=? n0) && (n0 <? 0xF8) && is_cont n1 && is_cont n2 && is_cont n3 &&
          (0x10000 <=? c) && (c <? 0x110000))%N
      then c else no_code_point
  | _ => no_code_point
  end.

(** [chr(c)] *)
Definition encode_cp (c : N) : string :=
  if (c <? 0x80)%N then String (ascii_of_N c) EmptyString
  else if (c <? 0x800)%N then
    String (ascii_of_N (0xC0 + c / 64))
      (String (ascii_of_N (0x80 + c mod 64)) EmptyString)
  else if (c <? 0x10000)%N then
    String (ascii_of_N (0xE0 + c / 4096))
      (String (ascii_of_N (0x80 + (c / 64) mod 64))
         (String (ascii_of_N (0x80 + c mod 64)) EmptyString))
  else
    String (ascii_of_N (0xF0 + c / 262144))
      (String (ascii_of_N (0x80 + (c / 4096) mod 64))
         (String (ascii_of_N (0x80 + (c / 64) mod 64))
            (String (ascii_of_N (0x80 + c mod 64)) EmptyString))).

Definition encode (cs : list N) : string := join (map encode_cp cs).

(** *** The case mappings

    [str.lower] and [str.upper] follow the Unicode Character Database, of
    which CPython 3.11 carries version 14.0.0. *)

(** The characters that [str.lower] moves, beyond the ASCII letters: each
    entry [(first, last, step, target)] sends the code points [first],
    [first + step], ..., [last] to [target], [target + step], ... *)
Definition lower_table : list (N * N * N * N) :=
  [
   (0xC0, 0xD6, 1, 0xE0); (0xD8, 0xDE, 1, 0xF8); (0x100, 0x12E, 2, 0x101);
   (0x132, 0x136, 2, 0x133); (0x139, 0x147, 2, 0x13A); (0x14A, 0x176, 2, 0x14B);
   (0x178, 0x178, 1, 0xFF); (0x179, 0x17D, 2, 0x17A); (0x181, 0x181, 1, 0x253);
   (0x182, 0x184, 2, 0x183); (0x186, 0x186, 1, 0x254); (0x187, 0x187, 1, 0x188);
   (0x189, 0x18A, 1, 0x256); (0x18B, 0x18B, 1, 0x18C); (0x18E, 0x18E, 1, 0x1DD);
   (0x18F, 0x18F, 1, 0x259); (0x190, 0x190, 1, 0x25B); (0x191, 0x191, 1, 0x192);
   (0x193, 0x193, 1, 0x260); (0x194, 0x194, 1, 0x263); (0x196, 0x196, 1, 0x269);
   (0x197, 0x197, 1, 0x268); (0x198, 0x198, 1, 0x199); (0x19C, 0x19C, 1, 0x26F);
   (0x19D, 0x19D, 1, 0x272); (0x19F, 0x19F, 1, 0x275); (0x1A0, 0x1A4, 2, 0x1A1);
   (0x1A6, 0x1A6, 1, 0x280); (0x1A7, 0x1A7, 1, 0x1A8); (0x1A9, 0x1A9, 1, 0x283);
   (0x1AC, 0x1AC, 1, 0x1AD); (0x1AE, 0x1AE, 1, 0x288); (0x1AF, 0x1AF, 1, 0x1B0);
   (0x1B1, 0x1B2, 1, 0x28A); (0x1B3, 0x1B5, 2, 0x1B4); (0x1B7, 0x1B7, 1, 0x292);
   (0x1B8, 0x1B8, 1, 0x1B9); (0x1BC, 0x1BC, 1, 0x1BD); (0x1C4, 0x1C4, 1, 0x1C6);
   (0x1C5, 0x1C5, 1, 0x1C6); (0x1C7, 0x1C7, 1, 0x1C9); (0x1C8, 0x1C8, 1, 0x1C9);
   (0x1CA, 0x1CA, 1, 0x1CC); (0x1CB, 0x1DB, 2, 0x1CC); (0x1DE, 0x1EE, 2, 0x1DF);
   (0x1F1, 0x1F1, 1, 0x1F3); (0x1F2, 0x1F4, 2, 0x1F3); (0x1F6, 0x1F6, 1, 0x195);
   (0x1F7, 0x1F7, 1, 0x1BF); (0x1F8, 0x21E, 2, 0x1F9); (0x220, 0x220, 1, 0x19E);
   (0x222, 0x232, 2, 0x223); (0x23A, 0x23A, 1, 0x2C65); (0x23B, 0x23B, 1, 0x23C);
   (0x23D, 0x23D, 1, 0x19A); (0x23E, 0x23E, 1, 0x2C66); (0x241, 0x241, 1, 0x242);
   (0x243, 0x243, 1, 0x180); (0x244, 0x244, 1, 0x289); (0x245, 0x245, 1, 0x28C);
   (0x246, 0x24E, 2, 0x247); (0x370, 0x372, 2, 0x371); (0x376, 0x376, 1, 0x377);
   (0x37F, 0x37F, 1, 0x3F3); (0x386, 0x386, 1, 0x3AC); (0x388, 0x38A, 1, 0x3AD);
   (0x38C, 0x38C, 1, 0x3CC); (0x38E, 0x38F, 1, 0x3CD); (0x391, 0x3A1, 1, 0x3B1);
   (0x3A3, 0x3AB, 1, 0x3C3); (0x3CF, 0x3CF, 1, 0x3D7); (0x3D8, 0x3EE, 2, 0x3D9);
   (0x3F4, 0x3F4, 1, 0x3B8); (0x3F7, 0x3F7, 1, 0x3F8); (0x3F9, 0x3F9, 1, 0x3F2);
   (0x3FA, 0x3FA, 1, 0x3FB); (0x3FD, 0x3FF, 1, 0x37B); (0x400, 0x40F, 1, 0x450);
   (0x410, 0x42F, 1, 0x430); (0x460, 0x480, 2, 0x461); (0x48A, 0x4BE, 2, 0x48B);
   (0x4C0, 0x4C0, 1, 0x4CF); (0x4C1, 0x4CD, 2, 0x4C2); (0x4D0, 0x52E, 2, 0x4D1);
   (0x531, 0x556, 1, 0x561); (0x10A0, 0x10C5, 1, 0x2D00); (0x10C7, 0x10C7, 1, 0x2D27);
   (0x10CD, 0x10CD, 1, 0x2D2D); (0x13A0, 0x13EF, 1, 0xAB70); (0x13F0, 0x13F5, 1, 0x13F8);
   (0x1C90, 0x1CBA, 1, 0x10D0); (0x1CBD, 0x1CBF, 1, 0x10FD); (0x1E00, 0x1E94, 2, 0x1E01);
   (0x1E9E, 0x1E9E, 1, 0xDF); (0x1EA0, 0x1EFE, 2, 0x1EA1); (0x1F08, 0x1F0F, 1, 0x1F00);
   (0x1F18, 0x1F1D, 1, 0x1F10); (0x1F28, 0x1F2F, 1, 0x1F20); (0x1F38, 0x1F3F, 1, 0x1F30);
   (0x1F48, 0x1F4D, 1, 0x1F40); (0x1F59, 0x1F5F, 2, 0x1F51); (0x1F68, 0x1F6F, 1, 0x1F60);
   (0x1F88, 0x1F8F, 1, 0x1F80); (0x1F98, 0x1F9F, 1, 0x1F90); (0x1FA8, 0x1FAF, 1, 0x1FA0);
   (0x1FB8, 0x1FB9, 1, 0x1FB0); (0x1FBA, 0x1FBB, 1, 0x1F70); (0x1FBC, 0x1FBC, 1, 0x1FB3);
   (0x1FC8, 0x1FCB, 1, 0x1F72); (0x1FCC, 0x1FCC, 1, 0x1FC3); (0x1FD8, 0x1FD9, 1, 0x1FD0);
   (0x1FDA, 0x1FDB, 1, 0x1F76); (0x1FE8, 0x1FE9, 1, 0x1FE0); (0x1FEA, 0x1FEB, 1, 0x1F7A);
   (0x1FEC, 0x1FEC, 1, 0x1FE5); (0x1FF8, 0x1FF9, 1, 0x1F78); (0x1FFA, 0x1FFB, 1, 0x1F7C);
   (0x1FFC, 0x1FFC, 1, 0x1FF3); (0x2126, 0x2126, 1, 0x3C9); (0x212A, 0x212A, 1, 0x6B);
   (0x212B, 0x212B, 1, 0xE5); (0x2132, 0x2132, 1, 0x214E); (0x2160, 0x216F, 1, 0x2170);
   (0x2183, 0x2183, 1, 0x2184); (0x24B6, 0x24CF, 1, 0x24D0); (0x2C00, 0x2C2F, 1, 0x2C30);
   (0x2C60, 0x2C60, 1, 0x2C61); (0x2C62, 0x2C62, 1, 0x26B); (0x2C63, 0x2C63, 1, 0x1D7D);
   (0x2C64, 0x2C64, 1, 0x27D); (0x2C67, 0x2C6B, 2, 0x2C68); (0x2C6D, 0x2C6D, 1, 0x251);
   (0x2C6E, 0x2C6E, 1, 0x271); (0x2C6F, 0x2C6F, 1, 0x250); (0x2C70, 0x2C70, 1, 0x252);
   (0x2C72, 0x2C72, 1, 0x2C73); (0x2C75, 0x2C75, 1, 0x2C76); (0x2C7E, 0x2C7F, 1, 0x23F);
   (0x2C80, 0x2CE2, 2, 0x2C81); (0x2CEB, 0x2CED, 2, 0x2CEC); (0x2CF2, 0x2CF2, 1, 0x2CF3);
   (0xA640, 0xA66C, 2, 0xA641); (0xA680, 0xA69A, 2, 0xA681); (0xA722, 0xA72E, 2, 0xA723);
   (0xA732, 0xA76E, 2, 0xA733); (0xA779, 0xA77B, 2, 0xA77A); (0xA77D, 0xA77D, 1, 0x1D79);
   (0xA77E, 0xA786, 2, 0xA77F); (0xA78B, 0xA78B, 1, 0xA78C); (0xA78D, 0xA78D, 1, 0x265);
   (0xA790, 0xA792, 2, 0xA791); (0xA796, 0xA7A8, 2, 0xA797); (0xA7AA, 0xA7AA, 1, 0x266);
   (0xA7AB, 0xA7AB, 1, 0x25C); (0xA7AC, 0xA7AC, 1, 0x261); (0xA7AD, 0xA7AD, 1, 0x26C);
   (0xA7AE, 0xA7AE, 1, 0x26A); (0xA7B0, 0xA7B0, 1, 0x29E); (0xA7B1, 0xA7B1, 1, 0x287);
   (0xA7B2, 0xA7B2, 1, 0x29D); (0xA7B3, 0xA7B3, 1, 0xAB53); (0xA7B4, 0xA7C2, 2, 0xA7B5);
   (0xA7C4, 0xA7C4, 1, 0xA794); (0xA7C5, 0xA7C5, 1, 0x282); (0xA7C6, 0xA7C6, 1, 0x1D8E);
   (0xA7C7, 0xA7C9, 2, 0xA7C8); (0xA7D0, 0xA7D0, 1, 0xA7D1); (0xA7D6, 0xA7D8, 2, 0xA7D7);
   (0xA7F5, 0xA7F5, 1, 0xA7F6); (0xFF21, 0xFF3A, 1, 0xFF41); (0x10400, 0x10427, 1, 0x10428);
   (0x104B0, 0x104D3, 1, 0x104D8); (0x10570, 0x10594, 2, 0x10597); (0x10571, 0x10579, 2, 0x10598);
   (0x1057D, 0x10589, 2, 0x105A4); (0x1058D, 0x10591, 2, 0x105B4); (0x10595, 0x10595, 1, 0x105BC);
   (0x10C80, 0x10CB2, 1, 0x10CC0); (0x118A0, 0x118BF, 1, 0x118C0); (0x16E40, 0x16E5F, 1, 0x16E60);
   (0x1E900, 0x1E921, 1, 0x1E922)
  ]%N.

(** The one character that [str.lower] sends to two code points. *)
Definition lower_special : list (N * list N) :=
  [
   (0x130, [0x69; 0x307])
  ]%N.

(** The characters that [str.upper] moves, beyond the ASCII letters. *)
Definition upper_table : list (N * N * N * N) :=
  [
   (0xB5, 0xB5, 1, 0x39C); (0xE0, 0xF6, 1, 0xC0); (0xF8, 0xFE, 1, 0xD8);
   (0xFF, 0xFF, 1, 0x178); (0x101, 0x12F, 2, 0x100); (0x131, 0x131, 1, 0x49);
   (0x133, 0x137, 2, 0x132); (0x13A, 0x148, 2, 0x139); (0x14B, 0x177, 2, 0x14A);
   (0x17A, 0x17E, 2, 0x179); (0x17F, 0x17F, 1, 0x53); (0x180, 0x180, 1, 0x243);
   (0x183, 0x185, 2, 0x182); (0x188, 0x188, 1, 0x187); (0x18C, 0x18C, 1, 0x18B);
   (0x192, 0x192, 1, 0x191); (0x195, 0x195, 1, 0x1F6); (0x199, 0x199, 1, 0x198);
   (0x19A, 0x19A, 1, 0x23D); (0x19E, 0x19E, 1, 0x220); (0x1A1, 0x1A5, 2, 0x1A0);
   (0x1A8, 0x1A8, 1, 0x1A7); (0x1AD, 0x1AD, 1, 0x1AC); (0x1B0, 0x1B0, 1, 0x1AF);
   (0x1B4, 0x1B6, 2, 0x1B3); (0x1B9, 0x1B9, 1, 0x1B8); (0x1BD, 0x1BD, 1, 0x1BC);
   (0x1BF, 0x1BF, 1, 0x1F7); (0x1C5, 0x1C5, 1, 0x1C4); (0x1C6, 0x1C6, 1, 0x1C4);
   (0x1C8, 0x1C8, 1, 0x1C7); (0x1C9, 0x1C9, 1, 0x1C7); (0x1CB, 0x1CB, 1, 0x1CA);
   (0x1CC, 0x1CC, 1, 0x1CA); (0x1CE, 0x1DC, 2, 0x1CD); (0x1DD, 0x1DD, 1, 0x18E);
   (0x1DF, 0x1EF, 2, 0x1DE); (0x1F2, 0x1F2, 1, 0x1F1); (0x1F3, 0x1F3, 1, 0x1F1);
   (0x1F5, 0x1F5, 1, 0x1F4); (0x1F9, 0x21F, 2, 0x1F8); (0x223, 0x233, 2, 0x222);
   (0x23C, 0x23C, 1, 0x23B); (0x23F, 0x240, 1, 0x2C7E); (0x242, 0x242, 1, 0x241);
   (0x247, 0x24F, 2, 0x246); (0x250, 0x250, 1, 0x2C6F); (0x251, 0x251, 1, 0x2C6D);
   (0x252, 0x252, 1, 0x2C70); (0x253, 0x253, 1, 0x181); (0x254, 0x254, 1, 0x186);
   (0x256, 0x257, 1, 0x189); (0x259, 0x259, 1, 0x18F); (0x25B, 0x25B, 1, 0x190);
   (0x25C, 0x25C, 1, 0xA7AB); (0x260, 0x260, 1, 0x193); (0x261, 0x261, 1, 0xA7AC);
   (0x263, 0x263, 1, 0x194); (0x265, 0x265, 1, 0xA78D); (0x266, 0x266, 1, 0xA7AA);
   (0x268, 0x268, 1, 0x197); (0x269, 0x269, 1, 0x196); (0x26A, 0x26A, 1, 0xA7AE);
   (0x26B, 0x26B, 1, 0x2C62); (0x26C, 0x26C, 1, 0xA7AD); (0x26F, 0x26F, 1, 0x19C);
   (0x271, 0x271, 1, 0x2C6E); (0x272, 0x272, 1, 0x19D); (0x275, 0x275, 1, 0x19F);
   (0x27D, 0x27D, 1, 0x2C64); (0x280, 0x280, 1, 0x1A6); (0x282, 0x282, 1, 0xA7C5);
   (0x283, 0x283, 1, 0x1A9); (0x287, 0x287, 1, 0xA7B1); (0x288, 0x288, 1, 0x1AE);
   (0x289, 0x289, 1, 0x244); (0x28A, 0x28B, 1, 0x1B1); (0x28C, 0x28C, 1, 0x245);
   (0x292, 0x292, 1, 0x1B7); (0x29D, 0x29D, 1, 0xA7B2); (0x29E, 0x29E, 1, 0xA7B0);
   (0x345, 0x345, 1, 0x399); (0x371, 0x373, 2, 0x370); (0x377, 0x377, 1, 0x376);
   (0x37B, 0x37D, 1, 0x3FD); (0x3AC, 0x3AC, 1, 0x386); (0x3AD, 0x3AF, 1, 0x388);
   (0x3B1, 0x3C1, 1, 0x391); (0x3C2, 0x3C2, 1, 0x3A3); (0x3C3, 0x3CB, 1, 0x3A3);
   (0x3CC, 0x3CC, 1, 0x38C); (0x3CD, 0x3CE, 1, 0x38E); (0x3D0, 0x3D0, 1, 0x392);
   (0x3D1, 0x3D1, 1, 0x398); (0x3D5, 0x3D5, 1, 0x3A6); (0x3D6, 0x3D6, 1, 0x3A0);
   (0x3D7, 0x3D7, 1, 0x3CF); (0x3D9, 0x3EF, 2, 0x3D8); (0x3F0, 0x3F0, 1, 0x39A);
   (0x3F1, 0x3F1, 1, 0x3A1); (0x3F2, 0x3F2, 1, 0x3F9); (0x3F3, 0x3F3, 1, 0x37F);
   (0x3F5, 0x3F5, 1, 0x395); (0x3F8, 0x3F8, 1, 0x3F7); (0x3FB, 0x3FB, 1, 0x3FA);
   (0x430, 0x44F, 1, 0x410); (0x450, 0x45F, 1, 0x400); (0x461, 0x481, 2, 0x460);
   (0x48B, 0x4BF, 2, 0x48A); (0x4C2, 0x4CE, 2, 0x4C1); (0x4CF, 0x4CF, 1, 0x4C0);
   (0x4D1, 0x52F, 2, 0x4D0); (0x561, 0x586, 1, 0x531); (0x10D0, 0x10FA, 1, 0x1C90);
   (0x10FD, 0x10FF, 1, 0x1CBD); (0x13F8, 0x13FD, 1, 0x13F0); (0x1C80, 0x1C80, 1, 0x412);
   (0x1C81, 0x1C81, 1, 0x414); (0x1C82, 0x1C82, 1, 0x41E); (0x1C83, 0x1C84, 1, 0x421);
   (0x1C85, 0x1C85, 1, 0x422); (0x1C86, 0x1C86, 1, 0x42A); (0x1C87, 0x1C87, 1, 0x462);
   (0x1C88, 0x1C88, 1, 0xA64A); (0x1D79, 0x1D79, 1, 0xA77D); (0x1D7D, 0x1D7D, 1, 0x2C63);
   (0x1D8E, 0x1D8E, 1, 0xA7C6); (0x1E01, 0x1E95, 2, 0x1E00); (0x1E9B, 0x1E9B, 1, 0x1E60);
   (0x1EA1, 0x1EFF, 2, 0x1EA0); (0x1F00, 0x1F07, 1, 0x1F08); (0x1F10, 0x1F15, 1, 0x1F18);
   (0x1F20, 0x1F27, 1, 0x1F28); (0x1F30, 0x1F37, 1, 0x1F38); (0x1F40, 0x1F45, 1, 0x1F48);
   (0x1F51, 0x1F57, 2, 0x1F59); (0x1F60, 0x1F67, 1, 0x1F68); (0x1F70, 0x1F71, 1, 0x1FBA);
   (0x1F72, 0x1F75, 1, 0x1FC8); (0x1F76, 0x1F77, 1, 0x1FDA); (0x1F78, 0x1F79, 1, 0x1FF8);
   (0x1F7A, 0x1F7B, 1, 0x1FEA); (0x1F7C, 0x1F7D, 1, 0x1FFA); (0x1FB0, 0x1FB1, 1, 0x1FB8);
   (0x1FBE, 0x1FBE, 1, 0x399); (0x1FD0, 0x1FD1, 1, 0x1FD8); (0x1FE0, 0x1FE1, 1, 0x1FE8);
   (0x1FE5, 0x1FE5, 1, 0x1FEC); (0x214E, 0x214E, 1, 0x2132); (0x2170, 0x217F, 1, 0x2160);
   (0x2184, 0x2184, 1, 0x2183); (0x24D0, 0x24E9, 1, 0x24B6); (0x2C30, 0x2C5F, 1, 0x2C00);
   (0x2C61, 0x2C61, 1, 0x2C60); (0x2C65, 0x2C65, 1, 0x23A); (0x2C66, 0x2C66, 1, 0x23E);
   (0x2C68, 0x2C6C, 2, 0x2C67); (0x2C73, 0x2C73, 1, 0x2C72); (0x2C76, 0x2C76, 1, 0x2C75);
   (0x2C81, 0x2CE3, 2, 0x2C80); (0x2CEC, 0x2CEE, 2, 0x2CEB); (0x2CF3, 0x2CF3, 1, 0x2CF2);
   (0x2D00, 0x2D25, 1, 0x10A0); (0x2D27, 0x2D27, 1, 0x10C7); (0x2D2D, 0x2D2D, 1, 0x10CD);
   (0xA641, 0xA66D, 2, 0xA640); (0xA681, 0xA69B, 2, 0xA680); (0xA723, 0xA72F, 2, 0xA722);
   (0xA733, 0xA76F, 2, 0xA732); (0xA77A, 0xA77C, 2, 0xA779); (0xA77F, 0xA787, 2, 0xA77E);
   (0xA78C, 0xA78C, 1, 0xA78B); (0xA791, 0xA793, 2, 0xA790); (0xA794, 0xA794, 1, 0xA7C4);
   (0xA797, 0xA7A9, 2, 0xA796); (0xA7B5, 0xA7C3, 2, 0xA7B4); (0xA7C8, 0xA7CA, 2, 0xA7C7);
   (0xA7D1, 0xA7D1, 1, 0xA7D0); (0xA7D7, 0xA7D9, 2, 0xA7D6); (0xA7F6, 0xA7F6, 1, 0xA7F5);
   (0xAB53, 0xAB53, 1, 0xA7B3); (0xAB70, 0xABBF, 1, 0x13A0); (0xFF41, 0xFF5A, 1, 0xFF21);
   (0x10428, 0x1044F, 1, 0x10400); (0x104D8, 0x104FB, 1, 0x104B0); (0x10597, 0x105BB, 2, 0x10570);
   (0x10598, 0x105A0, 2, 0x10571); (0x105A4, 0x105B0, 2, 0x1057D); (0x105B4, 0x105B8, 2, 0x1058D);
   (0x105BC, 0x105BC, 1, 0x10595); (0x10CC0, 0x10CF2, 1, 0x10C80); (0x118C0, 0x118DF, 1, 0x118A0);
   (0x16E60, 0x16E7F, 1, 0x16E40); (0x1E922, 0x1E943, 1, 0x1E900)
  ]%N.

(** The characters that [str.upper] sends to several code points. *)
Definition upper_special : list (N * list N) :=
  [
   (0xDF, [0x53; 0x53]); (0x149, [0x2BC; 0x4E]);
   (0x1F0, [0x4A; 0x30C]); (0x390, [0x399; 0x308; 0x301]);
   (0x3B0, [0x3A5; 0x308; 0x301]); (0x587, [0x535; 0x552]);
   (0x1E96, [0x48; 0x331]); (0x1E97, [0x54; 0x308]);
   (0x1E98, [0x57; 0x30A]); (0x1E99, [0x59; 0x30A]);
   (0x1E9A, [0x41; 0x2BE]); (0x1F50, [0x3A5; 0x313]);
   (0x1F52, [0x3A5; 0x313; 0x300]); (0x1F54, [0x3A5; 0x313; 0x301]);
   (0x1F56, [0x3A5; 0x313; 0x342]); (0x1F80, [0x1F08; 0x399]);
   (0x1F81, [0x1F09; 0x399]); (0x1F82, [0x1F0A; 0x399]);
   (0x1F83, [0x1F0B; 0x399]); (0x1F84, [0x1F0C; 0x399]);
   (0x1F85, [0x1F0D; 0x399]); (0x1F86, [0x1F0E; 0x399]);
   (0x1F87, [0x1F0F; 0x399]); (0x1F88, [0x1F08; 0x399]);
   (0x1F89, [0x1F09; 0x399]); (0x1F8A, [0x1F0A; 0x399]);
   (0x1F8B, [0x1F0B; 0x399]); (0x1F8C, [0x1F0C; 0x399]);
   (0x1F8D, [0x1F0D; 0x399]); (0x1F8E, [0x1F0E; 0x399]);
   (0x1F8F, [0x1F0F; 0x399]); (0x1F90, [0x1F28; 0x399]);
   (0x1F91, [0x1F29; 0x399]); (0x1F92, [0x1F2A; 0x399]);
   (0x1F93, [0x1F2B; 0x399]); (0x1F94, [0x1F2C; 0x399]);
   (0x1F95, [0x1F2D; 0x399]); (0x1F96, [0x1F2E; 0x399]);
   (0x1F97, [0x1F2F; 0x399]); (0x1F98, [0x1F28; 0x399]);
   (0x1F99, [0x1F29; 0x399]); (0x1F9A, [0x1F2A; 0x399]);
   (0x1F9B, [0x1F2B; 0x399]); (0x1F9C, [0x1F2C; 0x399]);
   (0x1F9D, [0x1F2D; 0x399]); (0x1F9E, [0x1F2E; 0x399]);
   (0x1F9F, [0x1F2F; 0x399]); (0x1FA0, [0x1F68; 0x399]);
   (0x1FA1, [0x1F69; 0x399]); (0x1FA2, [0x1F6A; 0x399]);
   (0x1FA3, [0x1F6B; 0x399]); (0x1FA4, [0x1F6C; 0x399]);
   (0x1FA5, [0x1F6D; 0x399]); (0x1FA6, [0x1F6E; 0x399]);
   (0x1FA7, [0x1F6F; 0x399]); (0x1FA8, [0x1F68; 0x399]);
   (0x1FA9, [0x1F69; 0x399]); (0x1FAA, [0x1F6A; 0x399]);
   (0x1FAB, [0x1F6B; 0x399]); (0x1FAC, [0x1F6C; 0x399]);
   (0x1FAD, [0x1F6D; 0x399]); (0x1FAE, [0x1F6E; 0x399]);
   (0x1FAF, [0x1F6F; 0x399]); (0x1FB2, [0x1FBA; 0x399]);
   (0x1FB3, [0x391; 0x399]); (0x1FB4, [0x386; 0x399]);
   (0x1FB6, [0x391; 0x342]); (0x1FB7, [0x391; 0x342; 0x399]);
   (0x1FBC, [0x391; 0x399]); (0x1FC2, [0x1FCA; 0x399]);
   (0x1FC3, [0x397; 0x399]); (0x1FC4, [0x389; 0x399]);
   (0x1FC6, [0x397; 0x342]); (0x1FC7, [0x397; 0x342; 0x399]);
   (0x1FCC, [0x397; 0x399]); (0x1FD2, [0x399; 0x308; 0x300]);
   (0x1FD3, [0x399; 0x308; 0x301]); (0x1FD6, [0x399; 0x342]);
   (0x1FD7, [0x399; 0x308; 0x342]); (0x1FE2, [0x3A5; 0x308; 0x300]);
   (0x1FE3, [0x3A5; 0x308; 0x301]); (0x1FE4, [0x3A1; 0x313]);
   (0x1FE6, [0x3A5; 0x342]); (0x1FE7, [0x3A5; 0x308; 0x342]);
   (0x1FF2, [0x1FFA; 0x399]); (0x1FF3, [0x3A9; 0x399]);
   (0x1FF4, [0x38F; 0x399]); (0x1FF6, [0x3A9; 0x342]);
   (0x1FF7, [0x3A9; 0x342; 0x399]); (0x1FFC, [0x3A9; 0x399]);
   (0xFB00, [0x46; 0x46]); (0xFB01, [0x46; 0x49]);
   (0xFB02, [0x46; 0x4C]); (0xFB03, [0x46; 0x46; 0x49]);
   (0xFB04, [0x46; 0x46; 0x4C]); (0xFB05, [0x53; 0x54]);
   (0xFB06, [0x53; 0x54]); (0xFB13, [0x544; 0x546]);
   (0xFB14, [0x544; 0x535]); (0xFB15, [0x544; 0x53B]);
   (0xFB16, [0x54E; 0x546]); (0xFB17, [0x544; 0x53D])
  ]%N.

(** The cased characters beyond the ASCII letters, as ranges. *)
Definition cased_table : list (N * N) :=
  [
   (0xAA, 0xAA); (0xB5, 0xB5); (0xBA, 0xBA); (0xC0, 0xD6); (0xD8, 0xF6);
   (0xF8, 0x1BA); (0x1BC, 0x1BF); (0x1C4, 0x293); (0x295, 0x2B8); (0x2C0, 0x2C1);
   (0x2E0, 0x2E4); (0x345, 0x345); (0x370, 0x373); (0x376, 0x377); (0x37A, 0x37D);
   (0x37F, 0x37F); (0x386, 0x386); (0x388, 0x38A); (0x38C, 0x38C); (0x38E, 0x3A1);
   (0x3A3, 0x3F5); (0x3F7, 0x481); (0x48A, 0x52F); (0x531, 0x556); (0x560, 0x588);
   (0x10A0, 0x10C5); (0x10C7, 0x10C7); (0x10CD, 0x10CD); (0x10D0, 0x10FA); (0x10FD, 0x10FF);
   (0x13A0, 0x13F5); (0x13F8, 0x13FD); (0x1C80, 0x1C88); (0x1C90, 0x1CBA); (0x1CBD, 0x1CBF);
   (0x1D00, 0x1DBF); (0x1E00, 0x1F15); (0x1F18, 0x1F1D); (0x1F20, 0x1F45); (0x1F48, 0x1F4D);
   (0x1F50, 0x1F57); (0x1F59, 0x1F59); (0x1F5B, 0x1F5B); (0x1F5D, 0x1F5D); (0x1F5F, 0x1F7D);
   (0x1F80, 0x1FB4); (0x1FB6, 0x1FBC); (0x1FBE, 0x1FBE); (0x1FC2, 0x1FC4); (0x1FC6, 0x1FCC);
   (0x1FD0, 0x1FD3); (0x1FD6, 0x1FDB); (0x1FE0, 0x1FEC); (0x1FF2, 0x1FF4); (0x1FF6, 0x1FFC);
   (0x2071, 0x2071); (0x207F, 0x207F); (0x2090, 0x209C); (0x2102, 0x2102); (0x2107, 0x2107);
   (0x210A, 0x2113); (0x2115, 0x2115); (0x2119, 0x211D); (0x2124, 0x2124); (0x2126, 0x2126);
   (0x2128, 0x2128); (0x212A, 0x212D); (0x212F, 0x2134); (0x2139, 0x2139); (0x213C, 0x213F);
   (0x2145, 0x2149); (0x214E, 0x214E); (0x2160, 0x217F); (0x2183, 0x2184); (0x24B6, 0x24E9);
   (0x2C00, 0x2CE4); (0x2CEB, 0x2CEE); (0x2CF2, 0x2CF3); (0x2D00, 0x2D25); (0x2D27, 0x2D27);
   (0x2D2D, 0x2D2D); (0xA640, 0xA66D); (0xA680, 0xA69D); (0xA722, 0xA787); (0xA78B, 0xA78E);
   (0xA790, 0xA7CA); (0xA7D0, 0xA7D1); (0xA7D3, 0xA7D3); (0xA7D5, 0xA7D9); (0xA7F5, 0xA7F6);
   (0xA7F8, 0xA7FA); (0xAB30, 0xAB5A); (0xAB5C, 0xAB68); (0xAB70, 0xABBF); (0xFB00, 0xFB06);
   (0xFB13, 0xFB17); (0xFF21, 0xFF3A); (0xFF41, 0xFF5A); (0x10400, 0x1044F); (0x104B0, 0x104D3);
   (0x104D8, 0x104FB); (0x10570, 0x1057A); (0x1057C, 0x1058A); (0x1058C, 0x10592); (0x10594, 0x10595);
   (0x10597, 0x105A1); (0x105A3, 0x105B1); (0x105B3, 0x105B9); (0x105BB, 0x105BC); (0x10780, 0x10780);
   (0x10783, 0x10785); (0x10787, 0x107B0); (0x107B2, 0x107BA); (0x10C80, 0x10CB2); (0x10CC0, 0x10CF2);
   (0x118A0, 0x118DF); (0x16E40, 0x16E7F); (0x1D400, 0x1D454); (0x1D456, 0x1D49C); (0x1D49E, 0x1D49F);
   (0x1D4A2, 0x1D4A2); (0x1D4A5, 0x1D4A6); (0x1D4A9, 0x1D4AC); (0x1D4AE, 0x1D4B9); (0x1D4BB, 0x1D4BB);
   (0x1D4BD, 0x1D4C3); (0x1D4C5, 0x1D505); (0x1D507, 0x1D50A); (0x1D50D, 0x1D514); (0x1D516, 0x1D51C);
   (0x1D51E, 0x1D539); (0x1D53B, 0x1D53E); (0x1D540, 0x1D544); (0x1D546, 0x1D546); (0x1D54A, 0x1D550);
   (0x1D552, 0x1D6A5); (0x1D6A8, 0x1D6C0); (0x1D6C2, 0x1D6DA); (0x1D6DC, 0x1D6FA); (0x1D6FC, 0x1D714);
   (0x1D716, 0x1D734); (0x1D736, 0x1D74E); (0x1D750, 0x1D76E); (0x1D770, 0x1D788); (0x1D78A, 0x1D7A8);
   (0x1D7AA, 0x1D7C2); (0x1D7C4, 0x1D7CB); (0x1DF00, 0x1DF09); (0x1DF0B, 0x1DF1E); (0x1E900, 0x1E943);
   (0x1F130, 0x1F149); (0x1F150, 0x1F169); (0x1F170, 0x1F189)
  ]%N.

(** The case-ignorable characters beyond ASCII, as ranges. *)
Definition case_ignorable_table : list (N * N) :=
  [
   (0xA8, 0xA8); (0xAD, 0xAD); (0xAF, 0xAF); (0xB4, 0xB4); (0xB7, 0xB8);
   (0x2B0, 0x36F); (0x374, 0x375); (0x37A, 0x37A); (0x384, 0x385); (0x387, 0x387);
   (0x483, 0x489); (0x559, 0x559); (0x55F, 0x55F); (0x591, 0x5BD); (0x5BF, 0x5BF);
   (0x5C1, 0x5C2); (0x5C4, 0x5C5); (0x5C7, 0x5C7); (0x5F4, 0x5F4); (0x600, 0x605);
   (0x610, 0x61A); (0x61C, 0x61C); (0x640, 0x640); (0x64B, 0x65F); (0x670, 0x670);
   (0x6D6, 0x6DD); (0x6DF, 0x6E8); (0x6EA, 0x6ED); (0x70F, 0x70F); (0x711, 0x711);
   (0x730, 0x74A); (0x7A6, 0x7B0); (0x7EB, 0x7F5); (0x7FA, 0x7FA); (0x7FD, 0x7FD);
   (0x816, 0x82D); (0x859, 0x85B); (0x888, 0x888); (0x890, 0x891); (0x898, 0x89F);
   (0x8C9, 0x902); (0x93A, 0x93A); (0x93C, 0x93C); (0x941, 0x948); (0x94D, 0x94D);
   (0x951, 0x957); (0x962, 0x963); (0x971, 0x971); (0x981, 0x981); (0x9BC, 0x9BC);
   (0x9C1, 0x9C4); (0x9CD, 0x9CD); (0x9E2, 0x9E3); (0x9FE, 0x9FE); (0xA01, 0xA02);
   (0xA3C, 0xA3C); (0xA41, 0xA42); (0xA47, 0xA48); (0xA4B, 0xA4D); (0xA51, 0xA51);
   (0xA70, 0xA71); (0xA75, 0xA75); (0xA81, 0xA82); (0xABC, 0xABC); (0xAC1, 0xAC5);
   (0xAC7, 0xAC8); (0xACD, 0xACD); (0xAE2, 0xAE3); (0xAFA, 0xAFF); (0xB01, 0xB01);
   (0xB3C, 0xB3C); (0xB3F, 0xB3F); (0xB41, 0xB44); (0xB4D, 0xB4D); (0xB55, 0xB56);
   (0xB62, 0xB63); (0xB82, 0xB82); (0xBC0, 0xBC0); (0xBCD, 0xBCD); (0xC00, 0xC00);
   (0xC04, 0xC04); (0xC3C, 0xC3C); (0xC3E, 0xC40); (0xC46, 0xC48); (0xC4A, 0xC4D);
   (0xC55, 0xC56); (0xC62, 0xC63); (0xC81, 0xC81); (0xCBC, 0xCBC); (0xCBF, 0xCBF);
   (0xCC6, 0xCC6); (0xCCC, 0xCCD); (0xCE2, 0xCE3); (0xD00, 0xD01); (0xD3B, 0xD3C);
   (0xD41, 0xD44); (0xD4D, 0xD4D); (0xD62, 0xD63); (0xD81, 0xD81); (0xDCA, 0xDCA);
   (0xDD2, 0xDD4); (0xDD6, 0xDD6); (0xE31, 0xE31); (0xE34, 0xE3A); (0xE46, 0xE4E);
   (0xEB1, 0xEB1); (0xEB4, 0xEBC); (0xEC6, 0xEC6); (0xEC8, 0xECD); (0xF18, 0xF19);
   (0xF35, 0xF35); (0xF37, 0xF37); (0xF39, 0xF39); (0xF71, 0xF7E); (0xF80, 0xF84);
   (0xF86, 0xF87); (0xF8D, 0xF97); (0xF99, 0xFBC); (0xFC6, 0xFC6); (0x102D, 0x1030);
   (0x1032, 0x1037); (0x1039, 0x103A); (0x103D, 0x103E); (0x1058, 0x1059); (0x105E, 0x1060);
   (0x1071, 0x1074); (0x1082, 0x1082); (0x1085, 0x1086); (0x108D, 0x108D); (0x109D, 0x109D);
   (0x10FC, 0x10FC); (0x135D, 0x135F); (0x1712, 0x1714); (0x1732, 0x1733); (0x1752, 0x1753);
   (0x1772, 0x1773); (0x17B4, 0x17B5); (0x17B7, 0x17BD); (0x17C6, 0x17C6); (0x17C9, 0x17D3);
   (0x17D7, 0x17D7); (0x17DD, 0x17DD); (0x180B, 0x180F); (0x1843, 0x1843); (0x1885, 0x1886);
   (0x18A9, 0x18A9); (0x1920, 0x1922); (0x1927, 0x1928); (0x1932, 0x1932); (0x1939, 0x193B);
   (0x1A17, 0x1A18); (0x1A1B, 0x1A1B); (0x1A56, 0x1A56); (0x1A58, 0x1A5E); (0x1A60, 0x1A60);
   (0x1A62, 0x1A62); (0x1A65, 0x1A6C); (0x1A73, 0x1A7C); (0x1A7F, 0x1A7F); (0x1AA7, 0x1AA7);
   (0x1AB0, 0x1ACE); (0x1B00, 0x1B03); (0x1B34, 0x1B34); (0x1B36, 0x1B3A); (0x1B3C, 0x1B3C);
   (0x1B42, 0x1B42); (0x1B6B, 0x1B73); (0x1B80, 0x1B81); (0x1BA2, 0x1BA5); (0x1BA8, 0x1BA9);
   (0x1BAB, 0x1BAD); (0x1BE6, 0x1BE6); (0x1BE8, 0x1BE9); (0x1BED, 0x1BED); (0x1BEF, 0x1BF1);
   (0x1C2C, 0x1C33); (0x1C36, 0x1C37); (0x1C78, 0x1C7D); (0x1CD0, 0x1CD2); (0x1CD4, 0x1CE0);
   (0x1CE2, 0x1CE8); (0x1CED, 0x1CED); (0x1CF4, 0x1CF4); (0x1CF8, 0x1CF9); (0x1D2C, 0x1D6A);
   (0x1D78, 0x1D78); (0x1D9B, 0x1DFF); (0x1FBD, 0x1FBD); (0x1FBF, 0x1FC1); (0x1FCD, 0x1FCF);
   (0x1FDD, 0x1FDF); (0x1FED, 0x1FEF); (0x1FFD, 0x1FFE); (0x200B, 0x200F); (0x2018, 0x2019);
   (0x2024, 0x2024); (0x2027, 0x2027); (0x202A, 0x202E); (0x2060, 0x2064); (0x2066, 0x206F);
   (0x2071, 0x2071); (0x207F, 0x207F); (0x2090, 0x209C); (0x20D0, 0x20F0); (0x2C7C, 0x2C7D);
   (0x2CEF, 0x2CF1); (0x2D6F, 0x2D6F); (0x2D7F, 0x2D7F); (0x2DE0, 0x2DFF); (0x2E2F, 0x2E2F);
   (0x3005, 0x3005); (0x302A, 0x302D); (0x3031, 0x3035); (0x303B, 0x303B); (0x3099, 0x309E);
   (0x30FC, 0x30FE); (0xA015, 0xA015); (0xA4F8, 0xA4FD); (0xA60C, 0xA60C); (0xA66F, 0xA672);
   (0xA674, 0xA67D); (0xA67F, 0xA67F); (0xA69C, 0xA69F); (0xA6F0, 0xA6F1); (0xA700, 0xA721);
   (0xA770, 0xA770); (0xA788, 0xA78A); (0xA7F2, 0xA7F4); (0xA7F8, 0xA7F9); (0xA802, 0xA802);
   (0xA806, 0xA806); (0xA80B, 0xA80B); (0xA825, 0xA826); (0xA82C, 0xA82C); (0xA8C4, 0xA8C5);
   (0xA8E0, 0xA8F1); (0xA8FF, 0xA8FF); (0xA926, 0xA92D); (0xA947, 0xA951); (0xA980, 0xA982);
   (0xA9B3, 0xA9B3); (0xA9B6, 0xA9B9); (0xA9BC, 0xA9BD); (0xA9CF, 0xA9CF); (0xA9E5, 0xA9E6);
   (0xAA29, 0xAA2E); (0xAA31, 0xAA32); (0xAA35, 0xAA36); (0xAA43, 0xAA43); (0xAA4C, 0xAA4C);
   (0xAA70, 0xAA70); (0xAA7C, 0xAA7C); (0xAAB0, 0xAAB0); (0xAAB2, 0xAAB4); (0xAAB7, 0xAAB8);
   (0xAABE, 0xAABF); (0xAAC1, 0xAAC1); (0xAADD, 0xAADD); (0xAAEC, 0xAAED); (0xAAF3, 0xAAF4);
   (0xAAF6, 0xAAF6); (0xAB5B, 0xAB5F); (0xAB69, 0xAB6B); (0xABE5, 0xABE5); (0xABE8, 0xABE8);
   (0xABED, 0xABED); (0xFB1E, 0xFB1E); (0xFBB2, 0xFBC2); (0xFE00, 0xFE0F); (0xFE13, 0xFE13);
   (0xFE20, 0xFE2F); (0xFE52, 0xFE52); (0xFE55, 0xFE55); (0xFEFF, 0xFEFF); (0xFF07, 0xFF07);
   (0xFF0E, 0xFF0E); (0xFF1A, 0xFF1A); (0xFF3E, 0xFF3E); (0xFF40, 0xFF40); (0xFF70, 0xFF70);
   (0xFF9E, 0xFF9F); (0xFFE3, 0xFFE3); (0xFFF9, 0xFFFB); (0x101FD, 0x101FD); (0x102E0, 0x102E0);
   (0x10376, 0x1037A); (0x10780, 0x10785); (0x10787, 0x107B0); (0x107B2, 0x107BA); (0x10A01, 0x10A03);
   (0x10A05, 0x10A06); (0x10A0C, 0x10A0F); (0x10A38, 0x10A3A); (0x10A3F, 0x10A3F); (0x10AE5, 0x10AE6);
   (0x10D24, 0x10D27); (0x10EAB, 0x10EAC); (0x10F46, 0x10F50); (0x10F82, 0x10F85); (0x11001, 0x11001);
   (0x11038, 0x11046); (0x11070, 0x11070); (0x11073, 0x11074); (0x1107F, 0x11081); (0x110B3, 0x110B6);
   (0x110B9, 0x110BA); (0x110BD, 0x110BD); (0x110C2, 0x110C2); (0x110CD, 0x110CD); (0x11100, 0x11102);
   (0x11127, 0x1112B); (0x1112D, 0x11134); (0x11173, 0x11173); (0x11180, 0x11181); (0x111B6, 0x111BE);
   (0x111C9, 0x111CC); (0x111CF, 0x111CF); (0x1122F, 0x11231); (0x11234, 0x11234); (0x11236, 0x11237);
   (0x1123E, 0x1123E); (0x112DF, 0x112DF); (0x112E3, 0x112EA); (0x11300, 0x11301); (0x1133B, 0x1133C);
   (0x11340, 0x11340); (0x11366, 0x1136C); (0x11370, 0x11374); (0x11438, 0x1143F); (0x11442, 0x11444);
   (0x11446, 0x11446); (0x1145E, 0x1145E); (0x114B3, 0x114B8); (0x114BA, 0x114BA); (0x114BF, 0x114C0);
   (0x114C2, 0x114C3); (0x115B2, 0x115B5); (0x115BC, 0x115BD); (0x115BF, 0x115C0); (0x115DC, 0x115DD);
   (0x11633, 0x1163A); (0x1163D, 0x1163D); (0x1163F, 0x11640); (0x116AB, 0x116AB); (0x116AD, 0x116AD);
   (0x116B0, 0x116B5); (0x116B7, 0x116B7); (0x1171D, 0x1171F); (0x11722, 0x11725); (0x11727, 0x1172B);
   (0x1182F, 0x11837); (0x11839, 0x1183A); (0x1193B, 0x1193C); (0x1193E, 0x1193E); (0x11943, 0x11943);
   (0x119D4, 0x119D7); (0x119DA, 0x119DB); (0x119E0, 0x119E0); (0x11A01, 0x11A0A); (0x11A33, 0x11A38);
   (0x11A3B, 0x11A3E); (0x11A47, 0x11A47); (0x11A51, 0x11A56); (0x11A59, 0x11A5B); (0x11A8A, 0x11A96);
   (0x11A98, 0x11A99); (0x11C30, 0x11C36); (0x11C38, 0x11C3D); (0x11C3F, 0x11C3F); (0x11C92, 0x11CA7);
   (0x11CAA, 0x11CB0); (0x11CB2, 0x11CB3); (0x11CB5, 0x11CB6); (0x11D31, 0x11D36); (0x11D3A, 0x11D3A);
   (0x11D3C, 0x11D3D); (0x11D3F, 0x11D45); (0x11D47, 0x11D47); (0x11D90, 0x11D91); (0x11D95, 0x11D95);
   (0x11D97, 0x11D97); (0x11EF3, 0x11EF4); (0x13430, 0x13438); (0x16AF0, 0x16AF4); (0x16B30, 0x16B36);
   (0x16B40, 0x16B43); (0x16F4F, 0x16F4F); (0x16F8F, 0x16F9F); (0x16FE0, 0x16FE1); (0x16FE3, 0x16FE4);
   (0x1AFF0, 0x1AFF3); (0x1AFF5, 0x1AFFB); (0x1AFFD, 0x1AFFE); (0x1BC9D, 0x1BC9E); (0x1BCA0, 0x1BCA3);
   (0x1CF00, 0x1CF2D); (0x1CF30, 0x1CF46); (0x1D167, 0x1D169); (0x1D173, 0x1D182); (0x1D185, 0x1D18B);
   (0x1D1AA, 0x1D1AD); (0x1D242, 0x1D244); (0x1DA00, 0x1DA36); (0x1DA3B, 0x1DA6C); (0x1DA75, 0x1DA75);
   (0x1DA84, 0x1DA84); (0x1DA9B, 0x1DA9F); (0x1DAA1, 0x1DAAF); (0x1E000, 0x1E006); (0x1E008, 0x1E018);
   (0x1E01B, 0x1E021); (0x1E023, 0x1E024); (0x1E026, 0x1E02A); (0x1E130, 0x1E13D); (0x1E2AE, 0x1E2AE);
   (0x1E2EC, 0x1E2EF); (0x1E8D0, 0x1E8D6); (0x1E944, 0x1E94B); (0x1F3FB, 0x1F3FF); (0xE0001, 0xE0001);
   (0xE0020, 0xE007F); (0xE0100, 0xE01EF)
  ]%N.

Definition find_range (t : list (N * N * N * N)) (c : N) : option N :=
  match List.find (fun e => match e with
                            | (first, last, step, _) =>
                                ((first <=? c) && (c <=? last)
                                 && ((c - first) mod step =? 0))%N
                            end) t with
  | Some (first, _, _, target) => Some (target + (c - first))%N
  | None => None
  end.

Definition find_special (t : list (N * list N)) (c : N) : option (list N) :=
  match List.find (fun e => (fst e =? c)%N) t with
  | Some e => Some (snd e)
  | None => None
  end.

Definition in_ranges (t : list (N * N)) (c : N) : bool :=
  List.existsb (fun e => ((fst e <=? c) && (c <=? snd e))%N) t.

(** What [str.lower] puts for the code point [c], when it moves it. *)
Definition to_lower (c : N) : option (list N) :=
  if (c <? 0x80)%N then
    if ((0x41 <=? c) && (c <=? 0x5A))%N then Some [(c + 32)%N] else None
  else
    match find_special lower_special c with
    | Some t => Some t
    | None =>
        match find_range lower_table c with
        | Some t => Some [t]
        | None => None
        end
    end.

(** What [str.upper] puts for the code point [c], when it moves it. *)
Definition to_upper (c : N) : option (list N) :=
  if (c <? 0x80)%N then
    if ((0x61 <=? c) && (c <=? 0x7A))%N then Some [(c - 32)%N] else None
  else
    match find_special upper_special c with
    | Some t => Some t
    | None =>
        match find_range upper_table c with
        | Some t => Some [t]
        | None => None
        end
    end.

Definition cased (c : N) : bool :=
  if (c <? 0x80)%N then
    (((0x41 <=? c) && (c <=? 0x5A)) || ((0x61 <=? c) && (c <=? 0x7A)))%N
  else in_ranges cased_table c.

Definition case_ignorable (c : N) : bool :=
  if (c <? 0x80)%N then
    ((c =? 0x27) || (c =? 0x2E) || (c =? 0x3A) || (c =? 0x5E) || (c =? 0x60))%N
  else in_ranges case_ignorable_table c.

(** Whether the first character of [l] that is not case-ignorable is
    cased. *)
Fixpoint cased_next (l : list string) : bool :=
  match l with
  | [] => false
  | ch :: r =>
      if case_ignorable (cp_of ch) then cased_next r else cased (cp_of ch)
  end.

(** A capital sigma is final when a cased letter stands before it and none
    after it, case-ignorable characters apart; [before] is read backwards
    from the sigma. *)
Definition final_sigma (before after : list string) : bool :=
  cased_next before && negb (cased_next after).

Definition moved (ch : string) (t : option (list N)) : string :=
  match t with
  | Some cs => encode cs
  | None => ch
  end.

Fixpoint lower_chars (before l : list string) : list string :=
  match l with
  | [] => []
  | ch :: r =>
      (if (cp_of ch =? 0x3A3)%N
       then encode_cp (if final_sigma before r then 0x3C2 else 0x3C3)%N
       else moved ch (to_lower (cp_of ch)))
      :: lower_chars (ch :: before) r
  end.

(** [s.lower()] *)
Definition lower (s : string) : string := join (lower_chars [] (chars s)).

(** [s.upper()] *)
Definition upper (s : string) : string :=
  join (map (fun ch => moved ch (to_upper (cp_of ch))) (chars s)).

(** [s.startswith(p)] *)
Fixpoint startswith (p s : string) : bool :=
  match p, s with
  | EmptyString, _ => true
  | String _ _, EmptyString => false
  | String a p', String b s' => Ascii.eqb a b && startswith p' s'
  end.

(** [needle in hay] for two strings: some position of [hay] starts with
    [needle]; the empty needle is found in every string. *)
Fixpoint contains (needle hay : string) : bool :=
  startswith needle hay ||
  match hay with
  | EmptyString => false
  | String _ r => contains needle r
  end.

(** [c.isspace()], the white space that [str.strip] removes. *)
Definition is_space (c : N) : bool :=
  (((0x09 <=? c) && (c <=? 0x0D)) || ((0x1C <=? c) && (c <=? 0x20))
   || (c =? 0x85) || (c =? 0xA0) || (c =? 0x1680)
   || ((0x2000 <=? c) && (c <=? 0x200A))
   || (c =? 0x2028) || (c =? 0x2029) || (c =? 0x202F) || (c =? 0x205F)
   || (c =? 0x3000))%N.

Fixpoint lstrip (l : list string) : list string :=
  match l with
  | [] => []
  | ch :: r => if is_space (cp_of ch) then lstrip r else l
  end.

Fixpoint rstrip (l : list string) : list string :=
  match l with
  | [] => []
  | ch :: r =>
      match rstrip r with
      | [] => if is_space (cp_of ch) then [] else [ch]
      | r' => ch :: r'
      end
  end.

(** [s.strip()] *)
Definition strip (s : string) : string := join (rstrip (lstrip (chars s))).

(** The other case of an ASCII letter; every other byte stays. *)
Definition swap_letter (b : ascii) : ascii :=
  let n := N_of_ascii b in
  if ((0x41 <=? n) && (n <=? 0x5A))%N then ascii_of_N (n + 32)
  else if ((0x61 <=? n) && (n <=? 0x7A))%N then ascii_of_N (n - 32)
  else b.

(** [s'] is [s] with the case of some of its ASCII letters changed. *)
Inductive case_changed : string -> string -> Prop :=
  | cc_nil : case_changed EmptyString EmptyString
  | cc_cons b b' s s' :
      b' = b \/ b' = swap_letter b -> case_changed s s' ->
      case_changed (String b s) (String b' s').

(** [ch'] is the character [ch], or the other case of the ASCII letter
    [ch]. *)
Definition letter_changed (ch ch' : string) : Prop :=
  ch' = ch \/
  exists b, ch = String b EmptyString /\ ch' = String (swap_letter b) EmptyString.

(** Text of ASCII characters only. *)
Fixpoint is_ascii (s : string) : bool :=
  match s with
  | EmptyString => true
  | String b r => (N_of_ascii b <? 0x80)%N && is_ascii r
  end.

(** [m] occurs in [s] as a contiguous block. *)
Definition substring_of (m s : string) : Prop :=
  exists pre suf, s = pre +:+ m +:+ suf.

End PyStr.

(** [string_match], lines 75-78:
  [if str(match).lower() in str(string).lower(): return True] *)
Definition string_match (string_ match_ : value) : bool :=
  if PyStr.contains (PyStr.lower (py_str match_)) (PyStr.lower (py_str string_))
  then true
  else false.

(** ** Dictionaries, responses and the trace *)

(** A JSON object with scalar fields: a site, a WAN interface, a label. *)
Abbreviation dict := (gmap string value).

(** What the program reads of a response of the SDK: its truth value in a
    condition, [cgx_status], and of [cgx_content] the results of
    [.get("name", None)] and [.get("items", None)] (no items: [None]). *)
Record response := {
  resp_truth : bool;
  cgx_status : bool;
  content_name : value;
  content_items : option (list dict)
}.

Inductive event :=
  | Print (args : list string)
  | Input (prompt : string)
  | OpenFile (path : string)
  | EnvTest (name : string)
  | EnvGet (name : string)
  | UseToken (tok : string)
  | Login
  | GetTenants
  | GetWanInterfaceLabels
  | GetSites
  | GetWanInterfaces (site_id : value)
  | PutWanInterfaces (site_id waninterface_id : value) (put_data : dict)
  | Jd
  | GetLogout.

#[global] Instance event_eq_dec : EqDecision event.
Proof. solve_decision. Defined.

Inductive exn :=
  | KeyError (key : value)
  | TypeError
  | FileNotFoundError (path : string)
  | EOFError.

(** The argument of [sys.exit]: an object, or [vars(resp)]. *)
Inductive exit_arg :=
  | ExitValue (v : value)
  | ExitVars (r : response).

(** How a piece of the program ends: it returns, it calls [sys.exit], it
    raises an exception nothing catches, or it is still in the interactive
    login loop when the recorded logins end. *)
Inductive outcome (A : Type) :=
  | Ret (a : A)
  | SysExit (arg : exit_arg)
  | Raise (e : exn)
  | Waiting.
Arguments Ret {A} a.
Arguments SysExit {A} arg.
Arguments Raise {A} e.
Arguments Waiting {A}.

(** The exit status of the process. *)
Definition exit_status {A} (o : outcome A) : option Z :=
  match o with
  | Ret _ => Some 0%Z
  | SysExit (ExitValue VNone) => Some 0%Z
  | SysExit (ExitValue (VBool b)) => Some (if b then 1%Z else 0%Z)
  | SysExit (ExitValue (VStr _)) => Some 1%Z
  | SysExit (ExitVars _) => Some 1%Z
  | Raise _ => Some 1%Z
  | Waiting => None
  end.

(** The controller, the file system and the environment. *)
Record world := {
  w_environ : gmap string string;
  w_files : gmap string string;
  w_use_token : string -> option string;
  w_tenants : response;
  w_waninterfacelabels : response;
  w_sites : response;
  w_waninterfaces : value -> response;
  w_put_waninterfaces : list event -> value -> value -> dict -> bool;
  w_jd : response -> value
}.

(** The session, the terminal and what happened so far. *)
Record state := {
  trace : list event;
  tenant_id : option string;
  stdin : list string;
  logins : list (option string)
}.

Definition init_state (lines : list string) (attempts : list (option string)) : state :=
  {| trace := []; tenant_id := None; stdin := lines; logins := attempts |}.

(** The state after the events [es] happened. *)
Definition push (s : state) (es : list event) : state :=
  {| trace := trace s ++ es; tenant_id := tenant_id s;
     stdin := stdin s; logins := logins s |}.

(** [CLIARGS] after [parse_arguments]. *)
Record cliargs := {
  token : option string;
  authtokenfile : option string;
  matchtext : string;
  bfd_mode : string;
  lqm : string;
  bwm : string
}.

(** One entry of [matched_wan_labels]. *)
Record entry := {
  site_id : value;
  data : dict
}.

(** ** The monad *)

Definition M (A : Type) : Type := state -> outcome A * state.

Definition run {A} (c : M A) (s : state) : outcome A * state := c s.

#[global] Instance M_ret : MRet M := fun A a s => (Ret a, s).

#[global] Instance M_bind : MBind M := fun A B f c s =>
  match c s with
  | (Ret a, s') => f a s'
  | (SysExit arg, s') => (SysExit arg, s')
  | (Raise e, s') => (Raise e, s')
  | (Waiting, s') => (Waiting, s')
  end.

Definition emit (e : event) : M unit := fun s =>
  (Ret tt, {| trace := trace s ++ [e]; tenant_id := tenant_id s;
              stdin := stdin s; logins := logins s |}).

Definition raise {A} (e : exn) : M A := fun s => (Raise e, s).

Definition sys_exit {A} (arg : exit_arg) : M A := fun s => (SysExit arg, s).

Definition waiting {A} : M A := fun s => (Waiting, s).

Definition get_state : M state := fun s => (Ret s, s).

Definition set_tenant_id (t : option string) : M unit := fun s =>
  (Ret tt, {| trace := trace s; tenant_id := t; stdin := stdin s; logins := logins s |}).

Definition set_stdin (l : list string) : M unit := fun s =>
  (Ret tt, {| trace := trace s; tenant_id := tenant_id s; stdin := l; logins := logins s |}).

Definition set_logins (l : list (option string)) : M unit := fun s =>
  (Ret tt, {| trace := trace s; tenant_id := tenant_id s; stdin := stdin s; logins := l |}).

(** [print(a, b, ...)], each argument already through [str]. *)
Definition print (args : list string) : M unit := emit (Print args).

(** [d[k]] *)
Definition getitem (d : dict) (k : string) : M value :=
  match d !! k with
  | Some v => mret v
  | None => raise (KeyError (VStr k))
  end.

(** [for x in l: acc = body(acc, x)] *)
Fixpoint for_fold {A S} (l : list A) (body : S -> A -> M S) (acc : S) : M S :=
  match l with
  | [] => mret acc
  | x :: r => acc' ← body acc x; for_fold r body acc'
  end.

(** Iterating over [cgx_content.get("items", None)]. *)
Definition iter_items (items : option (list dict)) : M (list dict) :=
  match items with
  | Some l => mret l
  | None => raise TypeError
  end.

(** Assignment [d[k] = v] in an insertion-ordered dictionary: an existing
    key keeps its place. *)
Fixpoint od_set {V} (k : value) (v : V) (d : list (value * V)) : list (value * V) :=
  match d with
  | [] => [(k, v)]
  | (k', v') :: r =>
      if decide (k = k') then (k, v) :: r else (k', v') :: od_set k v r
  end.

(** ** The program *)

(** Line 49. *)
Definition exclude_hub_sites : bool := true.

(** [if x:] for an argument that is [None] or a string. *)
Definition truthy_opt (o : option string) : bool :=
  match o with
  | Some s => negb (String.eqb s "")
  | None => false
  end.

Definition opt_value (o : option string) : value :=
  match o with
  | Some s => VStr s
  | None => VNone
  end.

(** Lines 208-212: the state of bandwidth monitoring read off
    [bw_config_mode]. *)
Definition current_bwm_state (bw_config_mode : value) : string :=
  if decide (bw_config_mode = VStr "manual_bwm_disabled") then "Off"
  else if decide (bw_config_mode = VStr "manual") then "On"
  else "unknown".

(** The patch as section 4.5 of the specification words it: [bfd_mode] is
    set to the requested value; [lqm_enabled] is set to ["true"] or
    ["false"] when [lqm] is on or off; [bw_config_mode] is set to
    ["manual"] or ["manual_bwm_disabled"] when [bwm] is on or off and the
    current state is not unknown. *)
Definition patch_spec (CLIARGS : cliargs) (d : dict) : dict :=
  let d1 := <["bfd_mode" := VStr (bfd_mode CLIARGS)]> d in
  let d2 :=
    if String.eqb (lqm CLIARGS) "on" then <["lqm_enabled" := VStr "true"]> d1
    else if String.eqb (lqm CLIARGS) "off" then <["lqm_enabled" := VStr "false"]> d1
    else d1 in
  match d !! "bw_config_mode" with
  | Some mode =>
      if String.eqb (current_bwm_state mode) "unknown" then d2
      else if String.eqb (bwm CLIARGS) "on" then <["bw_config_mode" := VStr "manual"]> d2
      else if String.eqb (bwm CLIARGS) "off"
      then <["bw_config_mode" := VStr "manual_bwm_disabled"]> d2
      else d2
  | None => d2
  end.

Section Program.

Variable w : world.

(** *** Calls of the SDK and of the system *)

Definition get_tenants : M response :=
  emit GetTenants;; mret (w_tenants w).

Definition get_waninterfacelabels : M response :=
  emit GetWanInterfaceLabels;; mret (w_waninterfacelabels w).

Definition get_sites : M response :=
  emit GetSites;; mret (w_sites w).

Definition get_waninterfaces (sid : value) : M response :=
  emit (GetWanInterfaces sid);; mret (w_waninterfaces w sid).

(** The truth value of the response of [put.waninterfaces]; the controller
    may answer differently depending on everything that came before. *)
Definition put_waninterfaces (sid iid : value) (put_data : dict) : M bool :=
  s ← get_state;
  emit (PutWanInterfaces sid iid put_data);;
  mret (w_put_waninterfaces w (trace s) sid iid put_data).

Definition jd (resp : response) : M value :=
  emit Jd;; mret (w_jd w resp).

(** [interactive.use_token(tok)]: a tenant id on success. *)
Definition use_token (tok : string) : M unit :=
  emit (UseToken tok);;
  match w_use_token w tok with
  | Some t => set_tenant_id (Some t)
  | None => mret tt
  end.

(** [open(path).read()] *)
Definition open_read (path : string) : M string :=
  emit (OpenFile path);;
  match w_files w !! path with
  | Some c => mret c
  | None => raise (FileNotFoundError path)
  end.

(** [name in os.environ] *)
Definition env_test (name : string) : M bool :=
  emit (EnvTest name);; mret (bool_decide (is_Some (w_environ w !! name))).

(** [os.environ.get(name)] *)
Definition env_get (name : string) : M (option string) :=
  emit (EnvGet name);; mret (w_environ w !! name).

(** *** [logout], lines 240-242 *)

Definition logout : M unit :=
  print ["Logging out"];;
  emit GetLogout.

(** *** [verify_change], lines 80-90 *)

(** Lines 85-88: how one line typed at the prompt is read, [None] when it
    is read as neither answer. *)
Definition read_answer (answer : string) : option bool :=
  if string_match (VStr answer) (VStr "yes") || string_match (VStr answer) (VStr "y")
  then Some true
  else if string_match (VStr answer) (VStr "no") || string_match (VStr answer) (VStr "n")
  then Some false
  else None.

(** The loop of lines 83-90, by recursion on the lines still to come from
    the terminal: [input] takes the next one, or raises [EOFError] at the
    end of the input.  Falling out of the loop returns [None]. *)
Fixpoint verify_loop (lines : list string) : M value :=
  emit (Input "Enter yes or no: ");;
  match lines with
  | [] => raise EOFError
  | answer :: rest =>
      set_stdin rest;;
      match read_answer answer with
      | Some b => mret (VBool b)
      | None =>
          print ["Please enter yes or no to verify changes"];;
          if bool_decide (answer ∉ ["yes"; "no"; "y"; "n"])
          then verify_loop rest
          else mret VNone
      end
  end.

Definition verify_change (prompt : string) : M value :=
  print [prompt; "(Y/N)?"];;
  s ← get_state;
  verify_loop (stdin s).

(** *** [authenticate], lines 92-127 *)

(** Lines 98-113: the value of [CLOUDGENIX_AUTH_TOKEN]. *)
Definition resolve_token (CLIARGS : cliargs) : M (option string) :=
  if truthy_opt (token CLIARGS) then
    print ["    "; "Authenticating using Auth-Token in from CLI ARGS"];;
    mret (token CLIARGS)
  else if truthy_opt (authtokenfile CLIARGS) then
    contents ← open_read (default "" (authtokenfile CLIARGS));
    print ["    "; "Authenticating using Auth-token from file";
           default "" (authtokenfile CLIARGS)];;
    mret (Some (PyStr.strip contents))
  else
    x ← env_test "X_AUTH_TOKEN";
    if (x : bool) then
      t ← env_get "X_AUTH_TOKEN";
      print ["    "; "Authenticating using environment variable X_AUTH_TOKEN"];;
      mret t
    else
      a ← env_test "AUTH_TOKEN";
      if (a : bool) then
        t ← env_get "AUTH_TOKEN";
        print ["    "; "Authenticating using environment variable AUTH_TOKEN"];;
        mret t
      else
        print ["    "; "Authenticating using interactive login"];;
        mret None.

(** Lines 121-126: [while cgx_session.tenant_id is None], by recursion on
    the outcomes of the logins still to come. *)
Fixpoint login_loop (attempts : list (option string)) : M unit :=
  s ← get_state;
  match tenant_id s with
  | Some _ => mret tt
  | None =>
      match attempts with
      | [] => waiting
      | r :: rest =>
          emit Login;;
          set_logins rest;;
          set_tenant_id r;;
          login_loop rest
      end
  end.

Definition authenticate (CLIARGS : cliargs) : M unit :=
  print ["AUTHENTICATING..."];;
  CLOUDGENIX_AUTH_TOKEN ← resolve_token CLIARGS;
  (if truthy_opt CLOUDGENIX_AUTH_TOKEN then
     use_token (default "" CLOUDGENIX_AUTH_TOKEN);;
     s ← get_state;
     match tenant_id s with
     | None =>
         print ["    "; "ERROR: AUTH_TOKEN login failure, please check token."];;
         sys_exit (ExitValue VNone)
     | Some _ => mret tt
     end
   else
     s ← get_state;
     login_loop (logins s));;
  print ["    "; "SUCCESS: Authentication Complete"].

(** *** [go], lines 129-238 *)

(** [wan_label_dict[id][k] = v] for an [id] already in the dictionary. *)
Definition setitem2 (wan_label_dict : gmap value dict) (id : value) (k : string) (v : value)
  : gmap value dict :=
  <[id := <[k := v]> (default ∅ (wan_label_dict !! id))]> wan_label_dict.

(** Lines 156-159: the body of [for label in wan_labels]. *)
Definition add_label (wan_label_dict : gmap value dict) (label : dict) : M (gmap value dict) :=
  id ← getitem label "id";
  let wan_label_dict := <[id := ∅]> wan_label_dict in
  name ← getitem label "name";
  let wan_label_dict := setitem2 wan_label_dict id "name" name in
  lbl ← getitem label "label";
  let wan_label_dict := setitem2 wan_label_dict id "label" lbl in
  description ← getitem label "description";
  mret (setitem2 wan_label_dict id "description" description).

(** Lines 151-159. *)
Definition go_labels : M (gmap value dict) :=
  wan_label_resp ← get_waninterfacelabels;
  if resp_truth wan_label_resp then
    wan_labels ← iter_items (content_items wan_label_resp);
    for_fold wan_labels add_label ∅
  else mret ∅.

(** [wan_label_dict[interface['label_id']][field]] *)
Definition label_field (wan_label_dict : gmap value dict) (interface : dict) (field : string)
  : M value :=
  label_id ← getitem interface "label_id";
  match wan_label_dict !! label_id with
  | Some l => getitem l field
  | None => raise (KeyError label_id)
  end.

(** Lines 172-186: the body of [for interface in wan_interfaces];
    [match_on] is the constant ["CIRCUIT_NAME"].  The three assignments of
    lines 174-176 build one entry: [interface['id']] is read first, then
    [site['id']], and nothing can fail between them. *)
Definition go_interface (wan_label_dict : gmap value dict) (match_text : string) (site : dict)
    (matched_wan_labels : list (value * entry)) (interface : dict)
  : M (list (value * entry)) :=
  name ← getitem interface "name";
  if string_match name (VStr match_text) then
    id ← getitem interface "id";
    sid ← getitem site "id";
    let matched_wan_labels :=
      od_set id {| site_id := sid; data := interface |} matched_wan_labels in
    site_name ← getitem site "name";
    print ["Found Circuit Match at SITE:"; py_str site_name];;
    name ← getitem interface "name";
    print ["  Circuit Name        :"; py_str name];;
    category ← label_field wan_label_dict interface "name";
    print ["  Circuit Category    :"; py_str category];;
    lbl ← label_field wan_label_dict interface "label";
    print ["  Circuit Label       :"; py_str lbl];;
    description ← label_field wan_label_dict interface "description";
    print ["  Circuit Description :"; py_str description];;
    bfd ← getitem interface "bfd_mode";
    print ["  Circuit BFD MODE    :"; py_str bfd];;
    lqm_enabled ← getitem interface "lqm_enabled";
    print ["  Circuit LQM Enabled :"; py_str lqm_enabled];;
    bw ← getitem interface "bw_config_mode";
    print ["  Circuit BWM MODE    :"; py_str bw];;
    print [""];;
    mret matched_wan_labels
  else mret matched_wan_labels.

(** Line 167: [exclude_hub_sites and site['element_cluster_role'] != "HUB"];
    the role is read only when the flag is set. *)
Definition site_selected (exclude : bool) (site : dict) : M bool :=
  if exclude then
    role ← getitem site "element_cluster_role";
    mret (bool_decide (role ≠ VStr "HUB"))
  else mret false.

(** Lines 165-186: the body of [for site in site_list]; [site_count] is
    counted and never read. *)
Definition go_site (exclude : bool) (wan_label_dict : gmap value dict) (match_text : string)
    (matched_wan_labels : list (value * entry)) (site : dict)
  : M (list (value * entry)) :=
  selected ← site_selected exclude site;
  if (selected : bool) then
    sid ← getitem site "id";
    wan_int_resp ← get_waninterfaces sid;
    if resp_truth wan_int_resp then
      wan_interfaces ← iter_items (content_items wan_int_resp);
      for_fold wan_interfaces (go_interface wan_label_dict match_text site)
        matched_wan_labels
    else mret matched_wan_labels
  else mret matched_wan_labels.

(** Lines 196-225: what the loop of the mutation does to the payload of one
    matched interface before submitting it.  [put_data] and the [data] of
    the entry are one object, threaded here as [d]. *)
Definition patch_interface (CLIARGS : cliargs) (e : entry) : M dict :=
  let bfdmode := bfd_mode CLIARGS in
  let change_lqm := lqm CLIARGS in
  let change_bwm := bwm CLIARGS in
  let d := data e in
  cur ← getitem d "bfd_mode";
  print ["Site ID:"; py_str (site_id e); "Current BFD Mode"; py_str cur;
         "changing to"; bfdmode];;
  let d := <["bfd_mode" := VStr bfdmode]> d in
  d ← (if String.eqb change_lqm "on" then
         cur ← getitem d "lqm_enabled";
         print ["      Current LQM Mode"; py_str cur; "changing to"; change_lqm];;
         mret (<["lqm_enabled" := VStr "true"]> d)
       else mret d);
  d ← (if String.eqb change_lqm "off" then
         cur ← getitem d "lqm_enabled";
         print ["      Current LQM Mode"; py_str cur; "changing to"; change_lqm];;
         mret (<["lqm_enabled" := VStr "false"]> d)
       else mret d);
  mode ← getitem d "bw_config_mode";
  let state := current_bwm_state mode in
  d ← (if String.eqb change_bwm "on" then
         if String.eqb state "unknown" then
           cur ← getitem d "bw_config_mode";
           print ["      Ignoring BWM Mode change due to unknown state: "; py_str cur];;
           mret d
         else
           cur ← getitem d "bw_config_mode";
           print ["      Current BWM Mode"; py_str cur; "changing to"; change_bwm];;
           mret (<["bw_config_mode" := VStr "manual"]> d)
       else mret d);
  d ← (if String.eqb change_bwm "off" && negb (String.eqb state "unknown") then
         if String.eqb state "unknown" then
           cur ← getitem d "bw_config_mode";
           print ["      Ignoring BWM Mode change due to unknown state: "; py_str cur];;
           mret d
         else
           cur ← getitem d "bw_config_mode";
           print ["      Current BWM Mode"; py_str cur; "changing to"; change_bwm];;
           mret (<["bw_config_mode" := VStr "manual_bwm_disabled"]> d)
       else mret d);
  mret d.

(** Lines 196-232: the body of [for waninterface in matched_wan_labels]. *)
Definition go_mutate_one (CLIARGS : cliargs) (_ : unit) (item : value * entry) : M unit :=
  let waninterface_id := item.1 in
  put_data ← patch_interface CLIARGS item.2;
  change_wan_bfd_resp ← put_waninterfaces (site_id item.2) waninterface_id put_data;
  (if (change_wan_bfd_resp : bool) then
     print [" Success, BFD Mode now"; bfd_mode CLIARGS]
   else
     print [" Failed to make change"]);;
  print [""].

(** Lines 195-232. *)
Definition go_mutate (CLIARGS : cliargs) (matched_wan_labels : list (value * entry)) : M unit :=
  for_fold matched_wan_labels (go_mutate_one CLIARGS) tt.

(** Lines 187-191: the text of the confirmation. *)
Definition confirmation_prompt (CLIARGS : cliargs) : string :=
  let addended_prompt := "" in
  let addended_prompt :=
    if negb (String.eqb (lqm CLIARGS) "nochange")
    then addended_prompt +:+ ", change LQM," else addended_prompt in
  let addended_prompt :=
    if negb (String.eqb (bwm CLIARGS) "nochange")
    then addended_prompt +:+ ", change BWM," else addended_prompt in
  "This will change all circuits found above to a BFD Mode of " +:+
  bfd_mode CLIARGS +:+ addended_prompt +:+ " are you sure".

Definition go_with (exclude : bool) (CLIARGS : cliargs) : M unit :=
  let match_text := matchtext CLIARGS in
  resp ← get_tenants;
  (if cgx_status resp then
     let tenant_name := content_name resp in
     print ["======== TENANT NAME"; py_str tenant_name; "========"]
   else
     logout;;
     print ["ERROR: API Call failure when enumerating TENANT Name! Exiting!"];;
     print [py_str (VBool (cgx_status resp))];;
     sys_exit (ExitVars resp));;
  wan_label_dict ← go_labels;
  resp ← get_sites;
  if cgx_status resp then
    site_list ← iter_items (content_items resp);
    matched_wan_labels ← for_fold site_list (go_site exclude wan_label_dict match_text) [];
    answer ← verify_change (confirmation_prompt CLIARGS);
    if truthy answer then
      print ["Changing Sites:"];;
      print [""];;
      go_mutate CLIARGS matched_wan_labels
    else
      print ["CHANGES ABORTED!"]
  else
    logout;;
    print ["ERROR: API Call failure when enumerating SITES in tenant! Exiting!"];;
    v ← jd resp;
    sys_exit (ExitValue v).

Definition go (CLIARGS : cliargs) : M unit := go_with exclude_hub_sites CLIARGS.

(** *** The script, lines 244-248, after [parse_arguments] *)

Definition main (CLIARGS : cliargs) : M unit :=
  authenticate CLIARGS;;
  go CLIARGS;;
  logout.

End Program.

(** ** Vocabulary of the properties *)

(** [c], started in [s], returns [a] after the events [es] and leaves the
    session and the terminal as they were. *)
Definition returns {A} (c : M A) (s : state) (a : A) (es : list event) : Prop :=
  run c s = (Ret a, push s es).

(** However [c] ends, it leaves the pending terminal input alone and every
    event it adds to the trace satisfies [P]. *)
Definition quiet {A} (P : event -> Prop) (c : M A) : Prop :=
  forall s o s', run c s = (o, s') ->
    stdin s' = stdin s /\ exists es, trace s' = trace s ++ es /\ Forall P es.

(** The fields of a WAN interface that the mutation reads; discovery has
    printed all three for every interface it recorded. *)
Definition well_formed (d : dict) : Prop :=
  is_Some (d !! "bfd_mode") /\ is_Some (d !! "lqm_enabled") /\
  is_Some (d !! "bw_config_mode").

(** The submissions in a stretch of the trace, in order. *)
Definition puts (es : list event) : list (value * value * dict) :=
  omap (fun e => match e with
                 | PutWanInterfaces sid iid d => Some (sid, iid, d)
                 | _ => None
                 end) es.

(** The sites whose WAN interfaces were fetched, in order. *)
Definition fetches (es : list event) : list value :=
  omap (fun e => match e with
                 | GetWanInterfaces sid => Some sid
                 | _ => None
                 end) es.

Definition is_put (e : event) : Prop :=
  match e with PutWanInterfaces _ _ _ => True | _ => False end.

Definition is_print (e : event) : Prop :=
  match e with Print _ => True | _ => False end.

(** Events that neither read the terminal nor submit anything. *)
Definition no_input_no_put (e : event) : Prop :=
  match e with
  | Input _ | PutWanInterfaces _ _ _ => False
  | _ => True
  end.

(** The user declines: the first line that [verify_change] reads as an
    answer is read as a no. *)
Definition declines (lines : list string) : Prop :=
  exists pre a post, lines = pre ++ a :: post /\
    Forall (fun l => read_answer l = None) pre /\ read_answer a = Some false.

(** The identifiers of the sites of a list whose cluster role is not
    ["HUB"], in order. *)
Definition non_hub_site_ids (site_list : list dict) : list value :=
  omap (fun site : dict =>
          match site !! "element_cluster_role" with
          | Some role => if decide (role = VStr "HUB") then None else site !! "id"
          | None => None
          end) site_list.

(** What lines 228-231 print after a submission. *)
Definition report (CLIARGS : cliargs) (ok : bool) : list string :=
  if ok then [" Success, BFD Mode now"; bfd_mode CLIARGS]
  else [" Failed to make change"].

(** When the user declines, [c] submits nothing, and if it gets as far as
    asking, it returns after the message that the changes are aborted. *)
Definition aborts_when_declined (c : M unit) : Prop :=
  forall s o s', declines (stdin s) -> run c s = (o, s') ->
    exists es, trace s' = trace s ++ es /\
      Forall (fun e => ~ is_put e) es /\
      (Input "Enter yes or no: " ∈ es ->
       o = Ret tt /\ Print ["CHANGES ABORTED!"] ∈ es).

(** The five sources of a credential, in the order of lines 98-113. *)
Inductive source :=
  | CliToken
  | TokenFile
  | EnvXAuthToken
  | EnvAuthToken
  | InteractiveLogin.

Definition source_rank (src : source) : nat :=
  match src with
  | CliToken => 0
  | TokenFile => 1
  | EnvXAuthToken => 2
  | EnvAuthToken => 3
  | InteractiveLogin => 4
  end.

(** The first source that is present, with presence as the conditions of
    lines 98, 101, 105 and 108 test it. *)
Definition first_present (w : world) (CLIARGS : cliargs) : source :=
  if truthy_opt (token CLIARGS) then CliToken
  else if truthy_opt (authtokenfile CLIARGS) then TokenFile
  else if bool_decide (is_Some (w_environ w !! "X_AUTH_TOKEN")) then EnvXAuthToken
  else if bool_decide (is_Some (w_environ w !! "AUTH_TOKEN")) then EnvAuthToken
  else InteractiveLogin.

(** The source that an event consults or attempts, if any. *)
Definition consults (e : event) : option source :=
  match e with
  | OpenFile _ => Some TokenFile
  | EnvTest name | EnvGet name =>
      if String.eqb name "X_AUTH_TOKEN" then Some EnvXAuthToken
      else if String.eqb name "AUTH_TOKEN" then Some EnvAuthToken
      else None
  | Login => Some InteractiveLogin
  | _ => None
  end.

(** No event of [es] consults a source that comes after [src]. *)
Definition none_after (src : source) (es : list event) : Prop :=
  forall e src', e ∈ es -> consults e = Some src' ->
    source_rank src' <= source_rank src.

(** Events of the discovery and mutation phases. *)
Definition is_api_call (e : event) : Prop :=
  match e with
  | GetTenants | GetWanInterfaceLabels | GetSites
  | GetWanInterfaces _ | PutWanInterfaces _ _ _ => True
  | _ => False
  end.

(** ** The scenarios of the specification, as data *)

Module Scenario.

Definition wan_interface (id name label_id bw_config_mode : string) : dict :=
  {[ "id" := VStr id; "name" := VStr name; "label_id" := VStr label_id;
     "bfd_mode" := VStr "aggressive"; "lqm_enabled" := VBool true;
     "bw_config_mode" := VStr bw_config_mode ]}.

Definition lte_primary : dict := wan_interface "i1" "LTE-Primary" "L1" "manual".
Definition fiber_1 : dict := wan_interface "i2" "Fiber-1" "L1" "manual".
Definition lte_backup : dict := wan_interface "i3" "lte_backup" "L1" "unknown_mode".

Definition branch : dict :=
  {[ "id" := VStr "s1"; "name" := VStr "Branch";
     "element_cluster_role" := VStr "SPOKE" ]}.

Definition datacenter : dict :=
  {[ "id" := VStr "s2"; "name" := VStr "DC";
     "element_cluster_role" := VStr "HUB" ]}.

Definition internet_label : dict :=
  {[ "id" := VStr "L1"; "name" := VStr "public-1"; "label" := VStr "Internet";
     "description" := VStr "broadband" ]}.

Definition ok (items : list dict) : response :=
  {| resp_truth := true; cgx_status := true; content_name := VStr "Acme";
     content_items := Some items |}.

(** A tenant with a branch and a data center; the controller accepts the
    token ["good"] and rejects the update of interface ["i1"]. *)
Definition controller (labels : list dict) (environ : gmap string string) : world :=
  {| w_environ := environ;
     w_files := ∅;
     w_use_token := fun t => if String.eqb t "good" then Some "tenant-1" else None;
     w_tenants := ok [];
     w_waninterfacelabels := ok labels;
     w_sites := ok [branch; datacenter];
     w_waninterfaces := fun _ => ok [lte_primary; fiber_1; lte_backup];
     w_put_waninterfaces := fun _ _ id _ => bool_decide (id <> VStr "i1");
     w_jd := fun _ => VNone |}.

Definition args (tok : option string) (lqm bwm : string) : cliargs :=
  {| token := tok; authtokenfile := None; matchtext := "lte";
     bfd_mode := "non_aggressive"; lqm := lqm; bwm := bwm |}.

Definition matched (interface : dict) : entry :=
  {| site_id := VStr "s1"; data := interface |}.

End Scenario.

(** ** Vocabulary of the further properties *)

(** What [verify_change] has printed and read when it has gone through the
    lines [pre] without finding an answer in them and asks once more. *)
Definition asked (prompt : string) (pre : list string) : list event :=
  Print [prompt; "(Y/N)?"] ::
  concat (map (fun _ : string =>
                 [Input "Enter yes or no: ";
                  Print ["Please enter yes or no to verify changes"]]) pre) ++
  [Input "Enter yes or no: "].

(** The state once the terminal has been read down to [rest] and the
    events [es] happened. *)
Definition read_to (s : state) (es : list event) (rest : list string) : state :=
  {| trace := trace s ++ es; tenant_id := tenant_id s;
     stdin := rest; logins := logins s |}.

(** Events of authentication and discovery: everything but reading the
    terminal, submitting, dumping a response and logging out. *)
Definition preparatory (e : event) : Prop :=
  match e with
  | Input _ | PutWanInterfaces _ _ _ | Jd | GetLogout => False
  | _ => True
  end.

Definition not_logout (e : event) : Prop :=
  match e with GetLogout => False | _ => True end.

(** However [c] ends, every event it adds to the trace satisfies [P]. *)
Definition emits {A} (P : event -> Prop) (c : M A) : Prop :=
  forall s o s', run c s = (o, s') ->
    exists es, trace s' = trace s ++ es /\ Forall P es.

(** No line is read as a yes. *)
Definition no_yes (lines : list string) : Prop :=
  Forall (fun l => read_answer l <> Some true) lines.

(** Without a yes on the terminal, [c] submits nothing. *)
Definition never_submits (c : M unit) : Prop :=
  forall s o s', no_yes (stdin s) -> run c s = (o, s') ->
    exists es, trace s' = trace s ++ es /\ Forall (fun e => ~ is_put e) es.

(** How often a stretch of the trace logs out. *)
Definition logouts (es : list event) : nat :=
  length (filter (fun e => e = GetLogout) es).

(** [c] logs out [n] times when it returns, at most once when it ends in
    [sys.exit], and not at all when it ends otherwise. *)
Definition logout_discipline {A} (n : nat) (c : M A) : Prop :=
  forall s o s', run c s = (o, s') ->
    exists es, trace s' = trace s ++ es /\
      match o with
      | Ret _ => logouts es = n
      | SysExit _ => logouts es <= 1
      | Raise _ | Waiting => logouts es = 0
      end.

(** The session once the interactive login, after the events [es] and the
    failed attempts before it, obtained the tenant [t]. *)
Definition logged_in (s : state) (es : list event) (t : string)
    (rest : list (option string)) : state :=
  {| trace := trace s ++ es; tenant_id := Some t;
     stdin := stdin s; logins := rest |}.

(** What [wan_label_dict] keeps of a label. *)
Definition label_record (name lbl description : value) : dict :=
  <["description" := description]> (<["label" := lbl]> (<["name" := name]> ∅)).

(** A label with the four fields that lines 156-159 read. *)
Definition complete_label (label : dict) : Prop :=
  is_Some (label !! "id") /\ is_Some (label !! "name") /\
  is_Some (label !! "label") /\ is_Some (label !! "description").

(** An entry of [matched_wan_labels] is keyed by the identifier of its
    interface, the circuit name of the interface matches the text, the
    interface is one of those that the controller returned for the owning
    site, and the owning site is a site of the list that is no hub. *)
Definition recorded (w : world) (match_text : string) (site_list : list dict)
    (item : value * entry) : Prop :=
  data item.2 !! "id" = Some item.1 /\
  (exists name, data item.2 !! "name" = Some name /\
                string_match name (VStr match_text) = true) /\
  (exists items, content_items (w_waninterfaces w (site_id item.2)) = Some items /\
                 data item.2 ∈ items) /\
  (exists (site : dict) role, site ∈ site_list /\
     site !! "id" = Some (site_id item.2) /\
     site !! "element_cluster_role" = Some role /\ role <> VStr "HUB").

(** The user confirms: the first line that [verify_change] reads as an
    answer is read as a yes. *)
Definition confirms (lines : list string) : Prop :=
  exists pre a post, lines = pre ++ a :: post /\
    Forall (fun l => read_answer l = None) pre /\ read_answer a = Some true.

(** A state in which the prompt has not been reached: nothing was read
    from the terminal, of which [lines] are pending, and nothing was
    submitted. *)
Definition before_prompt (lines : list string) (s : state) : Prop :=
  (Input "Enter yes or no: " ∉ trace s) /\ puts (trace s) = [] /\ stdin s = lines.

(** The keys of an insertion-ordered dictionary after an assignment to the
    key [k]. *)
Definition add_key (ks : list value) (k : value) : list value :=
  if decide (k ∈ ks) then ks else ks ++ [k].

(** The identifiers of the interfaces of a list whose circuit name matches,
    in the order of the list. *)
Definition matching_ids (match_text : string) (items : list dict) : list value :=
  omap (fun interface : dict =>
          match interface !! "name" with
          | Some name =>
              if string_match name (VStr match_text) then interface !! "id" else None
          | None => None
          end) items.

(** The interfaces that discovery goes through: those that the controller
    returns with success for the sites that are no hubs, site after site. *)
Definition visited_interfaces (w : world) (site_list : list dict) : list dict :=
  concat (map (fun site : dict =>
                 match site !! "element_cluster_role", site !! "id" with
                 | Some role, Some sid =>
                     if decide (role = VStr "HUB") then []
                     else if resp_truth (w_waninterfaces w sid)
                          then default [] (content_items (w_waninterfaces w sid))
                          else []
                 | _, _ => []
                 end) site_list).

(** What discovery builds, as a function of what the controller returns:
    the loop over the interfaces of a site that is no hub, whose identifier
    is [sid], records each interface whose circuit name matches. *)
Definition record_interface (match_text : string) (sid : value)
    (acc : list (value * entry)) (interface : dict) : list (value * entry) :=
  match interface !! "name", interface !! "id" with
  | Some name, Some id =>
      if string_match name (VStr match_text)
      then od_set id {| site_id := sid; data := interface |} acc
      else acc
  | _, _ => acc
  end.

Definition record_site (w : world) (match_text : string)
    (acc : list (value * entry)) (site : dict) : list (value * entry) :=
  match site !! "element_cluster_role", site !! "id" with
  | Some role, Some sid =>
      if decide (role = VStr "HUB") then acc
      else if resp_truth (w_waninterfaces w sid)
           then foldl (record_interface match_text sid) acc
                  (default [] (content_items (w_waninterfaces w sid)))
           else acc
  | _, _ => acc
  end.

(** [matched_wan_labels] after the loop over the sites of [site_list]. *)
Definition discovered (w : world) (match_text : string) (site_list : list dict)
    : list (value * entry) :=
  foldl (record_site w match_text) [] site_list.

(** * Properties *)

(** ** Matching *)

Section Matching.

Import PyStr.

Lemma startswith_app (p s : string) :
  startswith p s = true <-> exists suf, s = p +:+ suf.
Proof.
  revert s. induction p as [|a p IH]; intros s; simpl.
  - split; [intros _; by exists s | done].
  - destruct s as [|b s]; simpl.
    + split; [done | intros [suf Hs]; discriminate].
    + rewrite andb_true_iff, IH, Ascii.eqb_eq. split.
      * intros [-> [suf ->]]. by exists suf.
      * intros [suf Hs]. injection Hs as -> ->. eauto.
Qed.

Lemma contains_substring_of (needle hay : string) :
  contains needle hay = true <-> substring_of needle hay.
Proof.
  unfold substring_of. induction hay as [|b hay IH]; simpl.
  - rewrite orb_false_r, startswith_app. split.
    + intros [suf Hs]. by exists "", suf.
    + intros [[|c pre] [suf Hs]]; [by exists suf | discriminate].
  - rewrite orb_true_iff, startswith_app, IH. split.
    + intros [[suf Hs] | (pre & suf & Hs)].
      * by exists "", suf.
      * exists (String b pre), suf. simpl. by rewrite Hs.
    + intros [[|c pre] [suf Hs]].
      * left. by exists suf.
      * right. simpl in Hs. injection Hs as -> ->. eauto.
Qed.

Lemma swap_letter_cont (b : ascii) :
  is_cont (N_of_ascii (swap_letter b)) = is_cont (N_of_ascii b).
Proof. by destruct b as [[] [] [] [] [] [] [] []]. Qed.

Lemma swap_letter_width (b : ascii) :
  width (N_of_ascii (swap_letter b)) = width (N_of_ascii b).
Proof. by destruct b as [[] [] [] [] [] [] [] []]. Qed.

Lemma swap_letter_high (b : ascii) :
  (N_of_ascii b <? 0x80)%N = false -> swap_letter b = b.
Proof. by destruct b as [[] [] [] [] [] [] [] []]. Qed.

Lemma swap_letter_char (b : ascii) :
  case_ignorable (cp_of (String (swap_letter b) "")) = case_ignorable (cp_of (String b "")) /\
  cased (cp_of (String (swap_letter b) "")) = cased (cp_of (String b "")) /\
  (cp_of (String (swap_letter b) "") =? 0x3A3)%N = (cp_of (String b "") =? 0x3A3)%N /\
  moved (String (swap_letter b) "") (to_lower (cp_of (String (swap_letter b) "")))
  = moved (String b "") (to_lower (cp_of (String b ""))).
Proof. destruct b as [[] [] [] [] [] [] [] []]; vm_compute; done. Qed.

Lemma letter_changed_char (ch ch' : string) :
  letter_changed ch ch' ->
  case_ignorable (cp_of ch') = case_ignorable (cp_of ch) /\
  cased (cp_of ch') = cased (cp_of ch) /\
  (cp_of ch' =? 0x3A3)%N = (cp_of ch =? 0x3A3)%N /\
  moved ch' (to_lower (cp_of ch')) = moved ch (to_lower (cp_of ch)).
Proof. intros [-> | (b & -> & ->)]; [done | apply swap_letter_char]. Qed.

Lemma letter_changed_refl (l : list string) : Forall2 letter_changed l l.
Proof. induction l; constructor; [by left | done]. Qed.

Lemma flush_changed (held : string) (l l' : list string) :
  Forall2 letter_changed l l' ->
  Forall2 letter_changed (flush held l) (flush held l').
Proof. intros H. destruct held; [done|]. constructor; [by left | done]. Qed.

Lemma is_cont_high (n : N) : is_cont n = true -> (n <? 0x80)%N = false.
Proof.
  unfold is_cont. rewrite andb_true_iff, N.leb_le, N.ltb_lt, N.ltb_ge. lia.
Qed.

Lemma width_high (n : N) k : width n = S (S k) -> (n <? 0x80)%N = false.
Proof.
  unfold width. rewrite N.ltb_ge.
  destruct (n <? 0xC0)%N eqn:H; [done|]. apply N.ltb_ge in H. lia.
Qed.

Lemma chars_from_case_changed (s s' : string) :
  case_changed s s' ->
  forall need held,
    Forall2 letter_changed (chars_from need held s) (chars_from need held s').
Proof.
  induction 1 as [|b b' s s' Hb _ IH]; intros need held; simpl;
    [apply letter_changed_refl|].
  assert (Hc : is_cont (N_of_ascii b') = is_cont (N_of_ascii b)).
  { destruct Hb as [-> | ->]; [done | apply swap_letter_cont]. }
  assert (Hw : width (N_of_ascii b') = width (N_of_ascii b)).
  { destruct Hb as [-> | ->]; [done | apply swap_letter_width]. }
  assert (Hh : (N_of_ascii b <? 0x80)%N = false -> b' = b).
  { destruct Hb as [-> | ->]; [done | apply swap_letter_high]. }
  assert (Hch : letter_changed (String b "") (String b' "")).
  { destruct Hb as [-> | ->]; [by left | right; by exists b]. }
  rewrite Hc, Hw.
  destruct (negb (need =? 0)%nat && is_cont (N_of_ascii b)) eqn:E.
  - apply andb_true_iff in E as [_ E]. rewrite (Hh (is_cont_high _ E)).
    destruct need as [|[|k]]; try apply IH; (constructor; [by left | apply IH]).
  - apply flush_changed. destruct (width (N_of_ascii b)) as [|[|k]] eqn:W.
    + by constructor.
    + by constructor.
    + rewrite (Hh (width_high _ _ W)). apply IH.
Qed.

Lemma cased_next_changed (l l' : list string) :
  Forall2 letter_changed l l' -> cased_next l' = cased_next l.
Proof.
  induction 1 as [|ch ch' l l' Hch _ IH]; simpl; [done|].
  destruct (letter_changed_char _ _ Hch) as (-> & -> & _). by rewrite IH.
Qed.

Lemma lower_chars_changed (l l' : list string) :
  Forall2 letter_changed l l' ->
  forall before before', Forall2 letter_changed before before' ->
    lower_chars before' l' = lower_chars before l.
Proof.
  induction 1 as [|ch ch' l l' Hch Hl IH]; intros before before' Hb; simpl;
    [done|].
  destruct (letter_changed_char _ _ Hch) as (_ & _ & -> & ->).
  unfold final_sigma.
  rewrite (cased_next_changed _ _ Hb), (cased_next_changed _ _ Hl).
  f_equal. apply IH. by constructor.
Qed.

Lemma case_changed_lower (s s' : string) :
  case_changed s s' -> lower s' = lower s.
Proof.
  intros H. unfold lower, chars. f_equal.
  apply lower_chars_changed; [by apply chars_from_case_changed | constructor].
Qed.

Lemma case_changed_refl (s : string) : case_changed s s.
Proof. induction s; constructor; [by left | done]. Qed.

(** Text beyond ASCII: a capital letter with an accent matches its small
    letter; the capital I with a dot lowers to two code points, so that a
    text longer than the name can match; a capital sigma at the end of a
    word lowers to the final sigma; [strip] removes the next-line control
    and the no-break space. *)
Example text_beyond_ascii :
  string_match (VStr "À") (VStr "à") = true /\
  string_match (VStr "İ") (VStr (encode [0x69; 0x307]%N)) = true /\
  lower "ΟΔΟΣ" = "οδος" /\
  strip (encode_cp 0x85 +:+ "token" +:+ encode_cp 0xA0) = "token".
Proof. by vm_compute. Qed.

Lemma string_match_contains (s m : value) :
  string_match s m = contains (lower (py_str m)) (lower (py_str s)).
Proof. unfold string_match. by destruct (contains _ _). Qed.

(** C1.  [string_match(s, m)] answers true exactly when the lowercase form
    of [m] is a contiguous block of the lowercase form of [s], and changing
    the case of ASCII letters of [s] or of [m] does not change the answer. *)
Theorem string_match_lowercase_substring (s m s' m' : string) :
  (string_match (VStr s) (VStr m) = true <-> substring_of (lower m) (lower s)) /\
  (case_changed s s' -> case_changed m m' ->
   string_match (VStr s') (VStr m') = string_match (VStr s) (VStr m)).
Proof.
  split.
  - rewrite string_match_contains. apply contains_substring_of.
  - intros Hs Hm. rewrite !string_match_contains. simpl.
    by rewrite (case_changed_lower s s' Hs), (case_changed_lower m m' Hm).
Qed.

Lemma string_match_lowercase_substring_witness :
  case_changed "lte_backup" "LTE_Backup" /\ case_changed "lte" "LtE" /\
  string_match (VStr "LTE_Backup") (VStr "LtE") = string_match (VStr "lte_backup") (VStr "lte").
Proof.
  assert (H1 : case_changed "lte_backup" "LTE_Backup").
  { repeat (constructor; [first [by left | by right] |]). constructor. }
  assert (H2 : case_changed "lte" "LtE").
  { repeat (constructor; [first [by left | by right] |]). constructor. }
  split; [exact H1 | split; [exact H2 |]].
  exact (proj2 (string_match_lowercase_substring "lte_backup" "lte" "LTE_Backup" "LtE") H1 H2).
Defined.

(** C1, as stated, fails: a change of case of a letter that is no ASCII
    letter can change the answer.  The upper case of [ß] is [SS], whose
    lower case is [ss]; the name [ß] matches the text [ß] and its upper
    case does not. *)
Lemma sharp_s_upper_case_counterexample :
  upper "ß" = "SS" /\
  string_match (VStr "ß") (VStr "ß") = true /\
  string_match (VStr (upper "ß")) (VStr "ß") = false /\
  ~ (forall s m : string,
       string_match (VStr (upper s)) (VStr m) = string_match (VStr s) (VStr m)).
Proof.
  split; [by vm_compute|]. split; [by vm_compute|]. split; [by vm_compute|].
  intros H. specialize (H "ß" "ß"). by vm_compute in H.
Qed.

End Matching.

(** ** Running the monad *)

Section Runs.

Context {A B : Type}.

Lemma run_ret (a : A) (s : state) : run (mret a) s = (Ret a, s).
Proof. reflexivity. Qed.

Lemma run_bind (c : M A) (f : A -> M B) (s : state) :
  run (c ≫= f) s =
  match run c s with
  | (Ret a, s') => run (f a) s'
  | (SysExit arg, s') => (SysExit arg, s')
  | (Raise e, s') => (Raise e, s')
  | (Waiting, s') => (Waiting, s')
  end.
Proof. reflexivity. Qed.

Lemma run_bind_ret (c : M A) (f : A -> M B) (s s' : state) (a : A) :
  run c s = (Ret a, s') -> run (c ≫= f) s = run (f a) s'.
Proof. intros H. by rewrite run_bind, H. Qed.

(** A sequence ends where its first part ends, unless that part returns. *)
Lemma run_bind_inv (c : M A) (f : A -> M B) (s s' : state) (o : outcome B) :
  run (c ≫= f) s = (o, s') ->
  (exists a s1, run c s = (Ret a, s1) /\ run (f a) s1 = (o, s')) \/
  (exists o1, run c s = (o1, s') /\ (forall a, o1 <> Ret a) /\ (forall b, o <> Ret b)).
Proof.
  rewrite run_bind. destruct (run c s) as [[a| arg | e |] s1]; intros H.
  - left. eauto.
  - right. injection H as <- <-. exists (SysExit arg). by repeat split.
  - right. injection H as <- <-. exists (Raise e). by repeat split.
  - right. injection H as <- <-. exists Waiting. by repeat split.
Qed.

End Runs.

Lemma push_nil (s : state) : push s [] = s.
Proof. destruct s. unfold push. simpl. by rewrite app_nil_r. Qed.

Lemma push_push (s : state) (es1 es2 : list event) :
  push (push s es1) es2 = push s (es1 ++ es2).
Proof. unfold push. simpl. by rewrite app_assoc. Qed.

Lemma run_emit (e : event) (s : state) : run (emit e) s = (Ret tt, push s [e]).
Proof. reflexivity. Qed.

(** *** Computations that return *)

Lemma returns_ret {A} (a : A) (s : state) : returns (mret a) s a [].
Proof. unfold returns. by rewrite push_nil. Qed.

Lemma returns_bind {A B} (c : M A) (f : A -> M B) s a b es1 es2 :
  returns c s a es1 -> returns (f a) (push s es1) b es2 ->
  returns (c ≫= f) s b (es1 ++ es2).
Proof.
  unfold returns. intros H1 H2.
  by rewrite (run_bind_ret _ _ _ _ _ H1), H2, push_push.
Qed.

Lemma returns_emit (e : event) (s : state) : returns (emit e) s tt [e].
Proof. reflexivity. Qed.

Lemma returns_print (args : list string) (s : state) :
  returns (print args) s tt [Print args].
Proof. reflexivity. Qed.

Lemma returns_getitem (d : dict) (k : string) (v : value) (s : state) :
  d !! k = Some v -> returns (getitem d k) s v [].
Proof. intros H. unfold getitem. rewrite H. apply returns_ret. Qed.

Lemma run_getitem_None (d : dict) (k : string) (s : state) :
  d !! k = None -> run (getitem d k) s = (Raise (KeyError (VStr k)), s).
Proof. intros H. unfold getitem. by rewrite H. Qed.

Lemma returns_put w sid iid d s :
  returns (put_waninterfaces w sid iid d) s
    (w_put_waninterfaces w (trace s) sid iid d) [PutWanInterfaces sid iid d].
Proof. reflexivity. Qed.

(** Looking a key up after assignments to constant keys. *)
Ltac solve_lookup :=
  repeat first [ rewrite lookup_insert_eq | rewrite lookup_insert_ne by done ];
  first [ reflexivity | eassumption ].

(** One step of a computation that returns. *)
Ltac returns_step :=
  lazymatch goal with
  | |- returns (mret _) _ _ _ => apply returns_ret
  | |- returns (print _) _ _ _ => apply returns_print
  | |- returns (emit _) _ _ _ => apply returns_emit
  | |- returns (getitem _ _) _ _ _ => apply returns_getitem; solve_lookup
  | |- returns (put_waninterfaces _ _ _ _) _ _ _ => apply returns_put
  | |- returns (_ ≫= _) _ _ _ => eapply returns_bind
  end.

Ltac returns_auto := cbv beta iota; repeat (returns_step; cbv beta iota).

(** ** The patch of one interface *)

Lemma current_bwm_state_cases (mode : value) :
  (mode = VStr "manual_bwm_disabled" /\ current_bwm_state mode = "Off") \/
  (mode = VStr "manual" /\ current_bwm_state mode = "On") \/
  (mode <> VStr "manual_bwm_disabled" /\ mode <> VStr "manual" /\
   current_bwm_state mode = "unknown").
Proof.
  unfold current_bwm_state.
  destruct (decide (mode = VStr "manual_bwm_disabled")) as [->|H1]; [by left|].
  destruct (decide (mode = VStr "manual")) as [->|H2]; [by right; left|].
  by right; right.
Qed.

Lemma eqb_on_off (x : string) :
  String.eqb x "on" = true -> String.eqb x "off" = false.
Proof. intros H. apply String.eqb_eq in H. by subst. Qed.

(** [patch_interface] computes the patch of the specification and, on the
    way, only prints. *)
Lemma patch_interface_returns CLIARGS e s :
  well_formed (data e) ->
  exists es, returns (patch_interface CLIARGS e) s (patch_spec CLIARGS (data e)) es /\
             Forall is_print es.
Proof.
  intros ([bfd Hbfd] & [lq Hlq] & [mode Hmode]).
  unfold patch_interface, patch_spec. rewrite Hmode.
  destruct (String.eqb (lqm CLIARGS) "on") eqn:Elon.
  all: destruct (String.eqb (lqm CLIARGS) "off") eqn:Eloff.
  all: try (rewrite (eqb_on_off _ Elon) in Eloff; discriminate).
  all: destruct (String.eqb (bwm CLIARGS) "on") eqn:Ebon.
  all: destruct (String.eqb (bwm CLIARGS) "off") eqn:Eboff.
  all: try (rewrite (eqb_on_off _ Ebon) in Eboff; discriminate).
  all: destruct (current_bwm_state_cases mode) as [[_ Hst] | [[_ Hst] | (_ & _ & Hst)]].
  all: rewrite Hst; simpl andb; simpl negb; simpl (String.eqb _ _).
  all: eexists; split;
    [ repeat (cbv beta iota zeta; try rewrite Hst; simpl andb; simpl negb;
              simpl (String.eqb _ _); returns_step)
    | simpl; repeat constructor ].
Qed.

Lemma patch_spec_bw_config_mode CLIARGS (d : dict) (mode : value) :
  d !! "bw_config_mode" = Some mode ->
  patch_spec CLIARGS d !! "bw_config_mode" =
  Some (if String.eqb (current_bwm_state mode) "unknown" then mode
        else if String.eqb (bwm CLIARGS) "on" then VStr "manual"
        else if String.eqb (bwm CLIARGS) "off" then VStr "manual_bwm_disabled"
        else mode).
Proof.
  intros Hmode. unfold patch_spec. rewrite Hmode.
  destruct (String.eqb (lqm CLIARGS) "on"), (String.eqb (lqm CLIARGS) "off"),
    (String.eqb (current_bwm_state mode) "unknown"),
    (String.eqb (bwm CLIARGS) "on"), (String.eqb (bwm CLIARGS) "off");
    solve_lookup.
Qed.

Lemma patch_spec_bfd_mode CLIARGS (d : dict) :
  patch_spec CLIARGS d !! "bfd_mode" = Some (VStr (bfd_mode CLIARGS)).
Proof.
  unfold patch_spec.
  destruct (d !! "bw_config_mode") as [mode|];
    destruct (String.eqb (lqm CLIARGS) "on"), (String.eqb (lqm CLIARGS) "off");
    try destruct (String.eqb (current_bwm_state mode) "unknown");
    try destruct (String.eqb (bwm CLIARGS) "on");
    try destruct (String.eqb (bwm CLIARGS) "off");
    solve_lookup.
Qed.

Lemma patch_spec_lqm_enabled CLIARGS (d : dict) :
  patch_spec CLIARGS d !! "lqm_enabled" =
  if String.eqb (lqm CLIARGS) "on" then Some (VStr "true")
  else if String.eqb (lqm CLIARGS) "off" then Some (VStr "false")
  else d !! "lqm_enabled".
Proof.
  unfold patch_spec.
  destruct (d !! "bw_config_mode") as [mode|];
    destruct (String.eqb (lqm CLIARGS) "on"), (String.eqb (lqm CLIARGS) "off");
    try destruct (String.eqb (current_bwm_state mode) "unknown");
    try destruct (String.eqb (bwm CLIARGS) "on");
    try destruct (String.eqb (bwm CLIARGS) "off");
    solve_lookup.
Qed.

(** Fields that the patch does not name are submitted as they were fetched. *)
Lemma patch_spec_other CLIARGS (d : dict) (k : string) :
  k <> "bfd_mode" -> k <> "lqm_enabled" -> k <> "bw_config_mode" ->
  patch_spec CLIARGS d !! k = d !! k.
Proof.
  intros H1 H2 H3. unfold patch_spec.
  destruct (d !! "bw_config_mode") as [mode|];
    destruct (String.eqb (lqm CLIARGS) "on"), (String.eqb (lqm CLIARGS) "off");
    try destruct (String.eqb (current_bwm_state mode) "unknown");
    try destruct (String.eqb (bwm CLIARGS) "on");
    try destruct (String.eqb (bwm CLIARGS) "off");
    by repeat rewrite lookup_insert_ne by done.
Qed.

Lemma patch_spec_well_formed CLIARGS (d : dict) :
  well_formed d -> well_formed (patch_spec CLIARGS d).
Proof.
  intros (_ & Hlq & [mode Hmode]). repeat split.
  - rewrite patch_spec_bfd_mode. eauto.
  - rewrite patch_spec_lqm_enabled.
    destruct (String.eqb (lqm CLIARGS) "on"), (String.eqb (lqm CLIARGS) "off"); eauto.
  - rewrite (patch_spec_bw_config_mode _ _ _ Hmode). eauto.
Qed.

Lemma current_bwm_state_manual : current_bwm_state (VStr "manual") = "On".
Proof. reflexivity. Qed.

Lemma current_bwm_state_disabled :
  current_bwm_state (VStr "manual_bwm_disabled") = "Off".
Proof. reflexivity. Qed.

(** The patch of a patched payload is that payload. *)
Lemma patch_spec_idempotent CLIARGS (d : dict) :
  well_formed d -> patch_spec CLIARGS (patch_spec CLIARGS d) = patch_spec CLIARGS d.
Proof.
  intros Hwf. pose proof Hwf as (_ & _ & [mode Hmode]).
  apply map_eq. intros k.
  destruct (decide (k = "bfd_mode")) as [->|Hk1].
  { by rewrite !patch_spec_bfd_mode. }
  destruct (decide (k = "lqm_enabled")) as [->|Hk2].
  { rewrite !patch_spec_lqm_enabled.
    by destruct (String.eqb (lqm CLIARGS) "on"), (String.eqb (lqm CLIARGS) "off"). }
  destruct (decide (k = "bw_config_mode")) as [->|Hk3].
  2: { by rewrite !patch_spec_other. }
  rewrite (patch_spec_bw_config_mode _ _ _ (patch_spec_bw_config_mode _ _ _ Hmode)).
  rewrite (patch_spec_bw_config_mode _ _ _ Hmode).
  destruct (String.eqb (current_bwm_state mode) "unknown") eqn:Hst; [by rewrite Hst|].
  destruct (String.eqb (bwm CLIARGS) "on"); [done|].
  destruct (String.eqb (bwm CLIARGS) "off"); [done|].
  by rewrite Hst.
Qed.

Lemma scenario_well_formed id name label_id bw :
  well_formed (Scenario.wan_interface id name label_id bw).
Proof. repeat split; by eexists. Qed.

(** C3.  The state of bandwidth monitoring is a function of
    [bw_config_mode]: ["manual"] is On, ["manual_bwm_disabled"] is Off,
    anything else is unknown.  The patch of an interface always returns;
    a request [bwm=on] on a known state leaves ["manual"] in the payload, a
    request [bwm=off] on a known state leaves ["manual_bwm_disabled"], and
    on an unknown state the payload keeps the mode it had. *)
Theorem bwm_state_derivation CLIARGS e s mode :
  well_formed (data e) ->
  data e !! "bw_config_mode" = Some mode ->
  (current_bwm_state (VStr "manual") = "On" /\
   current_bwm_state (VStr "manual_bwm_disabled") = "Off" /\
   (mode <> VStr "manual" -> mode <> VStr "manual_bwm_disabled" ->
    current_bwm_state mode = "unknown")) /\
  exists d es, returns (patch_interface CLIARGS e) s d es /\
    (bwm CLIARGS = "on" -> current_bwm_state mode <> "unknown" ->
     d !! "bw_config_mode" = Some (VStr "manual")) /\
    (bwm CLIARGS = "off" -> current_bwm_state mode <> "unknown" ->
     d !! "bw_config_mode" = Some (VStr "manual_bwm_disabled")) /\
    (current_bwm_state mode = "unknown" -> d !! "bw_config_mode" = Some mode).
Proof.
  intros Hwf Hmode. split.
  - repeat split. intros H1 H2.
    by destruct (current_bwm_state_cases mode) as [[? _] | [[? _] | (_ & _ & ?)]].
  - destruct (patch_interface_returns CLIARGS e s Hwf) as (es & Hrun & _).
    exists (patch_spec CLIARGS (data e)), es. split; [done|].
    rewrite (patch_spec_bw_config_mode _ _ _ Hmode).
    destruct (String.eqb (current_bwm_state mode) "unknown") eqn:Hst.
    + apply String.eqb_eq in Hst. by repeat split.
    + repeat split.
      * intros ->. done.
      * intros ->. done.
      * intros Hu. rewrite Hu in Hst. discriminate.
Qed.

Lemma bwm_state_derivation_witness :
  well_formed (data (Scenario.matched Scenario.lte_primary)) /\
  data (Scenario.matched Scenario.lte_primary) !! "bw_config_mode" = Some (VStr "manual") /\
  exists d es,
    returns (patch_interface (Scenario.args None "nochange" "off")
               (Scenario.matched Scenario.lte_primary)) (init_state [] []) d es /\
    d !! "bw_config_mode" = Some (VStr "manual_bwm_disabled").
Proof.
  assert (Hwf : well_formed (data (Scenario.matched Scenario.lte_primary))).
  { repeat split; by eexists. }
  assert (Hmode : data (Scenario.matched Scenario.lte_primary) !! "bw_config_mode"
                  = Some (VStr "manual")) by reflexivity.
  split; [exact Hwf | split; [exact Hmode |]].
  destruct (bwm_state_derivation (Scenario.args None "nochange" "off")
              (Scenario.matched Scenario.lte_primary) (init_state [] [])
              (VStr "manual") Hwf Hmode) as (_ & d & es & Hrun & _ & Hoff & _).
  exists d, es. split; [exact Hrun |]. apply Hoff; [reflexivity | discriminate].
Defined.

(** On an unknown state a request [bwm=on] is dropped with a note. *)
Lemma bwm_on_unknown_state_logged CLIARGS e s mode :
  well_formed (data e) ->
  data e !! "bw_config_mode" = Some mode ->
  current_bwm_state mode = "unknown" ->
  bwm CLIARGS = "on" ->
  exists d es, returns (patch_interface CLIARGS e) s d es /\
    d !! "bw_config_mode" = Some mode /\
    Print ["      Ignoring BWM Mode change due to unknown state: "; py_str mode] ∈ es.
Proof.
  intros ([bfd Hbfd] & [lq Hlq] & _) Hmode Hst Hbwm.
  unfold patch_interface. rewrite Hbwm.
  destruct (String.eqb (lqm CLIARGS) "on") eqn:Elon.
  all: destruct (String.eqb (lqm CLIARGS) "off") eqn:Eloff.
  all: eexists _, _; split;
    [ repeat (cbv beta iota zeta; try rewrite Hst; simpl andb; simpl negb;
              simpl (String.eqb _ _); returns_step)
    | split; [solve_lookup | simpl; repeat constructor] ].
Qed.

(** C4.  On an interface whose [bw_config_mode] is neither ["manual"] nor
    ["manual_bwm_disabled"], a request [bwm=off] leaves the mode as it was
    in the payload and prints no note that the change is ignored: the
    condition of line 220 already excludes the unknown state, so the note
    of line 222 is never printed. *)
Theorem bwm_off_unknown_state_not_logged CLIARGS e s mode :
  well_formed (data e) ->
  data e !! "bw_config_mode" = Some mode ->
  current_bwm_state mode = "unknown" ->
  bwm CLIARGS = "off" ->
  exists d es, returns (patch_interface CLIARGS e) s d es /\
    d !! "bw_config_mode" = Some mode /\
    forall args, Print args ∈ es ->
      head args <> Some "      Ignoring BWM Mode change due to unknown state: ".
Proof.
  intros ([bfd Hbfd] & [lq Hlq] & _) Hmode Hst Hbwm.
  unfold patch_interface. rewrite Hbwm.
  destruct (String.eqb (lqm CLIARGS) "on") eqn:Elon.
  all: destruct (String.eqb (lqm CLIARGS) "off") eqn:Eloff.
  all: eexists _, _; split;
    [ repeat (cbv beta iota zeta; try rewrite Hst; simpl andb; simpl negb;
              simpl (String.eqb _ _); returns_step)
    | split; [solve_lookup |] ].
  all: simpl; intros args Hin.
  all: repeat (apply elem_of_cons in Hin as [Hin | Hin];
               [injection Hin as ->; discriminate |]).
  all: by apply elem_of_nil in Hin.
Qed.

Lemma bwm_off_unknown_state_not_logged_witness :
  exists d es,
    returns (patch_interface (Scenario.args None "nochange" "off")
               (Scenario.matched Scenario.lte_backup)) (init_state [] []) d es /\
    d !! "bw_config_mode" = Some (VStr "unknown_mode") /\
    forall args, Print args ∈ es ->
      head args <> Some "      Ignoring BWM Mode change due to unknown state: ".
Proof.
  apply (bwm_off_unknown_state_not_logged (Scenario.args None "nochange" "off")
           (Scenario.matched Scenario.lte_backup) (init_state [] [])
           (VStr "unknown_mode")).
  - repeat split; by eexists.
  - reflexivity.
  - reflexivity.
  - reflexivity.
Defined.

(** C9.  Patching is idempotent: the patch of an interface returns a
    payload, and patching that payload again under the same request returns
    the very same payload, so [bfd_mode], [lqm_enabled] and
    [bw_config_mode] are what one application left. *)
Theorem patch_interface_idempotent CLIARGS e s :
  well_formed (data e) ->
  exists d es1 es2,
    returns (patch_interface CLIARGS e) s d es1 /\
    returns (patch_interface CLIARGS {| site_id := site_id e; data := d |})
      (push s es1) d es2.
Proof.
  intros Hwf.
  destruct (patch_interface_returns CLIARGS e s Hwf) as (es1 & Hrun1 & _).
  pose proof (patch_spec_well_formed CLIARGS _ Hwf) as Hwf'.
  destruct (patch_interface_returns CLIARGS
              {| site_id := site_id e; data := patch_spec CLIARGS (data e) |}
              (push s es1) Hwf') as (es2 & Hrun2 & _).
  exists (patch_spec CLIARGS (data e)), es1, es2. split; [done|].
  simpl in Hrun2. by rewrite (patch_spec_idempotent _ _ Hwf) in Hrun2.
Qed.

Lemma patch_interface_idempotent_witness :
  well_formed (data (Scenario.matched Scenario.lte_primary)) /\
  exists d es1 es2,
    returns (patch_interface (Scenario.args None "off" "off")
               (Scenario.matched Scenario.lte_primary)) (init_state [] []) d es1 /\
    returns (patch_interface (Scenario.args None "off" "off")
               {| site_id := VStr "s1"; data := d |})
      (push (init_state [] []) es1) d es2.
Proof.
  assert (Hwf : well_formed (data (Scenario.matched Scenario.lte_primary))).
  { repeat split; by eexists. }
  split; [exact Hwf |].
  exact (patch_interface_idempotent (Scenario.args None "off" "off")
           (Scenario.matched Scenario.lte_primary) (init_state [] []) Hwf).
Defined.

(** ** Computations that leave the terminal alone *)

Section Quiet.

Context (P : event -> Prop).

Lemma quiet_ret {A} (a : A) : quiet P (mret a).
Proof.
  intros s o s' H. rewrite run_ret in H. injection H as <- <-.
  split; [done|]. exists []. by rewrite app_nil_r.
Qed.

Lemma quiet_stop {A} (o : outcome A) : quiet P (fun s => (o, s)).
Proof.
  intros s o' s' H. injection H as <- <-.
  split; [done|]. exists []. by rewrite app_nil_r.
Qed.

Lemma quiet_raise {A} (e : exn) : quiet P (raise (A:=A) e).
Proof. apply quiet_stop. Qed.

Lemma quiet_sys_exit {A} (arg : exit_arg) : quiet P (sys_exit (A:=A) arg).
Proof. apply quiet_stop. Qed.

Lemma quiet_waiting {A} : quiet P (waiting (A:=A)).
Proof. apply quiet_stop. Qed.

Lemma quiet_get_state : quiet P get_state.
Proof.
  intros s o s' H. injection H as <- <-.
  split; [done|]. exists []. by rewrite app_nil_r.
Qed.

Lemma quiet_set_tenant_id t : quiet P (set_tenant_id t).
Proof.
  intros s o s' H. injection H as <- <-.
  split; [done|]. exists []. simpl. by rewrite app_nil_r.
Qed.

Lemma quiet_set_logins l : quiet P (set_logins l).
Proof.
  intros s o s' H. injection H as <- <-.
  split; [done|]. exists []. simpl. by rewrite app_nil_r.
Qed.

Lemma quiet_emit (e : event) : P e -> quiet P (emit e).
Proof.
  intros He s o s' H. injection H as <- <-.
  split; [done|]. exists [e]. split; [done | by constructor].
Qed.

Lemma quiet_bind {A B} (c : M A) (f : A -> M B) :
  quiet P c -> (forall a, quiet P (f a)) -> quiet P (c ≫= f).
Proof.
  intros Hc Hf s o s' H.
  apply run_bind_inv in H as [(a & s1 & H1 & H2) | (o1 & H1 & _)].
  - destruct (Hc _ _ _ H1) as (Hin1 & es1 & Htr1 & HP1).
    destruct (Hf _ _ _ _ H2) as (Hin2 & es2 & Htr2 & HP2).
    split; [congruence|]. exists (es1 ++ es2).
    split; [by rewrite Htr2, Htr1, app_assoc | by apply Forall_app].
  - apply (Hc _ _ _ H1).
Qed.

Lemma quiet_getitem (d : dict) (k : string) : quiet P (getitem d k).
Proof. unfold getitem. destruct (d !! k); [apply quiet_ret | apply quiet_raise]. Qed.

Lemma quiet_iter_items items : quiet P (iter_items items).
Proof. destruct items; [apply quiet_ret | apply quiet_raise]. Qed.

Lemma quiet_for_fold {A S} (l : list A) (body : S -> A -> M S) :
  (forall acc x, quiet P (body acc x)) -> forall acc, quiet P (for_fold l body acc).
Proof.
  intros Hbody. induction l as [|x l IH]; intros acc; simpl.
  - apply quiet_ret.
  - apply quiet_bind; [apply Hbody | apply IH].
Qed.

End Quiet.

Lemma quiet_weaken {A} (P Q : event -> Prop) (c : M A) :
  (forall e, P e -> Q e) -> quiet P c -> quiet Q c.
Proof.
  intros HPQ Hc s o s' H. destruct (Hc _ _ _ H) as (Hin & es & Htr & HP).
  split; [done|]. exists es. split; [done|]. eapply Forall_impl; eauto.
Qed.

(** One step of a proof that a computation is quiet; [tac] settles the
    computations that have a lemma of their own. *)
Ltac quiet_step tac :=
  lazymatch goal with
  | |- quiet _ (mret _) => apply quiet_ret
  | |- quiet _ (_ ≫= _) => apply quiet_bind; [| intros ?]
  | |- quiet _ (emit _) => apply quiet_emit; first [exact I | reflexivity]
  | |- quiet _ (print _) => apply quiet_emit; first [exact I | reflexivity]
  | |- quiet _ (raise _) => apply quiet_raise
  | |- quiet _ (sys_exit _) => apply quiet_sys_exit
  | |- quiet _ waiting => apply quiet_waiting
  | |- quiet _ get_state => apply quiet_get_state
  | |- quiet _ (set_tenant_id _) => apply quiet_set_tenant_id
  | |- quiet _ (set_logins _) => apply quiet_set_logins
  | |- quiet _ (getitem _ _) => apply quiet_getitem
  | |- quiet _ (iter_items _) => apply quiet_iter_items
  | |- quiet _ (for_fold _ _ _) => apply quiet_for_fold; intros ? ?
  | |- quiet _ (if ?b then _ else _) => destruct b
  | |- quiet _ (match ?x with _ => _ end) => destruct x
  | |- _ => tac
  end.

Ltac quiet_auto tac := repeat (quiet_step tac).

Section QuietProgram.

Variable w : world.

Lemma quiet_logout P : P (Print ["Logging out"]) -> P GetLogout -> quiet P logout.
Proof. intros. unfold logout. repeat (apply quiet_bind; [| intros ?]); by apply quiet_emit. Qed.

Lemma quiet_resolve_token CLIARGS :
  quiet no_input_no_put (resolve_token w CLIARGS).
Proof.
  unfold resolve_token, open_read, env_test, env_get. quiet_auto fail.
Qed.

Lemma quiet_login_loop attempts : quiet no_input_no_put (login_loop attempts).
Proof.
  induction attempts as [|r rest IH]; simpl; quiet_auto ltac:(apply IH).
Qed.

Lemma quiet_authenticate CLIARGS :
  quiet no_input_no_put (authenticate w CLIARGS).
Proof.
  unfold authenticate, use_token.
  quiet_auto ltac:(first [apply quiet_resolve_token | apply quiet_login_loop]).
Qed.

End QuietProgram.

Section QuietDiscovery.

Variable w : world.

Lemma quiet_label_field P labels interface field :
  quiet P (label_field labels interface field).
Proof. unfold label_field. quiet_auto fail. Qed.

Lemma quiet_go_interface labels match_text site matched interface :
  quiet is_print (go_interface labels match_text site matched interface).
Proof. unfold go_interface. quiet_auto ltac:(apply quiet_label_field). Qed.

Lemma is_print_no_input_no_put (e : event) : is_print e -> no_input_no_put e.
Proof. by destruct e. Qed.

Lemma quiet_site_selected P exclude site : quiet P (site_selected exclude site).
Proof. unfold site_selected. quiet_auto fail. Qed.

Lemma quiet_go_site exclude labels match_text matched site :
  quiet no_input_no_put (go_site w exclude labels match_text matched site).
Proof.
  unfold go_site, get_waninterfaces.
  quiet_auto ltac:(first
    [ apply quiet_site_selected
    | apply (quiet_weaken is_print);
      [apply is_print_no_input_no_put | apply quiet_go_interface] ]).
Qed.

Lemma quiet_add_label P labels label : quiet P (add_label labels label).
Proof. unfold add_label. quiet_auto fail. Qed.

Lemma quiet_go_labels : quiet no_input_no_put (go_labels w).
Proof.
  unfold go_labels, get_waninterfacelabels. quiet_auto ltac:(apply quiet_add_label).
Qed.

End QuietDiscovery.

(** ** The confirmation *)

Lemma read_answer_literal (answer : string) :
  answer ∈ ["yes"; "no"; "y"; "n"] -> read_answer answer <> None.
Proof.
  intros H. repeat (apply elem_of_cons in H as [-> | H]; [by vm_compute |]).
  by apply elem_of_nil in H.
Qed.

(** A user who declines is asked, perhaps several times, and
    [verify_change] returns [False]; nothing is submitted meanwhile. *)
Lemma verify_loop_declines (lines : list string) (s : state) :
  declines lines ->
  exists s1 es, run (verify_loop lines) s = (Ret (VBool false), s1) /\
    trace s1 = trace s ++ es /\
    Forall (fun e => ~ is_put e) es /\ Input "Enter yes or no: " ∈ es.
Proof.
  intros (pre & a & post & -> & Hpre & Ha). revert s.
  induction Hpre as [|l pre Hl _ IH]; intros s; simpl.
  - rewrite run_bind, run_emit, run_bind. unfold run at 1, set_stdin.
    rewrite Ha. eexists _, [Input "Enter yes or no: "]. split; [reflexivity|].
    split; [done|]. split; [| apply list_elem_of_here].
    apply Forall_cons_2; [by intros [] | apply Forall_nil_2].
  - rewrite run_bind, run_emit, run_bind. unfold run at 1, set_stdin.
    rewrite Hl, run_bind. unfold print. rewrite run_emit.
    rewrite bool_decide_eq_true_2.
    2: { intros Hin. by apply read_answer_literal in Hin. }
    edestruct IH as (s1 & es & Hrun & Htr & Hput & Hin). rewrite Hrun.
    exists s1, ([Input "Enter yes or no: "; Print ["Please enter yes or no to verify changes"]] ++ es).
    split; [done|]. split.
    { rewrite Htr. simpl. by rewrite <- !app_assoc. }
    split; [| apply list_elem_of_here].
    apply Forall_app. split; [| done].
    repeat (apply Forall_cons_2; [by intros [] |]). apply Forall_nil_2.
Qed.

Lemma verify_change_declines (prompt : string) (s : state) :
  declines (stdin s) ->
  exists s1 es, run (verify_change prompt) s = (Ret (VBool false), s1) /\
    trace s1 = trace s ++ es /\
    Forall (fun e => ~ is_put e) es /\ Input "Enter yes or no: " ∈ es.
Proof.
  intros Hd. unfold verify_change.
  rewrite run_bind. unfold print. rewrite run_emit, run_bind. unfold run at 1, get_state.
  destruct (verify_loop_declines (stdin s) (push s [Print [prompt; "(Y/N)?"]]) Hd)
    as (s1 & es & Hrun & Htr & Hput & Hin).
  simpl stdin. rewrite Hrun. exists s1, (Print [prompt; "(Y/N)?"] :: es).
  split; [done|]. split.
  { rewrite Htr. simpl. by rewrite <- app_assoc. }
  split; [| by apply list_elem_of_further]. apply Forall_cons_2; [by intros [] | done].
Qed.

Lemma no_input_no_put_not_put (es : list event) :
  Forall no_input_no_put es ->
  Forall (fun e => ~ is_put e) es /\ Input "Enter yes or no: " ∉ es.
Proof.
  intros H. split.
  - eapply Forall_impl; [exact H|]. intros e He Hp. by destruct e.
  - intros Hin. rewrite Forall_forall in H. by apply H in Hin.
Qed.

Lemma aborts_quiet (c : M unit) :
  quiet no_input_no_put c -> aborts_when_declined c.
Proof.
  intros Hc s o s' _ Hrun.
  destruct (Hc _ _ _ Hrun) as (_ & es & Htr & Hes).
  apply no_input_no_put_not_put in Hes as [Hput Hin].
  exists es. by repeat split.
Qed.

Lemma aborts_quiet_bind {A} (c : M A) (f : A -> M unit) :
  quiet no_input_no_put c -> (forall a, aborts_when_declined (f a)) ->
  aborts_when_declined (c ≫= f).
Proof.
  intros Hc Hf s o s' Hd Hrun.
  apply run_bind_inv in Hrun as [(a & s1 & H1 & H2) | (o1 & H1 & _ & Hn)].
  - destruct (Hc _ _ _ H1) as (Hin1 & es1 & Htr1 & Hes1).
    apply no_input_no_put_not_put in Hes1 as [Hput1 Hnin1].
    rewrite <- Hin1 in Hd.
    destruct (Hf _ _ _ _ Hd H2) as (es2 & Htr2 & Hput2 & Hok).
    exists (es1 ++ es2). split; [by rewrite Htr2, Htr1, app_assoc|].
    split; [by apply Forall_app|].
    intros [Hin | Hin]%elem_of_app; [done|].
    destruct (Hok Hin) as [-> Hab]. split; [done|]. apply elem_of_app. by right.
  - destruct (Hc _ _ _ H1) as (_ & es & Htr & Hes).
    apply no_input_no_put_not_put in Hes as [Hput Hnin].
    exists es. by repeat split.
Qed.

Lemma aborts_confirmation (prompt : string) (changes : M unit) :
  aborts_when_declined
    (verify_change prompt ≫= fun answer =>
       if truthy answer then changes else print ["CHANGES ABORTED!"]).
Proof.
  intros s o s' Hd Hrun.
  destruct (verify_change_declines prompt s Hd) as (s1 & es & Hv & Htr & Hput & Hin).
  rewrite (run_bind_ret _ _ _ _ _ Hv) in Hrun. simpl in Hrun.
  injection Hrun as <- <-.
  exists (es ++ [Print ["CHANGES ABORTED!"]]). simpl. split; [by rewrite Htr, app_assoc|].
  split.
  - apply Forall_app. split; [done|]. apply Forall_cons_2; [by intros [] | apply Forall_nil_2].
  - intros _. split; [done|]. apply elem_of_app. right. by constructor.
Qed.

Lemma aborts_go_with w exclude CLIARGS :
  aborts_when_declined (go_with w exclude CLIARGS).
Proof.
  unfold go_with, get_tenants, get_sites, jd.
  repeat first
    [ apply aborts_confirmation
    | match goal with
      | |- aborts_when_declined (if ?b then _ else _) => destruct b
      end
    | apply aborts_quiet_bind; [| intros ?]
    | apply aborts_quiet
    | quiet_step ltac:(first
        [ apply quiet_logout; exact I
        | apply quiet_go_labels
        | apply quiet_go_site ]) ].
Qed.

(** C5.  When the user declines at the confirmation prompt, the run submits
    no update of any WAN interface, prints [CHANGES ABORTED!], returns
    normally (exit status zero) and its last act is the logout. *)
Theorem declined_run_submits_nothing w CLIARGS lines attempts o s' :
  declines lines ->
  run (main w CLIARGS) (init_state lines attempts) = (o, s') ->
  Input "Enter yes or no: " ∈ trace s' ->
  o = Ret tt /\ exit_status o = Some 0%Z /\
  (forall sid iid d, PutWanInterfaces sid iid d ∉ trace s') /\
  Print ["CHANGES ABORTED!"] ∈ trace s' /\
  exists pre, trace s' = pre ++ [Print ["Logging out"]; GetLogout].
Proof.
  intros Hd Hrun Hasked. unfold main in Hrun.
  apply run_bind_inv in Hrun as [([] & s1 & H1 & Hrun) | (o1 & H1 & _ & Hn)].
  2: { destruct (quiet_authenticate w CLIARGS _ _ _ H1) as (_ & es & Htr & Hes).
       apply no_input_no_put_not_put in Hes as [_ Hnin].
       simpl in Htr. by rewrite Htr in Hasked. }
  destruct (quiet_authenticate w CLIARGS _ _ _ H1) as (Hin1 & es1 & Htr1 & Hes1).
  apply no_input_no_put_not_put in Hes1 as [Hput1 Hnin1].
  simpl in Hin1, Htr1. rewrite <- Hin1 in Hd.
  apply run_bind_inv in Hrun as [([] & s2 & H2 & Hrun) | (o2 & H2 & Hn2 & Hn)].
  - destruct (aborts_go_with w exclude_hub_sites CLIARGS _ _ _ Hd H2)
      as (es2 & Htr2 & Hput2 & Hok).
    injection Hrun as <- <-. simpl in Hasked |- *.
    rewrite <- app_assoc in Hasked |- *.
    assert (Hin2 : Input "Enter yes or no: " ∈ es2).
    { rewrite Htr2, Htr1 in Hasked. simpl in Hasked.
      apply elem_of_app in Hasked as [Hasked | Hasked].
      - by apply elem_of_app in Hasked as [Hasked | Hasked].
      - apply elem_of_cons in Hasked as [? | Hasked]; [done|].
        apply elem_of_cons in Hasked as [? | Hasked]; [done|].
        by apply elem_of_nil in Hasked. }
    destruct (Hok Hin2) as [_ Hab].
    split; [done|]. split; [done|]. split; [| split; [| by eexists]].
    + intros sid iid d Hin.
      assert (Hall : Forall (fun e => ~ is_put e)
                       (trace s2 ++ [Print ["Logging out"]] ++ [GetLogout])).
      { rewrite Htr2, Htr1. simpl. repeat apply Forall_app_2; try done.
        repeat (apply Forall_cons_2; [by intros [] |]). apply Forall_nil_2. }
      rewrite Forall_forall in Hall. by apply Hall in Hin.
    + rewrite Htr2. apply elem_of_app. left. apply elem_of_app. by right.
  - destruct (aborts_go_with w exclude_hub_sites CLIARGS _ _ _ Hd H2)
      as (es2 & Htr2 & Hput2 & Hok).
    rewrite Htr2, Htr1 in Hasked. simpl in Hasked.
    apply elem_of_app in Hasked as [Hasked | Hin2]; [done|].
    destruct (Hok Hin2) as [-> _]. by destruct (Hn2 tt).
Qed.

Lemma declined_run_submits_nothing_witness :
  let w := Scenario.controller [Scenario.internet_label] ∅ in
  let r := run (main w (Scenario.args (Some "good") "off" "off"))
             (init_state ["perhaps"; "no"] []) in
  declines ["perhaps"; "no"] /\
  Input "Enter yes or no: " ∈ trace r.2 /\
  r.1 = Ret tt /\
  (forall sid iid d, PutWanInterfaces sid iid d ∉ trace r.2) /\
  Print ["CHANGES ABORTED!"] ∈ trace r.2.
Proof.
  intros w r.
  assert (Hd : declines ["perhaps"; "no"]).
  { exists ["perhaps"], "no", []. split; [reflexivity|]. split.
    - apply Forall_cons_2; [by vm_compute | apply Forall_nil_2].
    - by vm_compute. }
  assert (Hin : Input "Enter yes or no: " ∈ trace r.2).
  { apply (bool_decide_unpack _). by vm_compute. }
  destruct (declined_run_submits_nothing w (Scenario.args (Some "good") "off" "off")
              ["perhaps"; "no"] [] r.1 r.2 Hd (surjective_pairing r) Hin)
    as (Ho & _ & Hput & Hab & _).
  by repeat split.
Defined.

(** ** Stepping through a run *)

Lemma run_bind_returns {A B} (c : M A) (f : A -> M B) s a es :
  returns c s a es -> run (c ≫= f) s = run (f a) (push s es).
Proof. apply run_bind_ret. Qed.

Lemma run_bind_raise {A B} (c : M A) (f : A -> M B) s s' e :
  run c s = (Raise e, s') -> run (c ≫= f) s = (Raise e, s').
Proof. intros H. by rewrite run_bind, H. Qed.

Lemma run_bind_sys_exit {A B} (c : M A) (f : A -> M B) s s' arg :
  run c s = (SysExit arg, s') -> run (c ≫= f) s = (SysExit arg, s').
Proof. intros H. by rewrite run_bind, H. Qed.

Lemma run_bind_waiting {A B} (c : M A) (f : A -> M B) s s' :
  run c s = (Waiting, s') -> run (c ≫= f) s = (Waiting, s').
Proof. intros H. by rewrite run_bind, H. Qed.

Lemma quiet_trace {A} P (c : M A) s o s' :
  quiet P c -> run c s = (o, s') ->
  exists es, trace s' = trace s ++ es /\ Forall P es.
Proof. intros Hq Hrun. by destruct (Hq _ _ _ Hrun) as [_ ?]. Qed.

(** ** Which sites are visited *)

Lemma returns_get_waninterfaces w sid s :
  returns (get_waninterfaces w sid) s (w_waninterfaces w sid) [GetWanInterfaces sid].
Proof. reflexivity. Qed.




(** ** The mutation *)

Lemma puts_app (es1 es2 : list event) : puts (es1 ++ es2) = puts es1 ++ puts es2.
Proof. apply omap_app. Qed.

Lemma puts_prints (es : list event) : Forall is_print es -> puts es = [].
Proof.
  induction 1 as [|e es He _ IH]; [done|].
  by destruct e.
Qed.

Lemma go_mutate_one_returns w CLIARGS (u : unit) (item : value * entry) (s : state) :
  well_formed (data item.2) ->
  exists log, Forall is_print log /\
    returns (go_mutate_one w CLIARGS u item) s tt
      (log ++
       [PutWanInterfaces (site_id item.2) item.1 (patch_spec CLIARGS (data item.2));
        Print (report CLIARGS
                 (w_put_waninterfaces w (trace s ++ log) (site_id item.2) item.1
                    (patch_spec CLIARGS (data item.2))));
        Print [""]]).
Proof.
  intros Hwf.
  destruct (patch_interface_returns CLIARGS item.2 s Hwf) as (log & Hrun & Hlog).
  exists log. split; [done|]. unfold go_mutate_one.
  eapply returns_bind; [exact Hrun|].
  eapply (returns_bind _ _ _ _ _ [_] [_; _]); [apply returns_put|].
  eapply (returns_bind _ _ _ _ _ [_] [_]); [| apply returns_print].
  unfold report. simpl trace.
  destruct (w_put_waninterfaces w _ _ _ _); apply returns_print.
Qed.

Lemma go_mutate_returns w CLIARGS (matched : list (value * entry)) (s : state) :
  Forall (fun item => well_formed (data item.2)) matched ->
  exists es, returns (go_mutate w CLIARGS matched) s tt es /\
    puts es = map (fun item => (site_id item.2, item.1,
                                patch_spec CLIARGS (data item.2))) matched.
Proof.
  intros Hwf. revert s. unfold go_mutate.
  induction Hwf as [|item matched Hitem _ IH]; intros s; simpl.
  - exists []. split; [apply returns_ret | done].
  - destruct (go_mutate_one_returns w CLIARGS tt item s Hitem) as (log & Hlog & Hone).
    edestruct IH as (es & Hrest & Hputs).
    eexists. split.
    + eapply returns_bind; [exact Hone | exact Hrest].
    + rewrite !puts_app, (puts_prints _ Hlog), Hputs. reflexivity.
Qed.

(** C6.  The mutation is best effort.  Whatever the controller answers to
    each submission, the loop over the matched interfaces returns normally
    and submits exactly one update per matched interface, in order, scoped
    to its site and its identifier; and each submission is followed at once
    by the report of its own outcome, success or failure. *)
Theorem mutation_is_best_effort w CLIARGS (matched : list (value * entry)) (s : state) :
  Forall (fun item => well_formed (data item.2)) matched ->
  (exists es, returns (go_mutate w CLIARGS matched) s tt es /\
     puts es = map (fun item => (site_id item.2, item.1,
                                 patch_spec CLIARGS (data item.2))) matched) /\
  (forall item s1, item ∈ matched ->
     exists log, Forall is_print log /\
       returns (go_mutate_one w CLIARGS tt item) s1 tt
         (log ++
          [PutWanInterfaces (site_id item.2) item.1 (patch_spec CLIARGS (data item.2));
           Print (report CLIARGS
                    (w_put_waninterfaces w (trace s1 ++ log) (site_id item.2) item.1
                       (patch_spec CLIARGS (data item.2))));
           Print [""]])).
Proof.
  intros Hwf. split.
  - by apply go_mutate_returns.
  - intros item s1 Hin. apply go_mutate_one_returns.
    rewrite Forall_forall in Hwf. by apply Hwf.
Qed.

Lemma mutation_is_best_effort_witness :
  let w := Scenario.controller [Scenario.internet_label] ∅ in
  let CLIARGS := Scenario.args (Some "good") "off" "off" in
  let matched := [(VStr "i1", Scenario.matched Scenario.lte_primary);
                  (VStr "i3", Scenario.matched Scenario.lte_backup)] in
  Forall (fun item => well_formed (data item.2)) matched /\
  w_put_waninterfaces w [] (VStr "s1") (VStr "i1")
    (patch_spec CLIARGS Scenario.lte_primary) = false /\
  exists es, returns (go_mutate w CLIARGS matched) (init_state [] []) tt es /\
    puts es = [(VStr "s1", VStr "i1", patch_spec CLIARGS Scenario.lte_primary);
               (VStr "s1", VStr "i3", patch_spec CLIARGS Scenario.lte_backup)].
Proof.
  intros w CLIARGS matched.
  assert (Hwf : Forall (fun item => well_formed (data item.2)) matched).
  { repeat apply Forall_cons_2; [| | apply Forall_nil_2]; repeat split; by eexists. }
  split; [exact Hwf | split; [reflexivity |]].
  exact (proj1 (mutation_is_best_effort w CLIARGS matched (init_state [] []) Hwf)).
Defined.

(** ** Authentication *)

Lemma source_rank_max (src : source) : source_rank src <= 4.
Proof. destruct src; simpl; lia. Qed.

Lemma none_after_interactive (es : list event) : none_after InteractiveLogin es.
Proof. intros e src _ _. apply source_rank_max. Qed.



(** Settles [none_after] on an explicit list of events. *)
Ltac none_after_list :=
  let e := fresh "e" in let src := fresh "src" in
  let Hin := fresh "Hin" in let Hc := fresh "Hc" in
  intros e src Hin Hc;
  repeat (apply elem_of_cons in Hin as [-> | Hin];
          [vm_compute in Hc; first [discriminate | injection Hc as <-; vm_compute; lia] |]);
  by apply elem_of_nil in Hin.

Ltac not_api_list :=
  repeat (apply Forall_cons_2; [by intros [] |]); apply Forall_nil_2.

(** *** Symbolic execution *)

Lemma run_bind_assoc {A B C} (c : M A) (f : A -> M B) (g : B -> M C) s :
  run ((c ≫= f) ≫= g) s = run (c ≫= fun a => f a ≫= g) s.
Proof. rewrite !run_bind. by destruct (run c s) as [[] ?]. Qed.

Lemma run_ret_bind {A B} (a : A) (f : A -> M B) s :
  run (mret a ≫= f) s = run (f a) s.
Proof. reflexivity. Qed.

Lemma run_emit_bind {B} (e : event) (f : unit -> M B) s :
  run (emit e ≫= f) s = run (f tt) (push s [e]).
Proof. reflexivity. Qed.

Lemma run_print_bind {B} (args : list string) (f : unit -> M B) s :
  run (print args ≫= f) s = run (f tt) (push s [Print args]).
Proof. reflexivity. Qed.

Lemma run_print (args : list string) s :
  run (print args) s = (Ret tt, push s [Print args]).
Proof. reflexivity. Qed.

Lemma run_get_state_bind {B} (f : state -> M B) s :
  run (get_state ≫= f) s = run (f s) s.
Proof. reflexivity. Qed.

Lemma run_raise_bind {A B} (e : exn) (f : A -> M B) s :
  run (raise e ≫= f) s = (Raise e, s).
Proof. reflexivity. Qed.

Lemma run_sys_exit_bind {A B} (arg : exit_arg) (f : A -> M B) s :
  run (sys_exit arg ≫= f) s = (SysExit arg, s).
Proof. reflexivity. Qed.

Lemma run_getitem_bind {B} (d : dict) (k : string) (v : value) (f : value -> M B) s :
  d !! k = Some v -> run (getitem d k ≫= f) s = run (f v) s.
Proof. intros H. unfold getitem. by rewrite H. Qed.

Ltac run_simpl :=
  repeat first
    [ rewrite run_bind_assoc
    | rewrite run_ret_bind
    | rewrite run_emit_bind
    | rewrite run_print_bind
    | rewrite run_get_state_bind
    | rewrite run_raise_bind
    | rewrite run_sys_exit_bind
    | rewrite push_push
    | rewrite run_emit
    | rewrite run_print
    | rewrite run_ret ].

(** The selection of lines 98-113 does not depend on the state it starts
    in; it consults no source after the first one present, calls nothing of
    the controller, and returns no token exactly when no token source is
    present. *)
Lemma resolve_token_run w CLIARGS :
  exists o es, (forall s, run (resolve_token w CLIARGS) s = (o, push s es)) /\
    none_after (first_present w CLIARGS) es /\
    Forall (fun e => ~ is_api_call e) es /\
    (o = Ret None <-> first_present w CLIARGS = InteractiveLogin).
Proof.
  unfold resolve_token, first_present.
  destruct (truthy_opt (token CLIARGS)) eqn:Htok.
  { exists (Ret (token CLIARGS)),
      [Print ["    "; "Authenticating using Auth-Token in from CLI ARGS"]].
    split; [intros s; by run_simpl |].
    split; [none_after_list|]. split; [not_api_list|].
    split; [| done]. intros [= Hnone]. by rewrite Hnone in Htok. }
  destruct (truthy_opt (authtokenfile CLIARGS)) eqn:Hfile.
  { unfold open_read.
    destruct (w_files w !! default "" (authtokenfile CLIARGS)) as [contents|] eqn:Hc.
    - exists (Ret (Some (PyStr.strip contents))),
        [OpenFile (default "" (authtokenfile CLIARGS));
         Print ["    "; "Authenticating using Auth-token from file";
                default "" (authtokenfile CLIARGS)]].
      split; [intros s; by run_simpl |].
      split; [none_after_list|]. split; [not_api_list|]. by split.
    - exists (Raise (FileNotFoundError (default "" (authtokenfile CLIARGS)))),
        [OpenFile (default "" (authtokenfile CLIARGS))].
      split; [intros s; by run_simpl |].
      split; [none_after_list|]. split; [not_api_list|]. by split. }
  unfold env_test, env_get.
  destruct (w_environ w !! "X_AUTH_TOKEN") as [x|] eqn:Hx.
  { exists (Ret (Some x)),
      [EnvTest "X_AUTH_TOKEN"; EnvGet "X_AUTH_TOKEN";
       Print ["    "; "Authenticating using environment variable X_AUTH_TOKEN"]].
    split; [intros s; by repeat (progress (run_simpl; simpl bool_decide; cbv beta iota)) |].
    split; [none_after_list|]. split; [not_api_list|]. by split. }
  destruct (w_environ w !! "AUTH_TOKEN") as [a|] eqn:Ha.
  { exists (Ret (Some a)),
      [EnvTest "X_AUTH_TOKEN"; EnvTest "AUTH_TOKEN"; EnvGet "AUTH_TOKEN";
       Print ["    "; "Authenticating using environment variable AUTH_TOKEN"]].
    split; [intros s; by repeat (progress (run_simpl; simpl bool_decide; cbv beta iota)) |].
    split; [none_after_list|]. split; [not_api_list|]. by split. }
  exists (Ret None),
    [EnvTest "X_AUTH_TOKEN"; EnvTest "AUTH_TOKEN";
     Print ["    "; "Authenticating using interactive login"]].
  split; [intros s; by repeat (progress (run_simpl; simpl bool_decide; cbv beta iota)) |].
  split; [apply none_after_interactive|]. split; [not_api_list|]. by split.
Qed.




(** C8.  A token is selected, it is not empty and the controller rejects
    it: the run ends at once in [sys.exit()], before any call of the
    discovery, and the exit status of [sys.exit()] without an argument is
    zero. *)
Theorem rejected_token_exits_with_status_zero w CLIARGS lines attempts tok s1 :
  run (resolve_token w CLIARGS) (init_state lines attempts) = (Ret (Some tok), s1) ->
  tok <> "" ->
  w_use_token w tok = None ->
  exists s', run (main w CLIARGS) (init_state lines attempts)
             = (SysExit (ExitValue VNone), s') /\
    exit_status (SysExit (A:=unit) (ExitValue VNone)) = Some 0%Z /\
    Forall (fun e => ~ is_api_call e) (trace s') /\
    exists pre, trace s' =
      pre ++ [UseToken tok;
              Print ["    "; "ERROR: AUTH_TOKEN login failure, please check token."]].
Proof.
  intros Hsel Htok Hrej.
  destruct (resolve_token_run w CLIARGS) as (o & es & Hrun & _ & Hapi & _).
  rewrite Hrun in Hsel. injection Hsel as -> _.
  assert (Ht : truthy_opt (Some tok) = true).
  { simpl. by destruct (String.eqb_spec tok ""). }
  eexists. split.
  - unfold main. apply run_bind_sys_exit.
    unfold authenticate. rewrite run_print_bind, run_bind, Hrun.
    cbv beta iota. rewrite Ht. unfold use_token. simpl default. rewrite Hrej.
    run_simpl. simpl tenant_id. cbv iota. run_simpl. reflexivity.
  - split; [done|]. simpl. split.
    + repeat first [ done | apply Forall_nil_2 | apply Forall_app_2
                   | apply Forall_cons_2; [by intros [] |] ].
    + exists (Print ["AUTHENTICATING..."] :: es). simpl. by rewrite <- app_assoc.
Qed.

Lemma rejected_token_exits_with_status_zero_witness :
  let w := Scenario.controller [Scenario.internet_label] ∅ in
  let CLIARGS := Scenario.args (Some "stale") "nochange" "nochange" in
  let r := run (main w CLIARGS) (init_state [] []) in
  w_use_token w "stale" = None /\
  r.1 = SysExit (ExitValue VNone) /\ exit_status r.1 = Some 0%Z /\
  Forall (fun e => ~ is_api_call e) (trace r.2).
Proof.
  intros w CLIARGS r.
  destruct (rejected_token_exits_with_status_zero w CLIARGS [] [] "stale"
              (run (resolve_token w CLIARGS) (init_state [] [])).2)
    as (s' & Hrun & Hst & Hapi & _).
  - reflexivity.
  - discriminate.
  - reflexivity.
  - split; [reflexivity|]. unfold r. rewrite Hrun. by repeat split.
Defined.

(** ** The label of a matched interface *)

Lemma run_label_field_missing labels (interface : dict) field label_id s :
  interface !! "label_id" = Some label_id ->
  labels !! label_id = None ->
  run (label_field labels interface field) s = (Raise (KeyError label_id), s).
Proof.
  intros Hid Hnone. unfold label_field.
  rewrite (run_getitem_bind _ _ _ _ _ Hid). by rewrite Hnone.
Qed.

(** C10.  The display of the label is not guarded.  Whenever an interface
    matches and its [label_id] is not a key of the dictionary of labels,
    the body of the loop raises [KeyError] for that identifier, right after
    printing the site and the circuit name; and such a run exists: against
    a controller that returns no labels, the whole script ends in that
    uncaught [KeyError]. *)
Theorem missing_label_raises_key_error :
  (forall labels match_text (site : dict) matched (interface : dict) s
          name id sid site_name label_id,
     interface !! "name" = Some name ->
     string_match name (VStr match_text) = true ->
     interface !! "id" = Some id ->
     site !! "id" = Some sid ->
     site !! "name" = Some site_name ->
     interface !! "label_id" = Some label_id ->
     labels !! label_id = None ->
     run (go_interface labels match_text site matched interface) s =
     (Raise (KeyError label_id),
      push s [Print ["Found Circuit Match at SITE:"; py_str site_name];
              Print ["  Circuit Name        :"; py_str name]])) /\
  (exists s',
     run (main (Scenario.controller [] ∅) (Scenario.args (Some "good") "nochange" "nochange"))
       (init_state [] [])
     = (Raise (KeyError (VStr "L1")), s')).
Proof.
  split.
  - intros labels match_text site matched interface s name id sid site_name label_id
      Hname Hmatch Hid Hsid Hsname Hlabel Hnone.
    unfold go_interface.
    rewrite (run_getitem_bind _ _ _ _ _ Hname), Hmatch.
    rewrite (run_getitem_bind _ _ _ _ _ Hid), (run_getitem_bind _ _ _ _ _ Hsid).
    cbv zeta.
    rewrite (run_getitem_bind _ _ _ _ _ Hsname), run_print_bind.
    rewrite (run_getitem_bind _ _ _ _ _ Hname), run_print_bind, push_push.
    apply run_bind_raise. by apply run_label_field_missing.
  - eexists. vm_compute. reflexivity.
Qed.

Lemma missing_label_raises_key_error_witness :
  Scenario.lte_primary !! "label_id" = Some (VStr "L1") /\
  (∅ : gmap value dict) !! VStr "L1" = None /\
  string_match (VStr "LTE-Primary") (VStr "lte") = true /\
  (run (go_interface ∅ "lte" Scenario.branch [] Scenario.lte_primary) (init_state [] [])).1
  = Raise (KeyError (VStr "L1")).
Proof.
  assert (H1 : Scenario.lte_primary !! "label_id" = Some (VStr "L1")) by reflexivity.
  assert (H2 : (∅ : gmap value dict) !! VStr "L1" = None) by reflexivity.
  assert (H3 : string_match (VStr "LTE-Primary") (VStr "lte") = true) by reflexivity.
  split; [exact H1 | split; [exact H2 | split; [exact H3 |]]].
  rewrite (proj1 missing_label_raises_key_error ∅ "lte" Scenario.branch []
             Scenario.lte_primary (init_state [] []) (VStr "LTE-Primary") (VStr "i1")
             (VStr "s1") (VStr "Branch") (VStr "L1")
             eq_refl H3 eq_refl eq_refl eq_refl H1 H2).
  reflexivity.
Defined.

(** ** What discovery records *)

Lemma run_bind_Ret_inv {A B} (c : M A) (f : A -> M B) s b s' :
  run (c ≫= f) s = (Ret b, s') ->
  exists a s1, run c s = (Ret a, s1) /\ run (f a) s1 = (Ret b, s').
Proof.
  intros H. apply run_bind_inv in H as [? | (o1 & _ & _ & Hn)]; [done|].
  by destruct (Hn b).
Qed.

Lemma run_getitem_Ret_inv (d : dict) (k : string) s v s' :
  run (getitem d k) s = (Ret v, s') -> d !! k = Some v /\ s' = s.
Proof.
  unfold getitem. destruct (d !! k); [| discriminate].
  rewrite run_ret. by intros [= -> ->].
Qed.

Lemma od_set_Forall {V} (P : value * V -> Prop) k v (d : list (value * V)) :
  P (k, v) -> Forall P d -> Forall P (od_set k v d).
Proof.
  intros Hkv. induction 1 as [|[k' v'] d Hhd Htl IH]; simpl.
  - apply Forall_cons_2; [done | apply Forall_nil_2].
  - destruct (decide (k = k')); by apply Forall_cons_2.
Qed.

(** Peels the binds of a run that returned, keeping what each [getitem]
    found. *)
Ltac ret_inv H :=
  repeat
    (let H1 := fresh "Hstep" in
     apply run_bind_Ret_inv in H as (? & ? & H1 & H);
     try (apply run_getitem_Ret_inv in H1 as [H1 ->])).

Lemma go_interface_well_formed labels match_text site matched interface s m s' :
  Forall (fun item : value * entry => well_formed (data item.2)) matched ->
  run (go_interface labels match_text site matched interface) s = (Ret m, s') ->
  Forall (fun item : value * entry => well_formed (data item.2)) m.
Proof.
  intros Hwf Hrun. unfold go_interface in Hrun.
  apply run_bind_Ret_inv in Hrun as (name & s1 & _ & Hrun).
  destruct (string_match name (VStr match_text)).
  2: { rewrite run_ret in Hrun. by injection Hrun as <- _. }
  ret_inv Hrun. rewrite run_ret in Hrun. injection Hrun as <- _.
  apply od_set_Forall; [| done]. simpl. repeat split; by eexists.
Qed.

Lemma for_fold_Ret_invariant {A S} (I : S -> Prop) (l : list A) (body : S -> A -> M S) :
  (forall acc x s a s', I acc -> run (body acc x) s = (Ret a, s') -> I a) ->
  forall acc s a s', I acc -> run (for_fold l body acc) s = (Ret a, s') -> I a.
Proof.
  intros Hbody. induction l as [|x l IH]; intros acc s a s' Hacc Hrun; simpl in Hrun.
  - rewrite run_ret in Hrun. by injection Hrun as <- _.
  - apply run_bind_Ret_inv in Hrun as (acc' & s1 & Hx & Hrun). eauto.
Qed.

Lemma go_site_well_formed w exclude labels match_text matched site s m s' :
  Forall (fun item : value * entry => well_formed (data item.2)) matched ->
  run (go_site w exclude labels match_text matched site) s = (Ret m, s') ->
  Forall (fun item : value * entry => well_formed (data item.2)) m.
Proof.
  intros Hwf Hrun. unfold go_site in Hrun.
  apply run_bind_Ret_inv in Hrun as ([] & s1 & _ & Hrun).
  2: { rewrite run_ret in Hrun. by injection Hrun as <- _. }
  apply run_bind_Ret_inv in Hrun as (sid & s2 & _ & Hrun).
  apply run_bind_Ret_inv in Hrun as (resp & s3 & _ & Hrun).
  destruct (resp_truth resp).
  2: { rewrite run_ret in Hrun. by injection Hrun as <- _. }
  apply run_bind_Ret_inv in Hrun as (items & s4 & _ & Hrun).
  eapply for_fold_Ret_invariant; [| exact Hwf | exact Hrun].
  intros acc x s0 a s0' Hacc Hx. by eapply go_interface_well_formed.
Qed.

(** Every interface that discovery records has the three fields that the
    mutation reads, so the mutation of what discovery found never fails on
    a missing field. *)
Lemma discovery_records_well_formed w exclude labels match_text site_list s m s' :
  run (for_fold site_list (go_site w exclude labels match_text) []) s = (Ret m, s') ->
  Forall (fun item : value * entry => well_formed (data item.2)) m.
Proof.
  apply for_fold_Ret_invariant; [| done].
  intros acc x s0 a s0' Hacc Hx. by eapply go_site_well_formed.
Qed.

(** ** The sites visited by the whole loop *)

Lemma fetches_app (es1 es2 : list event) :
  fetches (es1 ++ es2) = fetches es1 ++ fetches es2.
Proof. apply omap_app. Qed.

Lemma fetches_prints (es : list event) : Forall is_print es -> fetches es = [].
Proof. induction 1 as [|e es He _ IH]; [done|]. by destruct e. Qed.

Lemma go_interfaces_print labels match_text site (items : list dict) matched :
  quiet is_print (for_fold items (go_interface labels match_text site) matched).
Proof. apply quiet_for_fold. intros. apply quiet_go_interface. Qed.

Lemma go_site_fetches w labels match_text matched (site : dict) s m s' :
  run (go_site w exclude_hub_sites labels match_text matched site) s = (Ret m, s') ->
  exists es, trace s' = trace s ++ es /\ fetches es = non_hub_site_ids [site].
Proof.
  intros Hrun. unfold go_site, site_selected, exclude_hub_sites in Hrun.
  unfold non_hub_site_ids. simpl.
  rewrite run_bind_assoc in Hrun.
  apply run_bind_Ret_inv in Hrun as (role & s1 & [Hrole ->]%run_getitem_Ret_inv & Hrun).
  rewrite run_ret_bind in Hrun. rewrite Hrole.
  destruct (decide (role = VStr "HUB")) as [->|Hne].
  - rewrite bool_decide_eq_false_2 in Hrun by (by intros []).
    rewrite run_ret in Hrun. injection Hrun as _ <-.
    exists []. by rewrite app_nil_r.
  - rewrite bool_decide_eq_true_2 in Hrun by done.
    apply run_bind_Ret_inv in Hrun as (sid & s2 & [Hsid ->]%run_getitem_Ret_inv & Hrun).
    rewrite (run_bind_returns _ _ _ _ _ (returns_get_waninterfaces w sid s)) in Hrun.
    rewrite Hsid.
    assert (Hq : quiet is_print
              (if resp_truth (w_waninterfaces w sid)
               then wan_interfaces ← iter_items (content_items (w_waninterfaces w sid));
                    for_fold wan_interfaces (go_interface labels match_text site) matched
               else mret matched)).
    { quiet_auto ltac:(apply quiet_go_interface). }
    destruct (quiet_trace _ _ _ _ _ Hq Hrun) as (es & Htr & Hes).
    exists (GetWanInterfaces sid :: es). split.
    + rewrite Htr. simpl. by rewrite <- app_assoc.
    + simpl. by rewrite (fetches_prints _ Hes).
Qed.

(** With [exclude_hub_sites] set, a loop over the sites that runs to its
    end has fetched the WAN interfaces of the sites that are not hubs, each
    once, in the order of the list, and of no other site. *)
Lemma site_loop_fetches w labels match_text (site_list : list dict) matched s m s' :
  run (for_fold site_list (go_site w exclude_hub_sites labels match_text) matched) s
  = (Ret m, s') ->
  exists es, trace s' = trace s ++ es /\ fetches es = non_hub_site_ids site_list.
Proof.
  revert matched s. induction site_list as [|site site_list IH]; intros matched s Hrun.
  - simpl in Hrun. rewrite run_ret in Hrun. injection Hrun as _ <-.
    exists []. by rewrite app_nil_r.
  - simpl in Hrun.
    apply run_bind_Ret_inv in Hrun as (m1 & s1 & Hsite & Hrun).
    destruct (go_site_fetches _ _ _ _ _ _ _ _ Hsite) as (es1 & Htr1 & Hf1).
    destruct (IH _ _ Hrun) as (es2 & Htr2 & Hf2).
    exists (es1 ++ es2). split; [by rewrite Htr2, Htr1, app_assoc|].
    rewrite fetches_app, Hf1, Hf2. unfold non_hub_site_ids. simpl.
    by destruct (site !! "element_cluster_role") as [role|];
      [destruct (decide (role = VStr "HUB")); [| destruct (site !! "id")] |].
Qed.

(** ** The scenarios *)

(** Scenario 1. *)
Example lte_matches :
  string_match (VStr "LTE-Primary") (VStr "lte") = true /\
  string_match (VStr "lte_backup") (VStr "lte") = true /\
  string_match (VStr "Fiber-1") (VStr "lte") = false.
Proof. by vm_compute. Qed.

(** The prompt reads any line that contains a [y] as a yes, and any other
    line that contains an [n] as a no. *)
Example answers_by_containment :
  read_answer "dye" = Some true /\ read_answer "nostalgia" = Some false /\
  read_answer "no way" = Some true /\ read_answer "perhaps" = None.
Proof. by vm_compute. Qed.

(** * Further properties *)

(** ** The confirmation prompt *)

Lemma contains_yes_y (h : string) :
  PyStr.contains "yes" h = true -> PyStr.contains "y" h = true.
Proof.
  rewrite !contains_substring_of. intros (pre & suf & ->).
  by exists pre, ("es" +:+ suf).
Qed.

Lemma contains_no_n (h : string) :
  PyStr.contains "no" h = true -> PyStr.contains "n" h = true.
Proof.
  rewrite !contains_substring_of. intros (pre & suf & ->).
  by exists pre, ("o" +:+ suf).
Qed.

Lemma read_answer_contains (answer : string) :
  read_answer answer =
  if PyStr.contains "y" (PyStr.lower answer) then Some true
  else if PyStr.contains "n" (PyStr.lower answer) then Some false
  else None.
Proof.
  unfold read_answer. rewrite !string_match_contains.
  change (PyStr.lower (py_str (VStr "yes"))) with "yes".
  change (PyStr.lower (py_str (VStr "y"))) with "y".
  change (PyStr.lower (py_str (VStr "no"))) with "no".
  change (PyStr.lower (py_str (VStr "n"))) with "n".
  change (py_str (VStr answer)) with answer.
  pose proof (contains_yes_y (PyStr.lower answer)) as Hy.
  pose proof (contains_no_n (PyStr.lower answer)) as Hn.
  destruct (PyStr.contains "y" (PyStr.lower answer)).
  { by rewrite orb_true_r. }
  destruct (PyStr.contains "yes" (PyStr.lower answer)); [by discriminate Hy|].
  simpl. destruct (PyStr.contains "n" (PyStr.lower answer)).
  { by rewrite orb_true_r. }
  by destruct (PyStr.contains "no" (PyStr.lower answer)); [discriminate Hn|].
Qed.

(** X1.  How the prompt reads a line: as a yes exactly when the line holds
    a [y] in either case, wherever it stands and whatever surrounds it; as
    a no exactly when it holds no [y] and holds an [n]; and as no answer
    exactly when it holds neither letter. *)
Theorem read_answer_by_letter (answer : string) :
  (read_answer answer = Some true <->
   PyStr.substring_of "y" (PyStr.lower answer)) /\
  (read_answer answer = Some false <->
   ~ PyStr.substring_of "y" (PyStr.lower answer) /\
   PyStr.substring_of "n" (PyStr.lower answer)) /\
  (read_answer answer = None <->
   ~ PyStr.substring_of "y" (PyStr.lower answer) /\
   ~ PyStr.substring_of "n" (PyStr.lower answer)).
Proof.
  rewrite read_answer_contains, <- !contains_substring_of.
  destruct (PyStr.contains "y" (PyStr.lower answer));
    destruct (PyStr.contains "n" (PyStr.lower answer));
    repeat split; try done; try (by intros [? ?]); by intros [].
Qed.

Lemma read_to_read_to s es1 r1 es2 r2 :
  read_to (read_to s es1 r1) es2 r2 = read_to s (es1 ++ es2) r2.
Proof. unfold read_to. simpl. by rewrite app_assoc. Qed.

Lemma verify_loop_answer (pre : list string) a post b (s : state) :
  Forall (fun l => read_answer l = None) pre ->
  read_answer a = Some b ->
  run (verify_loop (pre ++ a :: post)) s =
  (Ret (VBool b),
   read_to s
     (concat (map (fun _ : string =>
                     [Input "Enter yes or no: ";
                      Print ["Please enter yes or no to verify changes"]]) pre) ++
      [Input "Enter yes or no: "]) post).
Proof.
  intros Hpre Ha. revert s.
  induction Hpre as [|l pre Hl _ IH]; intros s; simpl.
  - rewrite run_bind, run_emit, run_bind. unfold run at 1, set_stdin.
    by rewrite Ha.
  - rewrite run_bind, run_emit, run_bind. unfold run at 1, set_stdin.
    rewrite Hl, run_bind. unfold print. rewrite run_emit.
    rewrite bool_decide_eq_true_2.
    2: { intros Hin. by apply read_answer_literal in Hin. }
    rewrite IH. f_equal. unfold read_to, push. simpl. f_equal.
    by rewrite <- !app_assoc.
Qed.

Lemma verify_loop_eof (lines : list string) (s : state) :
  Forall (fun l => read_answer l = None) lines ->
  run (verify_loop lines) s =
  (Raise EOFError,
   read_to s
     (concat (map (fun _ : string =>
                     [Input "Enter yes or no: ";
                      Print ["Please enter yes or no to verify changes"]]) lines) ++
      [Input "Enter yes or no: "])
     (match lines with [] => stdin s | _ => [] end)).
Proof.
  intros Hall. revert s.
  induction Hall as [|l lines Hl Hall IH]; intros s; simpl.
  - rewrite run_bind, run_emit. by destruct s.
  - rewrite run_bind, run_emit, run_bind. unfold run at 1, set_stdin.
    rewrite Hl, run_bind. unfold print. rewrite run_emit.
    rewrite bool_decide_eq_true_2.
    2: { intros Hin. by apply read_answer_literal in Hin. }
    rewrite IH. f_equal. unfold read_to, push. simpl.
    rewrite <- !app_assoc. simpl. by destruct lines.
Qed.

Lemma verify_change_reads (prompt : string) (s : state) pre a post b :
  stdin s = pre ++ a :: post ->
  Forall (fun l => read_answer l = None) pre ->
  read_answer a = Some b ->
  run (verify_change prompt) s = (Ret (VBool b), read_to s (asked prompt pre) post).
Proof.
  intros Hin Hpre Ha. unfold verify_change.
  rewrite run_print_bind, run_get_state_bind. simpl stdin. rewrite Hin.
  rewrite (verify_loop_answer pre a post b _ Hpre Ha).
  f_equal. unfold read_to, push, asked. simpl. f_equal. by rewrite <- app_assoc.
Qed.

(** X2.  [verify_change] prints its question, reads the terminal down to
    the first line that it can read as an answer, reminds the user once
    for every line before it, returns that reading, and leaves the rest of
    the input unread. *)
Theorem verify_change_first_answer (prompt : string) (s : state) pre a post b :
  stdin s = pre ++ a :: post ->
  Forall (fun l => read_answer l = None) pre ->
  read_answer a = Some b ->
  run (verify_change prompt) s = (Ret (VBool b), read_to s (asked prompt pre) post).
Proof. apply verify_change_reads. Qed.

Lemma verify_change_first_answer_witness :
  run (verify_change "sure")
    (init_state ["perhaps"; "OK"; "No thanks"; "yes"] []) =
  (Ret (VBool false),
   read_to (init_state ["perhaps"; "OK"; "No thanks"; "yes"] [])
     (asked "sure" ["perhaps"; "OK"]) ["yes"]).
Proof.
  apply (verify_change_first_answer "sure" _ ["perhaps"; "OK"] "No thanks" ["yes"] false).
  - reflexivity.
  - repeat (apply Forall_cons_2; [by vm_compute |]). apply Forall_nil_2.
  - by vm_compute.
Defined.

(** X3.  When the input ends before any line can be read as an answer,
    [verify_change] has asked once per line and once more, and the
    [EOFError] of that last [input] is not caught. *)
Theorem verify_change_end_of_input (prompt : string) (s : state) :
  Forall (fun l => read_answer l = None) (stdin s) ->
  run (verify_change prompt) s =
  (Raise EOFError, read_to s (asked prompt (stdin s)) []).
Proof.
  intros Hall. unfold verify_change.
  rewrite run_print_bind, run_get_state_bind. simpl stdin.
  rewrite (verify_loop_eof _ _ Hall).
  f_equal. unfold read_to, push, asked. simpl. rewrite <- app_assoc. simpl.
  f_equal. by destruct (stdin s).
Qed.

Lemma verify_change_end_of_input_witness :
  run (verify_change "sure") (init_state ["perhaps"; "OK"] []) =
  (Raise EOFError,
   read_to (init_state ["perhaps"; "OK"] []) (asked "sure" ["perhaps"; "OK"]) []).
Proof.
  apply (verify_change_end_of_input "sure" (init_state ["perhaps"; "OK"] [])).
  repeat (apply Forall_cons_2; [by vm_compute |]). apply Forall_nil_2.
Defined.

(** ** Authentication and discovery, event by event *)

Section Preparatory.

Variable w : world.

Lemma preparatory_resolve_token CLIARGS : quiet preparatory (resolve_token w CLIARGS).
Proof. unfold resolve_token, open_read, env_test, env_get. quiet_auto fail. Qed.

Lemma preparatory_login_loop attempts : quiet preparatory (login_loop attempts).
Proof. induction attempts as [|r rest IH]; simpl; quiet_auto ltac:(apply IH). Qed.

Lemma preparatory_authenticate CLIARGS : quiet preparatory (authenticate w CLIARGS).
Proof.
  unfold authenticate, use_token.
  quiet_auto ltac:(first [apply preparatory_resolve_token | apply preparatory_login_loop]).
Qed.

Lemma is_print_preparatory (e : event) : is_print e -> preparatory e.
Proof. by destruct e. Qed.

Lemma preparatory_go_site exclude labels match_text matched site :
  quiet preparatory (go_site w exclude labels match_text matched site).
Proof.
  unfold go_site, get_waninterfaces.
  quiet_auto ltac:(first
    [ apply quiet_site_selected
    | apply (quiet_weaken is_print);
      [apply is_print_preparatory | apply quiet_go_interface] ]).
Qed.

Lemma preparatory_go_labels : quiet preparatory (go_labels w).
Proof.
  unfold go_labels, get_waninterfacelabels. quiet_auto ltac:(apply quiet_add_label).
Qed.

Lemma quiet_go_mutate CLIARGS matched :
  quiet not_logout (go_mutate w CLIARGS matched).
Proof.
  unfold go_mutate. apply quiet_for_fold. intros [] item.
  unfold go_mutate_one, put_waninterfaces, patch_interface. quiet_auto fail.
Qed.

End Preparatory.

Lemma preparatory_not_logout (e : event) : preparatory e -> not_logout e.
Proof. by destruct e. Qed.

Lemma preparatory_no_input_no_put (e : event) : preparatory e -> no_input_no_put e.
Proof. by destruct e. Qed.

Lemma quiet_emits {A} P (c : M A) : quiet P c -> emits P c.
Proof. intros Hq s o s' Hrun. by destruct (Hq _ _ _ Hrun) as [_ ?]. Qed.

Lemma emits_verify_loop (lines : list string) :
  emits (fun e => not_logout e /\ ~ is_put e) (verify_loop lines).
Proof.
  induction lines as [|a rest IH]; intros s o s' Hrun; simpl in Hrun.
  - rewrite run_emit_bind in Hrun. injection Hrun as <- <-.
    exists [Input "Enter yes or no: "]. split; [done|].
    apply Forall_cons_2; [by split; [|intros []] | apply Forall_nil_2].
  - rewrite run_emit_bind, run_bind in Hrun. unfold run at 1, set_stdin in Hrun.
    destruct (read_answer a) as [b|].
    { injection Hrun as <- <-. exists [Input "Enter yes or no: "]. split; [done|].
      apply Forall_cons_2; [by split; [|intros []] | apply Forall_nil_2]. }
    rewrite run_print_bind in Hrun.
    destruct (bool_decide (a ∉ ["yes"; "no"; "y"; "n"])).
    + destruct (IH _ _ _ Hrun) as (es & Htr & Hes).
      exists ([Input "Enter yes or no: ";
               Print ["Please enter yes or no to verify changes"]] ++ es).
      split; [rewrite Htr; simpl; by rewrite <- !app_assoc |].
      apply Forall_app_2; [| done].
      repeat (apply Forall_cons_2; [by split; [|intros []] |]). apply Forall_nil_2.
    + injection Hrun as <- <-.
      exists [Input "Enter yes or no: ";
              Print ["Please enter yes or no to verify changes"]].
      split; [simpl; by rewrite <- !app_assoc |].
      repeat (apply Forall_cons_2; [by split; [|intros []] |]). apply Forall_nil_2.
Qed.

Lemma emits_verify_change (prompt : string) :
  emits (fun e => not_logout e /\ ~ is_put e) (verify_change prompt).
Proof.
  intros s o s' Hrun. unfold verify_change in Hrun.
  rewrite run_print_bind, run_get_state_bind in Hrun.
  destruct (emits_verify_loop _ _ _ _ Hrun) as (es & Htr & Hes).
  exists (Print [prompt; "(Y/N)?"] :: es).
  split; [rewrite Htr; simpl; by rewrite <- app_assoc |].
  apply Forall_cons_2; [by split; [|intros []] | done].
Qed.

(** ** No submission without a yes *)

Lemma verify_loop_no_yes (lines : list string) s o s' :
  no_yes lines -> run (verify_loop lines) s = (o, s') ->
  forall v, o = Ret v -> truthy v = false.
Proof.
  intros Hno. revert s. induction Hno as [|a rest Ha _ IH]; intros s Hrun v Hv;
    simpl in Hrun.
  - rewrite run_emit_bind in Hrun. injection Hrun as <- _. discriminate.
  - rewrite run_emit_bind, run_bind in Hrun. unfold run at 1, set_stdin in Hrun.
    destruct (read_answer a) as [[]|]; [done | | ].
    + injection Hrun as <- _. by injection Hv as <-.
    + rewrite run_print_bind in Hrun.
      destruct (bool_decide (a ∉ ["yes"; "no"; "y"; "n"])); [by eapply IH|].
      injection Hrun as <- _. by injection Hv as <-.
Qed.

Lemma never_submits_quiet (c : M unit) : quiet no_input_no_put c -> never_submits c.
Proof.
  intros Hc s o s' _ Hrun. destruct (Hc _ _ _ Hrun) as (_ & es & Htr & Hes).
  exists es. split; [done|]. eapply Forall_impl; [exact Hes|].
  intros e He Hp. by destruct e.
Qed.

Lemma never_submits_quiet_bind {A} (c : M A) (f : A -> M unit) :
  quiet no_input_no_put c -> (forall a, never_submits (f a)) -> never_submits (c ≫= f).
Proof.
  intros Hc Hf s o s' Hno Hrun.
  assert (Hnp : forall es, Forall no_input_no_put es -> Forall (fun e => ~ is_put e) es).
  { intros es Hes. eapply Forall_impl; [exact Hes|]. intros e He Hp. by destruct e. }
  apply run_bind_inv in Hrun as [(a & s1 & H1 & H2) | (o1 & H1 & _)].
  - destruct (Hc _ _ _ H1) as (Hin1 & es1 & Htr1 & Hes1).
    rewrite <- Hin1 in Hno.
    destruct (Hf _ _ _ _ Hno H2) as (es2 & Htr2 & Hes2).
    exists (es1 ++ es2). split; [by rewrite Htr2, Htr1, app_assoc|].
    apply Forall_app_2; auto.
  - destruct (Hc _ _ _ H1) as (_ & es & Htr & Hes). exists es. auto.
Qed.

Lemma never_submits_confirmation (prompt : string) (changes : M unit) :
  never_submits
    (verify_change prompt ≫= fun answer =>
       if truthy answer then changes else print ["CHANGES ABORTED!"]).
Proof.
  intros s o s' Hno Hrun.
  apply run_bind_inv in Hrun as [(v & s1 & H1 & H2) | (o1 & H1 & _)].
  - destruct (emits_verify_change _ _ _ _ H1) as (es & Htr & Hes).
    assert (Hv : truthy v = false).
    { unfold verify_change in H1.
      rewrite run_print_bind, run_get_state_bind in H1.
      by eapply (verify_loop_no_yes _ _ _ _ Hno H1). }
    rewrite Hv, run_print in H2. injection H2 as _ <-.
    exists (es ++ [Print ["CHANGES ABORTED!"]]). simpl.
    split; [by rewrite Htr, app_assoc|].
    apply Forall_app_2; [| apply Forall_cons_2; [by intros [] | apply Forall_nil_2]].
    eapply Forall_impl; [exact Hes|]. by intros e [_ ?].
  - destruct (emits_verify_change _ _ _ _ H1) as (es & Htr & Hes).
    exists es. split; [done|]. eapply Forall_impl; [exact Hes|]. by intros e [_ ?].
Qed.

Lemma never_submits_go_with w exclude CLIARGS :
  never_submits (go_with w exclude CLIARGS).
Proof.
  unfold go_with, get_tenants, get_sites, jd.
  repeat first
    [ apply never_submits_confirmation
    | match goal with
      | |- never_submits (if ?b then _ else _) => destruct b
      end
    | apply never_submits_quiet_bind; [| intros ?]
    | apply never_submits_quiet
    | quiet_step ltac:(first
        [ apply quiet_logout; exact I
        | apply quiet_go_labels
        | apply quiet_go_site ]) ].
Qed.

(** X4.  Nothing is ever submitted without a yes: in every run of the
    script, if an update of a WAN interface was submitted then some line
    typed at the terminal was read as a yes. *)
Theorem no_submission_without_yes w CLIARGS lines attempts o s' sid iid d :
  run (main w CLIARGS) (init_state lines attempts) = (o, s') ->
  PutWanInterfaces sid iid d ∈ trace s' ->
  exists a, a ∈ lines /\ read_answer a = Some true.
Proof.
  intros Hrun Hput.
  destruct (decide (Exists (fun l => read_answer l = Some true) lines)) as [Hex|Hno].
  { by apply Exists_exists in Hex. }
  apply not_Exists_Forall in Hno; [| intros l; apply _].
  assert (Hno' : no_yes (stdin (init_state lines attempts))).
  { eapply Forall_impl; [exact Hno|]. by intros l Hl. }
  exfalso. unfold main in Hrun.
  assert (Hns : never_submits (go w CLIARGS ≫= fun _ => logout)).
  { unfold go. intros s o1 s1 Hs H1.
    apply run_bind_inv in H1 as [([] & s2 & H2 & H3) | (o2 & H2 & _)].
    - destruct (never_submits_go_with _ _ _ _ _ _ Hs H2) as (es & Htr & Hes).
      unfold logout in H3. revert H3. run_simpl. intros [= _ <-].
      exists (es ++ [Print ["Logging out"]; GetLogout]). simpl.
      split; [by rewrite Htr, <- app_assoc|].
      apply Forall_app_2; [done|].
      repeat (apply Forall_cons_2; [by intros [] |]). apply Forall_nil_2.
    - by apply (never_submits_go_with _ _ _ _ _ _ Hs H2). }
  destruct (never_submits_quiet_bind _ _ (quiet_authenticate w CLIARGS) (fun _ => Hns)
              _ _ _ Hno' Hrun) as (es & Htr & Hes).
  simpl in Htr. rewrite Htr in Hput. rewrite Forall_forall in Hes.
  by apply Hes in Hput.
Qed.

Lemma no_submission_without_yes_witness :
  let w := Scenario.controller [Scenario.internet_label] ∅ in
  let CLIARGS := Scenario.args (Some "good") "off" "off" in
  let r := run (main w CLIARGS) (init_state ["maybe"] []) in
  PutWanInterfaces (VStr "s1") (VStr "i1") (patch_spec CLIARGS Scenario.lte_primary)
    ∈ trace r.2 /\
  exists a, a ∈ ["maybe"] /\ read_answer a = Some true.
Proof.
  intros w CLIARGS r.
  assert (Hput : PutWanInterfaces (VStr "s1") (VStr "i1")
                   (patch_spec CLIARGS Scenario.lte_primary) ∈ trace r.2).
  { apply (bool_decide_unpack _). by vm_compute. }
  split; [exact Hput |].
  exact (no_submission_without_yes w CLIARGS ["maybe"] [] r.1 r.2 _ _ _
           (surjective_pairing r) Hput).
Defined.

(** ** Logging out *)

Lemma logouts_app (es1 es2 : list event) :
  logouts (es1 ++ es2) = logouts es1 + logouts es2.
Proof. unfold logouts. by rewrite filter_app, length_app. Qed.

Lemma logouts_not_logout (es : list event) : Forall not_logout es -> logouts es = 0.
Proof.
  unfold logouts. induction 1 as [|e es He _ IH]; [done|].
  rewrite filter_cons_False; [done|]. intros ->. exact He.
Qed.

Lemma logout_discipline_emits {A} n (c : M A) :
  emits not_logout c -> (forall s a s', run c s = (Ret a, s') -> n = 0) ->
  logout_discipline n c.
Proof.
  intros Hc Hn s o s' Hrun. destruct (Hc _ _ _ Hrun) as (es & Htr & Hes).
  exists es. split; [done|]. rewrite (logouts_not_logout _ Hes).
  destruct o; try done; [by rewrite (Hn _ _ _ Hrun) | lia].
Qed.

Lemma logout_discipline_quiet {A} (c : M A) :
  quiet not_logout c -> logout_discipline 0 c.
Proof. intros Hq. apply logout_discipline_emits; [by apply quiet_emits | done]. Qed.

Lemma logout_discipline_bind {A B} n (c : M A) (f : A -> M B) :
  logout_discipline 0 c -> (forall a, logout_discipline n (f a)) ->
  logout_discipline n (c ≫= f).
Proof.
  intros Hc Hf s o s' Hrun. rewrite run_bind in Hrun.
  destruct (run c s) as [[a | arg | e |] s1] eqn:H1.
  - destruct (Hc _ _ _ H1) as (es1 & Htr1 & Hk1).
    destruct (Hf _ _ _ _ Hrun) as (es2 & Htr2 & Hk2).
    exists (es1 ++ es2). split; [by rewrite Htr2, Htr1, app_assoc|].
    rewrite logouts_app, Hk1. exact Hk2.
  - destruct (Hc _ _ _ H1) as (es & Htr & Hk). injection Hrun as <- <-. by exists es.
  - destruct (Hc _ _ _ H1) as (es & Htr & Hk). injection Hrun as <- <-. by exists es.
  - destruct (Hc _ _ _ H1) as (es & Htr & Hk). injection Hrun as <- <-. by exists es.
Qed.

Lemma logout_discipline_logout : logout_discipline 1 logout.
Proof.
  intros s o s' Hrun. unfold logout in Hrun. revert Hrun. run_simpl.
  intros [= <- <-]. by exists [Print ["Logging out"]; GetLogout].
Qed.

(** The two branches of [go] that log out end in [sys.exit]. *)
Lemma logout_discipline_failure {A} n (rest : M A) :
  quiet not_logout rest ->
  (forall s o s', run rest s = (o, s') -> exists arg, o = SysExit arg) ->
  logout_discipline n (logout ≫= fun _ => rest).
Proof.
  intros Hq Hexit s o s' Hrun. unfold logout in Hrun. revert Hrun. run_simpl.
  intros Hrun. destruct (quiet_trace _ _ _ _ _ Hq Hrun) as (es & Htr & Hes).
  destruct (Hexit _ _ _ Hrun) as [arg ->].
  exists ([Print ["Logging out"]; GetLogout] ++ es). simpl in Htr.
  split; [by rewrite Htr, <- app_assoc|].
  rewrite logouts_app, (logouts_not_logout _ Hes). by vm_compute.
Qed.

Lemma logout_discipline_go_with w exclude CLIARGS :
  logout_discipline 0 (go_with w exclude CLIARGS).
Proof.
  unfold go_with.
  apply logout_discipline_bind.
  { apply logout_discipline_quiet. unfold get_tenants. quiet_auto fail. }
  intros resp. apply logout_discipline_bind.
  { destruct (cgx_status resp).
    - apply logout_discipline_quiet. quiet_auto fail.
    - apply logout_discipline_failure; [quiet_auto fail|].
      intros s o s'. run_simpl. intros [= <- _]. by eexists. }
  intros _. apply logout_discipline_bind.
  { apply logout_discipline_quiet.
    apply (quiet_weaken preparatory);
      [apply preparatory_not_logout | apply preparatory_go_labels]. }
  intros labels. apply logout_discipline_bind.
  { apply logout_discipline_quiet. unfold get_sites. quiet_auto fail. }
  intros resp'. destruct (cgx_status resp').
  2: { apply logout_discipline_failure; [unfold jd; quiet_auto fail|].
       intros s o s'. unfold jd. run_simpl. intros [= <- _]. by eexists. }
  apply logout_discipline_bind.
  { apply logout_discipline_quiet. quiet_auto fail. }
  intros site_list. apply logout_discipline_bind.
  { apply logout_discipline_quiet. apply quiet_for_fold. intros acc site.
    apply (quiet_weaken preparatory);
      [apply preparatory_not_logout | apply preparatory_go_site]. }
  intros matched. apply logout_discipline_bind.
  { apply logout_discipline_emits; [| done].
    intros s o s' Hrun. destruct (emits_verify_change _ _ _ _ Hrun) as (es & Htr & Hes).
    exists es. split; [done|]. eapply Forall_impl; [exact Hes|]. by intros e [? _]. }
  intros answer. apply logout_discipline_quiet.
  destruct (truthy answer); quiet_auto ltac:(apply quiet_go_mutate).
Qed.

(** X5.  The session is logged out at most once.  A run of the script that
    returns normally has logged out exactly once, as its last act; a run
    that ends in an uncaught exception (a missing key, a missing token
    file, the end of the input at the prompt) has not logged out at all;
    a run that ends in [sys.exit] has logged out at most once. *)
Theorem logout_at_most_once w CLIARGS s o s' :
  run (main w CLIARGS) s = (o, s') ->
  exists es, trace s' = trace s ++ es /\
    match o with
    | Ret _ => logouts es = 1 /\ last es = Some GetLogout
    | SysExit _ => logouts es <= 1
    | Raise _ | Waiting => logouts es = 0
    end.
Proof.
  intros Hrun.
  assert (Hmain : logout_discipline 1 (main w CLIARGS)).
  { unfold main, go. apply logout_discipline_bind.
    { apply logout_discipline_quiet.
      apply (quiet_weaken preparatory);
        [apply preparatory_not_logout | apply preparatory_authenticate]. }
    intros _. apply logout_discipline_bind; [apply logout_discipline_go_with|].
    intros _. apply logout_discipline_logout. }
  destruct (Hmain _ _ _ Hrun) as (es & Htr & Hk). exists es. split; [done|].
  destruct o as [[] | | |]; try done. split; [done|].
  unfold main in Hrun.
  apply run_bind_Ret_inv in Hrun as (? & s1 & _ & Hrun).
  apply run_bind_Ret_inv in Hrun as (? & s2 & _ & Hrun).
  unfold logout in Hrun. revert Hrun. run_simpl. intros [= Hs'].
  assert (Hes : trace s ++ es = trace s2 ++ [Print ["Logging out"]; GetLogout]).
  { by rewrite <- Htr, <- Hs'. }
  assert (Hlast : last (trace s ++ es) = Some GetLogout).
  { rewrite Hes, last_app. done. }
  rewrite last_app in Hlast. destruct (last es) eqn:Hl; [done|].
  apply last_None in Hl. subst es. rewrite app_nil_r in Hes. by vm_compute in Hk.
Qed.

Lemma logout_at_most_once_witness :
  let w := Scenario.controller [Scenario.internet_label] ∅ in
  let CLIARGS := Scenario.args (Some "good") "off" "off" in
  let s := init_state ["n"] [] in
  (run (main w CLIARGS) s).1 = Ret tt /\
  exists es, trace (run (main w CLIARGS) s).2 = trace s ++ es /\
    logouts es = 1 /\ last es = Some GetLogout.
Proof.
  intros w CLIARGS s.
  pose proof (surjective_pairing (run (main w CLIARGS) s)) as Hr.
  assert (H1 : (run (main w CLIARGS) s).1 = Ret tt) by (vm_compute; reflexivity).
  split; [exact H1 |].
  rewrite H1 in Hr.
  exact (logout_at_most_once w CLIARGS s _ _ Hr).
Defined.

(** ** The fatal paths of [go] *)

(** X6.  When the enumeration of the tenant fails, [go] calls nothing else
    of the controller: it logs out, prints the error and the status, and
    ends the script in [sys.exit(vars(resp))], whose exit status is 1; the
    logout of the last line of the script is not reached, so the session is
    logged out exactly once. *)
Theorem tenant_failure_exits w CLIARGS s s1 :
  run (authenticate w CLIARGS) s = (Ret tt, s1) ->
  cgx_status (w_tenants w) = false ->
  run (main w CLIARGS) s =
  (SysExit (ExitVars (w_tenants w)),
   push s1 [GetTenants; Print ["Logging out"]; GetLogout;
            Print ["ERROR: API Call failure when enumerating TENANT Name! Exiting!"];
            Print ["False"]]) /\
  exit_status (SysExit (A:=unit) (ExitVars (w_tenants w))) = Some 1%Z.
Proof.
  intros Hauth Hfail. split; [| done].
  unfold main. rewrite (run_bind_ret _ _ _ _ _ Hauth).
  apply run_bind_sys_exit. unfold go, go_with, get_tenants, logout.
  run_simpl. rewrite Hfail. by run_simpl.
Qed.

Lemma tenant_failure_exits_witness :
  let w := {| w_environ := ∅; w_files := ∅;
              w_use_token := fun _ => Some "tenant-1";
              w_tenants := {| resp_truth := false; cgx_status := false;
                              content_name := VNone; content_items := None |};
              w_waninterfacelabels := Scenario.ok [];
              w_sites := Scenario.ok [];
              w_waninterfaces := fun _ => Scenario.ok [];
              w_put_waninterfaces := fun _ _ _ _ => true;
              w_jd := fun _ => VNone |} in
  let CLIARGS := Scenario.args (Some "good") "nochange" "nochange" in
  (run (main w CLIARGS) (init_state [] [])).1 = SysExit (ExitVars (w_tenants w)) /\
  logouts (trace (run (main w CLIARGS) (init_state [] [])).2) = 1.
Proof.
  intros w CLIARGS.
  destruct (tenant_failure_exits w CLIARGS (init_state [] [])
              (run (authenticate w CLIARGS) (init_state [] [])).2) as [Hrun _].
  - reflexivity.
  - reflexivity.
  - rewrite Hrun. split; reflexivity.
Defined.

(** X7.  When the enumeration of the sites fails, after the tenant and the
    labels were read, [go] asks nothing and submits nothing: it logs out,
    prints the error, dumps the response with [jd] and ends the script in
    [sys.exit] on what [jd] returned, so that the exit status is zero when
    [jd] returns [None]. *)
Theorem sites_failure_exits w exclude CLIARGS s labels es :
  cgx_status (w_tenants w) = true ->
  returns (go_labels w)
    (push s [GetTenants;
             Print ["======== TENANT NAME"; py_str (content_name (w_tenants w));
                    "========"]]) labels es ->
  cgx_status (w_sites w) = false ->
  run (go_with w exclude CLIARGS) s =
  (SysExit (ExitValue (w_jd w (w_sites w))),
   push s ([GetTenants;
            Print ["======== TENANT NAME"; py_str (content_name (w_tenants w));
                   "========"]] ++ es ++
           [GetSites; Print ["Logging out"]; GetLogout;
            Print ["ERROR: API Call failure when enumerating SITES in tenant! Exiting!"];
            Jd])) /\
  (w_jd w (w_sites w) = VNone ->
   exit_status (SysExit (A:=unit) (ExitValue (w_jd w (w_sites w)))) = Some 0%Z).
Proof.
  intros Hten Hlabels Hfail. split; [| by intros ->].
  unfold go_with, get_tenants, get_sites, logout, jd.
  run_simpl. rewrite Hten. run_simpl.
  rewrite (run_bind_returns _ _ _ _ _ Hlabels).
  run_simpl. rewrite Hfail. run_simpl. by rewrite <- !app_assoc.
Qed.

Lemma sites_failure_exits_witness :
  let w := {| w_environ := ∅; w_files := ∅;
              w_use_token := fun _ => Some "tenant-1";
              w_tenants := Scenario.ok [];
              w_waninterfacelabels := Scenario.ok [];
              w_sites := {| resp_truth := false; cgx_status := false;
                            content_name := VNone; content_items := None |};
              w_waninterfaces := fun _ => Scenario.ok [];
              w_put_waninterfaces := fun _ _ _ _ => true;
              w_jd := fun _ => VNone |} in
  let CLIARGS := Scenario.args (Some "good") "nochange" "nochange" in
  let r := run (go_with w true CLIARGS) (init_state [] []) in
  r.1 = SysExit (ExitValue VNone) /\ exit_status r.1 = Some 0%Z /\
  logouts (trace r.2) = 1.
Proof.
  intros w CLIARGS r.
  destruct (sites_failure_exits w true CLIARGS (init_state [] []) ∅
              [GetWanInterfaceLabels]) as [Hrun Hst].
  - reflexivity.
  - reflexivity.
  - reflexivity.
  - unfold r. rewrite Hrun. split; [reflexivity|]. split; [by apply Hst | reflexivity].
Defined.

(** ** The ways through [authenticate] *)

Lemma login_loop_cons (r : option string) (rest : list (option string)) :
  login_loop (r :: rest) =
  (s ← get_state;
   match tenant_id s with
   | Some _ => mret tt
   | None => emit Login;; set_logins rest;; set_tenant_id r;; login_loop rest
   end).
Proof. reflexivity. Qed.

Lemma run_set_logins_bind {B} l (f : unit -> M B) s :
  run (set_logins l ≫= f) s =
  run (f tt) {| trace := trace s; tenant_id := tenant_id s;
                stdin := stdin s; logins := l |}.
Proof. reflexivity. Qed.

Lemma run_set_tenant_id_bind {B} t (f : unit -> M B) s :
  run (set_tenant_id t ≫= f) s =
  run (f tt) {| trace := trace s; tenant_id := t;
                stdin := stdin s; logins := logins s |}.
Proof. reflexivity. Qed.

Lemma run_login_loop_done attempts s t :
  tenant_id s = Some t -> run (login_loop attempts) s = (Ret tt, s).
Proof.
  intros Hs. destruct attempts; simpl; by rewrite run_get_state_bind, Hs.
Qed.

Lemma login_loop_until_success (fails : list (option string)) t rest s :
  tenant_id s = None ->
  Forall (fun r => r = None) fails ->
  run (login_loop (fails ++ Some t :: rest)) s =
  (Ret tt, logged_in s (replicate (S (length fails)) Login) t rest).
Proof.
  intros Hs Hfails. revert s Hs.
  induction Hfails as [|r fails -> _ IH]; intros s Hs.
  - change ([] ++ Some t :: rest) with (Some t :: rest).
    rewrite login_loop_cons, run_get_state_bind, Hs, run_emit_bind,
      run_set_logins_bind, run_set_tenant_id_bind.
    by rewrite (run_login_loop_done _ _ t).
  - change ((None :: fails) ++ Some t :: rest) with (None :: (fails ++ Some t :: rest)).
    rewrite login_loop_cons, run_get_state_bind, Hs, run_emit_bind,
      run_set_logins_bind, run_set_tenant_id_bind.
    rewrite IH by done. unfold logged_in. simpl. by rewrite <- app_assoc.
Qed.

(** X8.  With no token source present, [authenticate] logs in
    interactively, again and again until a login yields a tenant: after
    [n] failed logins and one that succeeds it has attempted [n + 1] logins,
    consulted the two environment variables and nothing else, and it
    returns with that tenant in the session. *)
Theorem interactive_login_repeats w CLIARGS s fails t rest :
  first_present w CLIARGS = InteractiveLogin ->
  tenant_id s = None ->
  logins s = fails ++ Some t :: rest ->
  Forall (fun r => r = None) fails ->
  run (authenticate w CLIARGS) s =
  (Ret tt,
   logged_in s
     ([Print ["AUTHENTICATING..."]; EnvTest "X_AUTH_TOKEN"; EnvTest "AUTH_TOKEN";
       Print ["    "; "Authenticating using interactive login"]] ++
      replicate (S (length fails)) Login ++
      [Print ["    "; "SUCCESS: Authentication Complete"]]) t rest).
Proof.
  unfold first_present. intros Hfirst Hs Hlogins Hfails.
  destruct (truthy_opt (token CLIARGS)) eqn:Htok; [done|].
  destruct (truthy_opt (authtokenfile CLIARGS)) eqn:Hfile; [done|].
  destruct (w_environ w !! "X_AUTH_TOKEN") as [x|] eqn:Hx; [done|].
  destruct (w_environ w !! "AUTH_TOKEN") as [a|] eqn:Ha; [done|].
  unfold authenticate, resolve_token, env_test, env_get.
  rewrite Htok, Hfile, Hx, Ha.
  repeat (progress (run_simpl; simpl bool_decide; cbv beta iota)).
  simpl truthy_opt. cbv iota. run_simpl. simpl logins. rewrite Hlogins.
  rewrite run_bind, login_loop_until_success by done.
  rewrite run_print. unfold logged_in, push. simpl. by rewrite <- !app_assoc.
Qed.

Lemma interactive_login_repeats_witness :
  let w := Scenario.controller [Scenario.internet_label] ∅ in
  let CLIARGS := Scenario.args None "nochange" "nochange" in
  let r := run (authenticate w CLIARGS) (init_state [] [None; None; Some "tenant-1"; None]) in
  r.1 = Ret tt /\ tenant_id r.2 = Some "tenant-1" /\ logins r.2 = [None] /\
  length (filter (fun e => e = Login) (trace r.2)) = 3.
Proof.
  intros w CLIARGS r. unfold r.
  rewrite (interactive_login_repeats w CLIARGS _ [None; None] "tenant-1" [None]).
  - by repeat split.
  - reflexivity.
  - reflexivity.
  - reflexivity.
  - repeat (apply Forall_cons_2; [reflexivity |]). apply Forall_nil_2.
Defined.

(** X9.  When the selected token is not empty and the controller accepts
    it, [authenticate] uses it once and returns with the tenant in the
    session; no interactive login is attempted. *)
Theorem accepted_token_authenticates w CLIARGS s tok t s1 :
  run (resolve_token w CLIARGS) (push s [Print ["AUTHENTICATING..."]])
  = (Ret (Some tok), s1) ->
  tok <> "" ->
  w_use_token w tok = Some t ->
  run (authenticate w CLIARGS) s =
  (Ret tt,
   {| trace := trace s1 ++ [UseToken tok;
                            Print ["    "; "SUCCESS: Authentication Complete"]];
      tenant_id := Some t; stdin := stdin s1; logins := logins s1 |}).
Proof.
  intros Hsel Htok Hacc.
  assert (Ht : truthy_opt (Some tok) = true).
  { simpl. by destruct (String.eqb_spec tok ""). }
  unfold authenticate. rewrite run_print_bind, run_bind, Hsel.
  cbv beta iota. rewrite Ht. unfold use_token. simpl default. rewrite Hacc.
  run_simpl. rewrite run_set_tenant_id_bind. run_simpl.
  simpl tenant_id. cbv iota. run_simpl.
  unfold push. simpl. by rewrite <- ?app_assoc.
Qed.

Lemma accepted_token_authenticates_witness :
  let w := Scenario.controller [Scenario.internet_label] {[ "AUTH_TOKEN" := "good" ]} in
  let CLIARGS := Scenario.args None "nochange" "nochange" in
  let r := run (authenticate w CLIARGS) (init_state [] []) in
  r.1 = Ret tt /\ tenant_id r.2 = Some "tenant-1" /\ Login ∉ trace r.2.
Proof.
  intros w CLIARGS r. unfold r.
  rewrite (accepted_token_authenticates w CLIARGS (init_state [] []) "good" "tenant-1"
             (run (resolve_token w CLIARGS)
                (push (init_state [] []) [Print ["AUTHENTICATING..."]])).2).
  - split; [reflexivity | split; [reflexivity |]].
    intros Hin. apply (bool_decide_pack _) in Hin. by vm_compute in Hin.
  - reflexivity.
  - discriminate.
  - reflexivity.
Defined.

(** X10.  A token file that is named and cannot be opened ends the script
    in an uncaught [FileNotFoundError]: no authentication is attempted, the
    environment is not consulted, and nothing of the controller is called,
    not even the logout. *)
Theorem missing_token_file_raises w CLIARGS s path :
  truthy_opt (token CLIARGS) = false ->
  authtokenfile CLIARGS = Some path ->
  path <> "" ->
  w_files w !! path = None ->
  run (main w CLIARGS) s =
  (Raise (FileNotFoundError path),
   push s [Print ["AUTHENTICATING..."]; OpenFile path]).
Proof.
  intros Htok Hfile Hpath Hnone.
  unfold main. apply run_bind_raise.
  unfold authenticate, resolve_token, open_read.
  rewrite Htok, Hfile. simpl truthy_opt.
  destruct (String.eqb_spec path ""); [done|]. simpl negb. simpl default.
  rewrite Hnone. by run_simpl.
Qed.

Lemma missing_token_file_raises_witness :
  let w := Scenario.controller [Scenario.internet_label] {[ "AUTH_TOKEN" := "good" ]} in
  let CLIARGS := {| token := None; authtokenfile := Some "token.txt";
                    matchtext := "lte"; bfd_mode := "aggressive";
                    lqm := "nochange"; bwm := "nochange" |} in
  (run (main w CLIARGS) (init_state [] [])).1 = Raise (FileNotFoundError "token.txt").
Proof.
  intros w CLIARGS.
  rewrite (missing_token_file_raises w CLIARGS (init_state [] []) "token.txt").
  - reflexivity.
  - reflexivity.
  - reflexivity.
  - discriminate.
  - reflexivity.
Defined.

(** ** More on matching *)

Lemma append_length (s1 s2 : string) :
  String.length (s1 +:+ s2) = String.length s1 + String.length s2.
Proof. induction s1 as [|c s1 IH]; [done | simpl; congruence]. Qed.

Lemma chars_from_ascii (b : ascii) (s : string) :
  (N_of_ascii b <? 0x80)%N = true ->
  PyStr.chars_from 0 "" (String b s) = String b "" :: PyStr.chars_from 0 "" s.
Proof.
  intros Hb. apply N.ltb_lt in Hb. simpl. unfold PyStr.width.
  destruct (N_of_ascii b <? 0xC0)%N eqn:H; [done|]. apply N.ltb_ge in H. lia.
Qed.

Lemma lower_ascii_char (b : ascii) (before after : list string) :
  (N_of_ascii b <? 0x80)%N = true ->
  String.length
    (if (PyStr.cp_of (String b "") =? 0x3A3)%N
     then PyStr.encode_cp (if PyStr.final_sigma before after then 0x3C2 else 0x3C3)%N
     else PyStr.moved (String b "") (PyStr.to_lower (PyStr.cp_of (String b ""))))
  = 1.
Proof.
  destruct b as [[] [] [] [] [] [] [] []]; intros H; vm_compute in H;
    first [discriminate H | by vm_compute].
Qed.

Lemma lower_length (s : string) :
  PyStr.is_ascii s = true -> String.length (PyStr.lower s) = String.length s.
Proof.
  unfold PyStr.lower, PyStr.chars. generalize (@nil string) as before.
  induction s as [|b s IH]; intros before H; [done|].
  simpl in H. apply andb_true_iff in H as [Hb Hs].
  rewrite (chars_from_ascii b s Hb).
  change (String.length
            ((if (PyStr.cp_of (String b "") =? 0x3A3)%N
              then PyStr.encode_cp
                     (if PyStr.final_sigma before (PyStr.chars_from 0 "" s)
                      then 0x3C2 else 0x3C3)%N
              else PyStr.moved (String b "") (PyStr.to_lower (PyStr.cp_of (String b ""))))
             +:+ PyStr.join (PyStr.lower_chars (String b "" :: before)
                               (PyStr.chars_from 0 "" s)))
          = S (String.length s)).
  by rewrite append_length, (lower_ascii_char b _ _ Hb), (IH _ Hs).
Qed.

Lemma append_assoc (s1 s2 s3 : string) : (s1 +:+ s2) +:+ s3 = s1 +:+ (s2 +:+ s3).
Proof.
  induction s1 as [|c s1 IH]; [done|].
  change (String c ((s1 +:+ s2) +:+ s3) = String c (s1 +:+ s2 +:+ s3)). congruence.
Qed.

Lemma append_empty (s : string) : s +:+ "" = s.
Proof.
  induction s as [|c s IH]; [done|].
  change (String c (s +:+ "") = String c s). congruence.
Qed.

Lemma join_flush (held : string) (l : list string) :
  PyStr.join (PyStr.flush held l) = held +:+ PyStr.join l.
Proof. by destruct held. Qed.

(** The characters of a string make up the string: no byte is lost or
    added when a string is cut into its characters. *)
Lemma join_chars_from (s : string) need held :
  PyStr.join (PyStr.chars_from need held s) = held +:+ s.
Proof.
  revert need held. induction s as [|b s IH]; intros need held; simpl.
  { rewrite join_flush. done. }
  destruct (negb (need =? 0)%nat && PyStr.is_cont (N_of_ascii b)).
  - destruct need as [|[|k]].
    + change (PyStr.join ((held +:+ String b "") :: PyStr.chars_from 0 "" s))
        with ((held +:+ String b "") +:+ PyStr.join (PyStr.chars_from 0 "" s)).
      by rewrite IH, append_assoc.
    + change (PyStr.join ((held +:+ String b "") :: PyStr.chars_from 0 "" s))
        with ((held +:+ String b "") +:+ PyStr.join (PyStr.chars_from 0 "" s)).
      by rewrite IH, append_assoc.
    + by rewrite IH, append_assoc.
  - rewrite join_flush. f_equal.
    destruct (PyStr.width (N_of_ascii b)) as [|[|k]].
    + change (PyStr.join (String b "" :: PyStr.chars_from 0 "" s))
        with (String b "" +:+ PyStr.join (PyStr.chars_from 0 "" s)).
      by rewrite IH.
    + change (PyStr.join (String b "" :: PyStr.chars_from 0 "" s))
        with (String b "" +:+ PyStr.join (PyStr.chars_from 0 "" s)).
      by rewrite IH.
    + by rewrite IH.
Qed.

Lemma join_chars (s : string) : PyStr.join (PyStr.chars s) = s.
Proof. apply join_chars_from. Qed.

Lemma substring_of_refl (s : string) : PyStr.substring_of s s.
Proof.
  exists "", "". change (s = s +:+ "").
  induction s as [|c s IH]; [done|].
  change (String c s = String c (s +:+ "")). congruence.
Qed.

Lemma substring_of_trans (a b c : string) :
  PyStr.substring_of a b -> PyStr.substring_of b c -> PyStr.substring_of a c.
Proof.
  intros (p1 & q1 & ->) (p2 & q2 & ->).
  exists (p2 +:+ p1), (q1 +:+ q2). by rewrite !append_assoc.
Qed.

Lemma substring_of_length (m s : string) :
  PyStr.substring_of m s -> String.length m <= String.length s.
Proof. intros (p & q & ->). rewrite !append_length. lia. Qed.

(** X11.  Edge cases of the match.  The empty text matches every value;
    every value matches itself; on ASCII text, a text longer than the name
    never matches; and matching is transitive. *)
Theorem string_match_edge_cases :
  (forall v, string_match v (VStr "") = true) /\
  (forall v, string_match v v = true) /\
  (forall s m, PyStr.is_ascii s = true -> PyStr.is_ascii m = true ->
     String.length s < String.length m ->
     string_match (VStr s) (VStr m) = false) /\
  (forall a b c, string_match a b = true -> string_match b c = true ->
     string_match a c = true).
Proof.
  repeat split.
  - intros v. rewrite string_match_contains.
    change (PyStr.lower (py_str (VStr ""))) with "".
    by destruct (PyStr.lower (py_str v)).
  - intros v. rewrite string_match_contains. apply contains_substring_of.
    apply substring_of_refl.
  - intros s m Hs Hm Hlen. rewrite string_match_contains. simpl.
    destruct (PyStr.contains (PyStr.lower m) (PyStr.lower s)) eqn:Hc; [| done].
    apply contains_substring_of, substring_of_length in Hc.
    rewrite !lower_length in Hc by done. lia.
  - intros a b c. rewrite !string_match_contains, !contains_substring_of.
    intros Hab Hbc. by eapply substring_of_trans.
Qed.

(** ** More on the patch *)

(** X12.  The patch touches what the request names and nothing else:
    [bfd_mode] is always overwritten with the requested mode; [lqm_enabled]
    becomes the string ["true"] or ["false"] when [lqm] is [on] or [off] and
    is kept otherwise; [bw_config_mode] is kept when [bwm] is neither [on]
    nor [off]; and every other field of the interface is submitted as it
    was fetched.  On the way the patch only prints. *)
Theorem patch_touches_only_requested CLIARGS e s :
  well_formed (data e) ->
  exists d es, returns (patch_interface CLIARGS e) s d es /\
    Forall is_print es /\
    d !! "bfd_mode" = Some (VStr (bfd_mode CLIARGS)) /\
    (lqm CLIARGS = "on" -> d !! "lqm_enabled" = Some (VStr "true")) /\
    (lqm CLIARGS = "off" -> d !! "lqm_enabled" = Some (VStr "false")) /\
    (lqm CLIARGS <> "on" -> lqm CLIARGS <> "off" ->
     d !! "lqm_enabled" = data e !! "lqm_enabled") /\
    (bwm CLIARGS <> "on" -> bwm CLIARGS <> "off" ->
     d !! "bw_config_mode" = data e !! "bw_config_mode") /\
    (forall k, k <> "bfd_mode" -> k <> "lqm_enabled" -> k <> "bw_config_mode" ->
     d !! k = data e !! k).
Proof.
  intros Hwf. destruct (patch_interface_returns CLIARGS e s Hwf) as (es & Hrun & Hes).
  pose proof Hwf as (_ & _ & [mode Hmode]).
  exists (patch_spec CLIARGS (data e)), es. split; [done|]. split; [done|].
  split; [apply patch_spec_bfd_mode|].
  rewrite patch_spec_lqm_enabled, (patch_spec_bw_config_mode _ _ _ Hmode).
  split; [by intros ->|]. split; [by intros ->|]. split.
  { intros Hon Hoff.
    destruct (String.eqb_spec (lqm CLIARGS) "on"); [done|].
    by destruct (String.eqb_spec (lqm CLIARGS) "off"). }
  split; [| intros k; apply patch_spec_other].
  intros Hon Hoff. rewrite Hmode.
  destruct (String.eqb (current_bwm_state mode) "unknown"); [done|].
  destruct (String.eqb_spec (bwm CLIARGS) "on"); [done|].
  by destruct (String.eqb_spec (bwm CLIARGS) "off").
Qed.

Lemma patch_touches_only_requested_witness :
  exists d es,
    returns (patch_interface (Scenario.args None "off" "nochange")
               (Scenario.matched Scenario.lte_primary)) (init_state [] []) d es /\
    d !! "lqm_enabled" = Some (VStr "false") /\
    d !! "bw_config_mode" = Some (VStr "manual") /\
    d !! "name" = Some (VStr "LTE-Primary").
Proof.
  destruct (patch_touches_only_requested (Scenario.args None "off" "nochange")
              (Scenario.matched Scenario.lte_primary) (init_state [] []))
    as (d & es & Hrun & _ & _ & _ & Hoff & _ & Hbw & Hother).
  - repeat split; by eexists.
  - exists d, es. split; [exact Hrun|].
    split; [by apply Hoff|]. split; [by rewrite Hbw | by rewrite Hother].
Defined.

(** ** Fetches that fail *)

(** X13.  A fetch that fails during discovery is passed over in silence.
    When the fetch of the labels fails the dictionary of labels stays
    empty; when the fetch of the WAN interfaces of a site that is no hub
    fails, the site contributes nothing and the loop goes on; in both cases
    nothing is printed and nothing is raised. *)
Theorem failed_fetches_are_silent w :
  (resp_truth (w_waninterfacelabels w) = false ->
   forall s, returns (go_labels w) s ∅ [GetWanInterfaceLabels]) /\
  (forall exclude labels match_text matched (site : dict) sid role s,
     exclude = true ->
     site !! "element_cluster_role" = Some role -> role <> VStr "HUB" ->
     site !! "id" = Some sid ->
     resp_truth (w_waninterfaces w sid) = false ->
     returns (go_site w exclude labels match_text matched site) s matched
       [GetWanInterfaces sid]).
Proof.
  split.
  - intros Hfail s. unfold returns, go_labels, get_waninterfacelabels.
    run_simpl. rewrite Hfail. by run_simpl.
  - intros exclude labels match_text matched site sid role s -> Hrole Hne Hid Hfail.
    unfold returns, go_site, site_selected, get_waninterfaces.
    run_simpl. rewrite (run_getitem_bind _ _ _ _ _ Hrole). run_simpl.
    rewrite bool_decide_eq_true_2 by done.
    rewrite (run_getitem_bind _ _ _ _ _ Hid). run_simpl.
    rewrite Hfail. by run_simpl.
Qed.

Lemma failed_fetches_are_silent_witness :
  let w := {| w_environ := ∅; w_files := ∅;
              w_use_token := fun _ => Some "tenant-1";
              w_tenants := Scenario.ok [];
              w_waninterfacelabels :=
                {| resp_truth := false; cgx_status := false;
                   content_name := VNone; content_items := None |};
              w_sites := Scenario.ok [Scenario.branch];
              w_waninterfaces := fun _ =>
                {| resp_truth := false; cgx_status := false;
                   content_name := VNone; content_items := None |};
              w_put_waninterfaces := fun _ _ _ _ => true;
              w_jd := fun _ => VNone |} in
  returns (go_labels w) (init_state [] []) ∅ [GetWanInterfaceLabels] /\
  returns (go_site w true ∅ "lte" [] Scenario.branch) (init_state [] []) []
    [GetWanInterfaces (VStr "s1")].
Proof.
  intros w. split.
  - by apply (proj1 (failed_fetches_are_silent w)).
  - by apply (proj2 (failed_fetches_are_silent w) true ∅ "lte" [] Scenario.branch
                (VStr "s1") (VStr "SPOKE")).
Defined.

(** ** The dictionary of labels *)

Lemma add_label_returns (acc : gmap value dict) (label : dict) id name lbl description s :
  label !! "id" = Some id -> label !! "name" = Some name ->
  label !! "label" = Some lbl -> label !! "description" = Some description ->
  returns (add_label acc label) s (<[id := label_record name lbl description]> acc) [].
Proof.
  intros Hid Hname Hlbl Hdesc. unfold returns, add_label.
  rewrite (run_getitem_bind _ _ _ _ _ Hid). cbv zeta.
  rewrite (run_getitem_bind _ _ _ _ _ Hname), (run_getitem_bind _ _ _ _ _ Hlbl),
    (run_getitem_bind _ _ _ _ _ Hdesc), run_ret, push_nil.
  f_equal. f_equal. unfold setitem2, label_record.
  by rewrite !lookup_insert_eq, !insert_insert_eq.
Qed.

Lemma add_label_incomplete (acc : gmap value dict) (label : dict) s o s' :
  ~ complete_label label ->
  run (add_label acc label) s = (o, s') ->
  exists k, o = Raise (KeyError (VStr k)) /\ label !! k = None /\ s' = s.
Proof.
  intros Hinc. unfold add_label.
  destruct (label !! "id") as [id|] eqn:Hid.
  2: { rewrite run_bind, (run_getitem_None _ _ _ Hid). intros [= <- <-]. eauto. }
  rewrite (run_getitem_bind _ _ _ _ _ Hid). cbv zeta.
  destruct (label !! "name") as [name|] eqn:Hname.
  2: { rewrite run_bind, (run_getitem_None _ _ _ Hname). intros [= <- <-]. eauto. }
  rewrite (run_getitem_bind _ _ _ _ _ Hname).
  destruct (label !! "label") as [lbl|] eqn:Hlbl.
  2: { rewrite run_bind, (run_getitem_None _ _ _ Hlbl). intros [= <- <-]. eauto. }
  rewrite (run_getitem_bind _ _ _ _ _ Hlbl).
  destruct (label !! "description") as [description|] eqn:Hdesc.
  2: { rewrite run_bind, (run_getitem_None _ _ _ Hdesc). intros [= <- <-]. eauto. }
  destruct Hinc. unfold complete_label. rewrite Hid, Hname, Hlbl, Hdesc. eauto.
Qed.

Lemma label_loop_returns (labels : list dict) (acc : gmap value dict) s :
  Forall complete_label labels ->
  exists d, returns (for_fold labels add_label acc) s d [] /\
    (forall id, d !! id = None <->
       acc !! id = None /\ forall label, label ∈ labels -> label !! "id" <> Some id) /\
    (NoDup (omap (fun label : dict => label !! "id") labels) ->
     forall label id name lbl description,
       label ∈ labels ->
       label !! "id" = Some id -> label !! "name" = Some name ->
       label !! "label" = Some lbl -> label !! "description" = Some description ->
       d !! id = Some (label_record name lbl description)) /\
    (forall id, (forall label, label ∈ labels -> label !! "id" <> Some id) ->
       d !! id = acc !! id).
Proof.
  intros Hall. revert acc s.
  induction Hall as [|label labels Hlabel _ IH]; intros acc s.
  { exists acc. split; [apply returns_ret|]. split; [| split; [| done]].
    - intros id. split; [intros H; split; [done | by intros ? ?%elem_of_nil] | by intros [? _]].
    - by intros _ ? ? ? ? ? ?%elem_of_nil. }
  destruct Hlabel as ([id Hid] & [name Hname] & [lbl Hlbl] & [description Hdesc]).
  destruct (IH (<[id := label_record name lbl description]> acc) s)
    as (d & Hrun & Hnone & Hsome & Hother).
  exists d. split.
  { simpl. unfold returns. rewrite (run_bind_returns _ _ _ _ _
      (add_label_returns acc label id name lbl description s Hid Hname Hlbl Hdesc)).
    unfold returns in Hrun. by rewrite !push_nil in Hrun |- *. }
  split; [| split].
  - intros id'. rewrite Hnone. split.
    + intros [Hacc Hrest]. destruct (decide (id = id')) as [->|Hne].
      { by rewrite lookup_insert_eq in Hacc. }
      rewrite lookup_insert_ne in Hacc by done. split; [done|].
      intros label' [->|Hin]%elem_of_cons; [congruence | by apply Hrest].
    + intros [Hacc Hall']. split.
      * rewrite lookup_insert_ne; [done|]. intros ->.
        by apply (Hall' label); [left|].
      * intros label' Hin. apply Hall'. by right.
  - simpl. rewrite Hid. intros Hnd%NoDup_cons. destruct Hnd as [Hnotin Hnd].
    intros label' id' name' lbl' description' [->|Hin]%elem_of_cons Hid' Hname' Hlbl' Hdesc'.
    + assert (id' = id) as -> by congruence.
      assert (name' = name) as -> by congruence.
      assert (lbl' = lbl) as -> by congruence.
      assert (description' = description) as -> by congruence.
      rewrite Hother; [apply lookup_insert_eq|].
      intros label' Hin Hid''. apply Hnotin. apply list_elem_of_omap. eauto.
    + by eapply Hsome.
  - intros id' Hall'. rewrite Hother.
    + rewrite lookup_insert_ne; [done|]. intros ->. by apply (Hall' label); [left|].
    + intros label' Hin. apply Hall'. by right.
Qed.

(** X14.  The dictionary of labels.  When the labels are fetched and each
    has its four fields, [go] builds a dictionary whose keys are exactly
    the identifiers of the fetched labels; and when those identifiers are
    pairwise distinct, looking a label up by its identifier gives its
    [name], [label] and [description], and nothing else of it. *)
Theorem label_dictionary w s labels :
  resp_truth (w_waninterfacelabels w) = true ->
  content_items (w_waninterfacelabels w) = Some labels ->
  Forall complete_label labels ->
  exists d, returns (go_labels w) s d [GetWanInterfaceLabels] /\
    (forall id, is_Some (d !! id) <->
       exists label, label ∈ labels /\ label !! "id" = Some id) /\
    (NoDup (omap (fun label : dict => label !! "id") labels) ->
     forall label id name lbl description,
       label ∈ labels ->
       label !! "id" = Some id -> label !! "name" = Some name ->
       label !! "label" = Some lbl -> label !! "description" = Some description ->
       d !! id = Some (label_record name lbl description)).
Proof.
  intros Hok Hitems Hall.
  destruct (label_loop_returns labels ∅ (push s [GetWanInterfaceLabels]) Hall)
    as (d & Hrun & Hnone & Hsome & _).
  exists d. split; [| split; [| done]].
  - unfold returns, go_labels, get_waninterfacelabels. run_simpl.
    rewrite Hok, Hitems. simpl iter_items. run_simpl.
    unfold returns in Hrun. by rewrite Hrun, push_nil.
  - intros id. rewrite <- not_eq_None_Some, Hnone. split.
    + intros Hn. destruct (decide (Exists (fun label : dict => label !! "id" = Some id) labels))
        as [Hex|Hnex].
      { apply Exists_exists in Hex. naive_solver. }
      destruct Hn. split; [done|]. intros label Hin Hid. apply Hnex.
      apply Exists_exists. eauto.
    + intros (label & Hin & Hid) [_ Hno]. by apply (Hno label).
Qed.

Lemma label_dictionary_witness :
  let w := Scenario.controller [Scenario.internet_label] ∅ in
  exists d, returns (go_labels w) (init_state [] []) d [GetWanInterfaceLabels] /\
    d !! VStr "L1" =
    Some (label_record (VStr "public-1") (VStr "Internet") (VStr "broadband")).
Proof.
  intros w.
  destruct (label_dictionary w (init_state [] []) [Scenario.internet_label])
    as (d & Hrun & _ & Hsome).
  - reflexivity.
  - reflexivity.
  - apply Forall_cons_2; [| apply Forall_nil_2]. repeat split; by eexists.
  - exists d. split; [exact Hrun|].
    apply (Hsome ltac:(by vm_compute; repeat constructor; set_solver)
             Scenario.internet_label); [by left | reflexivity..].
Defined.

Lemma label_loop_incomplete (labels : list dict) (acc : gmap value dict) s :
  ~ Forall complete_label labels ->
  exists k s', run (for_fold labels add_label acc) s = (Raise (KeyError (VStr k)), s') /\
    exists label, label ∈ labels /\ label !! k = None.
Proof.
  revert acc s. induction labels as [|label labels IH]; intros acc s Hinc.
  { destruct Hinc. apply Forall_nil_2. }
  simpl.
  destruct (decide (complete_label label)) as [Hc|Hnc].
  - pose proof Hc as ([id Hid] & [name Hname] & [lbl Hlbl] & [description Hdesc]).
    rewrite (run_bind_returns _ _ _ _ _
      (add_label_returns acc label id name lbl description s Hid Hname Hlbl Hdesc)).
    destruct (IH (<[id:=label_record name lbl description]> acc) (push s []))
      as (k & s' & Hrun & label' & Hin & Hk).
    { intros Hall. apply Hinc. by apply Forall_cons_2. }
    exists k, s'. split; [done|]. exists label'. split; [by right | done].
  - destruct (run (add_label acc label) s) as [o s1] eqn:Hrun.
    destruct (add_label_incomplete _ _ _ _ _ Hnc Hrun) as (k & -> & Hk & ->).
    exists k, s. split; [by apply run_bind_raise|].
    exists label. split; [by left | done].
Qed.

(** X15.  A fetched label that lacks one of its four fields stops the
    script: the loop over the labels raises the [KeyError] of a field that
    the label lacks. *)
Theorem incomplete_label_raises w s labels :
  resp_truth (w_waninterfacelabels w) = true ->
  content_items (w_waninterfacelabels w) = Some labels ->
  ~ Forall complete_label labels ->
  exists k s', run (go_labels w) s = (Raise (KeyError (VStr k)), s') /\
    exists label, label ∈ labels /\ label !! k = None.
Proof.
  intros Hok Hitems Hinc.
  unfold go_labels, get_waninterfacelabels. run_simpl.
  rewrite Hok, Hitems. simpl iter_items. run_simpl.
  by apply label_loop_incomplete.
Qed.

Lemma incomplete_label_raises_witness :
  let broken : dict := {[ "id" := VStr "L2"; "name" := VStr "private-1" ]} in
  let w := Scenario.controller [Scenario.internet_label; broken] ∅ in
  exists k s', run (go_labels w) (init_state [] []) = (Raise (KeyError (VStr k)), s') /\
    exists label, label ∈ [Scenario.internet_label; broken] /\ label !! k = None.
Proof.
  intros broken w.
  apply (incomplete_label_raises w (init_state [] []) [Scenario.internet_label; broken]).
  - reflexivity.
  - reflexivity.
  - intros Hall. apply Forall_cons in Hall as [_ Hall].
    apply Forall_cons in Hall as [(_ & _ & [v Hv] & _) _]. by vm_compute in Hv.
Defined.

(** ** What discovery records, in full *)

Lemma od_set_keys {V} (k : value) (v : V) (d : list (value * V)) :
  (od_set k v d).*1 = if decide (k ∈ d.*1) then d.*1 else d.*1 ++ [k].
Proof.
  induction d as [|[k' v'] d IH]; [done|].
  cbn [od_set]. destruct (decide (k = k')) as [->|Hne]; rewrite !fmap_cons; cbn [fst].
  - rewrite decide_True; [done | by left].
  - rewrite IH. destruct (decide (k ∈ d.*1)) as [Hin|Hnin].
    + rewrite decide_True; [done | by right].
    + rewrite decide_False; [done|]. by intros [?|?]%elem_of_cons.
Qed.

Lemma od_set_NoDup {V} (k : value) (v : V) (d : list (value * V)) :
  NoDup d.*1 -> NoDup (od_set k v d).*1.
Proof.
  intros Hnd. rewrite od_set_keys. destruct (decide (k ∈ d.*1)); [done|].
  apply NoDup_app. split; [done|]. split; [| apply NoDup_singleton].
  intros x Hx ->%list_elem_of_singleton. done.
Qed.

Lemma od_set_key_in {V} (k : value) (v : V) (d : list (value * V)) :
  k ∈ (od_set k v d).*1.
Proof.
  rewrite od_set_keys. destruct (decide (k ∈ d.*1)); [done|].
  apply elem_of_app. right. by left.
Qed.

Lemma od_set_keys_mono {V} (k k' : value) (v : V) (d : list (value * V)) :
  k' ∈ d.*1 -> k' ∈ (od_set k v d).*1.
Proof.
  intros Hin. rewrite od_set_keys. destruct (decide (k ∈ d.*1)); [done|].
  apply elem_of_app. by left.
Qed.

(** What a pass of the body of the inner loop that returns has done. *)
Lemma go_interface_Ret_inv labels match_text (site : dict) matched (interface : dict)
    s m s' :
  run (go_interface labels match_text site matched interface) s = (Ret m, s') ->
  exists name, interface !! "name" = Some name /\
    ((string_match name (VStr match_text) = false /\ m = matched) \/
     (string_match name (VStr match_text) = true /\
      exists id sid, interface !! "id" = Some id /\ site !! "id" = Some sid /\
        m = od_set id {| site_id := sid; data := interface |} matched)).
Proof.
  intros Hrun. unfold go_interface in Hrun.
  apply run_bind_Ret_inv in Hrun as (name & s1 & [Hname ->]%run_getitem_Ret_inv & Hrun).
  exists name. split; [done|].
  destruct (string_match name (VStr match_text)).
  2: { left. rewrite run_ret in Hrun. by injection Hrun as <- _. }
  right. split; [done|].
  apply run_bind_Ret_inv in Hrun as (id & s2 & [Hid ->]%run_getitem_Ret_inv & Hrun).
  apply run_bind_Ret_inv in Hrun as (sid & s3 & [Hsid ->]%run_getitem_Ret_inv & Hrun).
  exists id, sid. split; [done|]. split; [done|].
  ret_inv Hrun. rewrite run_ret in Hrun. by injection Hrun as <- _.
Qed.

Lemma for_fold_Ret_invariant_in {A S} (I : S -> Prop) (l : list A) (body : S -> A -> M S) :
  (forall acc x s a s', x ∈ l -> I acc -> run (body acc x) s = (Ret a, s') -> I a) ->
  forall acc s a s', I acc -> run (for_fold l body acc) s = (Ret a, s') -> I a.
Proof.
  induction l as [|x l IH]; intros Hbody acc s a s' Hacc Hrun; simpl in Hrun.
  - rewrite run_ret in Hrun. by injection Hrun as <- _.
  - apply run_bind_Ret_inv in Hrun as (acc' & s1 & Hx & Hrun).
    eapply (IH (fun acc x s a s' Hin => Hbody acc x s a s' (list_elem_of_further _ _ _ Hin)));
      [| exact Hrun].
    eapply Hbody; [by left | exact Hacc | exact Hx].
Qed.

Lemma go_site_Ret_inv w labels match_text matched (site : dict) s m s' :
  run (go_site w exclude_hub_sites labels match_text matched site) s = (Ret m, s') ->
  exists role, site !! "element_cluster_role" = Some role /\
    ((role = VStr "HUB" /\ m = matched) \/
     (role <> VStr "HUB" /\ exists sid, site !! "id" = Some sid /\
        ((resp_truth (w_waninterfaces w sid) = false /\ m = matched) \/
         (resp_truth (w_waninterfaces w sid) = true /\
          exists items s1, content_items (w_waninterfaces w sid) = Some items /\
            run (for_fold items (go_interface labels match_text site) matched) s1
            = (Ret m, s'))))).
Proof.
  intros Hrun. unfold go_site, site_selected, exclude_hub_sites in Hrun.
  rewrite run_bind_assoc in Hrun.
  apply run_bind_Ret_inv in Hrun as (role & s1 & [Hrole ->]%run_getitem_Ret_inv & Hrun).
  rewrite run_ret_bind in Hrun. exists role. split; [done|].
  destruct (decide (role = VStr "HUB")) as [->|Hne].
  { left. rewrite bool_decide_eq_false_2 in Hrun by (by intros []).
    rewrite run_ret in Hrun. by injection Hrun as <- _. }
  right. split; [done|].
  rewrite bool_decide_eq_true_2 in Hrun by done.
  apply run_bind_Ret_inv in Hrun as (sid & s2 & [Hsid ->]%run_getitem_Ret_inv & Hrun).
  exists sid. split; [done|].
  rewrite (run_bind_returns _ _ _ _ _ (returns_get_waninterfaces w sid s)) in Hrun.
  destruct (resp_truth (w_waninterfaces w sid)).
  2: { left. rewrite run_ret in Hrun. by injection Hrun as <- _. }
  right. split; [done|].
  apply run_bind_Ret_inv in Hrun as (items & s3 & Hitems & Hrun).
  exists items, s3. split; [| done].
  destruct (content_items (w_waninterfaces w sid)); [| discriminate].
  simpl in Hitems. rewrite run_ret in Hitems. by injection Hitems as <- _.
Qed.

Lemma recorded_weaken w match_text (site_list1 site_list2 : list dict) item :
  (forall site, site ∈ site_list1 -> site ∈ site_list2) ->
  recorded w match_text site_list1 item -> recorded w match_text site_list2 item.
Proof.
  intros Hsub (Hid & Hname & Hitems & site & role & Hin & Hrest).
  repeat split; try done. exists site, role. split; [by apply Hsub | done].
Qed.

Lemma go_interfaces_sound w labels match_text (site_list : list dict) (site : dict)
    role sid items (rest : list dict) acc s a s' :
  site ∈ site_list ->
  site !! "element_cluster_role" = Some role -> role <> VStr "HUB" ->
  site !! "id" = Some sid ->
  content_items (w_waninterfaces w sid) = Some items ->
  (forall x, x ∈ rest -> x ∈ items) ->
  NoDup acc.*1 /\ Forall (recorded w match_text site_list) acc ->
  run (for_fold rest (go_interface labels match_text site) acc) s = (Ret a, s') ->
  NoDup a.*1 /\ Forall (recorded w match_text site_list) a.
Proof.
  intros Hsite Hrole Hne Hsid Hitems. revert acc s.
  induction rest as [|interface rest IH]; intros acc s Hsub Hacc Hrun; simpl in Hrun.
  { rewrite run_ret in Hrun. by injection Hrun as <- _. }
  apply run_bind_Ret_inv in Hrun as (acc1 & s2 & Hone & Hrun).
  eapply IH; [| | exact Hrun].
  { intros x Hx. apply Hsub. by right. }
  apply go_interface_Ret_inv in Hone
    as (name & Hname & [[_ ->] | (Hmatch & id & sid' & Hid & Hsid' & ->)]); [done|].
  destruct Hacc as [Hnd Hall]. split; [by apply od_set_NoDup|].
  apply od_set_Forall; [| done].
  assert (sid' = sid) as -> by congruence.
  split; [done|]. split; [by exists name|]. split.
  - exists items. split; [done|]. apply Hsub. by left.
  - by exists site, role.
Qed.

Lemma discovery_sound w labels match_text (site_list : list dict) s m s' :
  run (for_fold site_list (go_site w exclude_hub_sites labels match_text) []) s
  = (Ret m, s') ->
  NoDup m.*1 /\ Forall (recorded w match_text site_list) m.
Proof.
  apply (for_fold_Ret_invariant_in
           (fun m => NoDup m.*1 /\ Forall (recorded w match_text site_list) m)).
  2: { split; [apply NoDup_nil_2 | apply Forall_nil_2]. }
  intros acc site s0 a s0' Hsite Hacc Hrun.
  apply go_site_Ret_inv in Hrun
    as (role & Hrole & [[_ ->] | (Hne & sid & Hsid & [[_ ->] | (_ & items & s1 & Hitems & Hrun)])]);
    [done | done |].
  by eapply (go_interfaces_sound w labels match_text site_list site role sid items items).
Qed.

(** X16.  Discovery is sound.  When the loop over the sites runs to its
    end, the entries of [matched_wan_labels] have pairwise distinct keys,
    and each entry is keyed by the identifier of its interface, holds an
    interface that the controller returned for the owning site, unchanged,
    whose circuit name matches the text, and belongs to a site of the list
    whose cluster role is not ["HUB"]. *)
Theorem discovery_is_sound w labels match_text (site_list : list dict) s m s' :
  run (for_fold site_list (go_site w exclude_hub_sites labels match_text) []) s
  = (Ret m, s') ->
  NoDup m.*1 /\ Forall (recorded w match_text site_list) m.
Proof. apply discovery_sound. Qed.

Lemma discovery_is_sound_witness :
  let w := Scenario.controller [Scenario.internet_label] ∅ in
  let labels : gmap value dict :=
    {[ VStr "L1" := label_record (VStr "public-1") (VStr "Internet") (VStr "broadband") ]} in
  let sites := [Scenario.branch; Scenario.datacenter] in
  let m := [(VStr "i1", Scenario.matched Scenario.lte_primary);
            (VStr "i3", Scenario.matched Scenario.lte_backup)] in
  (run (for_fold sites (go_site w exclude_hub_sites labels "lte") [])
     (init_state [] [])).1 = Ret m /\
  NoDup m.*1 /\ Forall (recorded w "lte" sites) m.
Proof.
  intros w labels sites m.
  pose proof (surjective_pairing
                (run (for_fold sites (go_site w exclude_hub_sites labels "lte") [])
                   (init_state [] []))) as Hr.
  assert (H1 : (run (for_fold sites (go_site w exclude_hub_sites labels "lte") [])
                  (init_state [] [])).1 = Ret m) by (vm_compute; reflexivity).
  rewrite H1 in Hr. split; [exact H1 |].
  exact (discovery_is_sound w labels "lte" sites (init_state [] []) m _ Hr).
Defined.

(** X17.  Discovery is complete.  When the loop over the sites runs to its
    end, every interface whose circuit name matches the text, among those
    that the controller returned with success for a site of the list that
    is no hub, has its identifier among the keys of [matched_wan_labels]. *)
Theorem discovery_is_complete w labels match_text (site_list : list dict) s m s'
    (site : dict) role sid items (interface : dict) name :
  run (for_fold site_list (go_site w exclude_hub_sites labels match_text) []) s
  = (Ret m, s') ->
  site ∈ site_list ->
  site !! "element_cluster_role" = Some role -> role <> VStr "HUB" ->
  site !! "id" = Some sid ->
  resp_truth (w_waninterfaces w sid) = true ->
  content_items (w_waninterfaces w sid) = Some items ->
  interface ∈ items ->
  interface !! "name" = Some name ->
  string_match name (VStr match_text) = true ->
  exists id, interface !! "id" = Some id /\ id ∈ m.*1.
Proof.
  intros Hrun Hsite Hrole Hne Hsid Hok Hitems Hin Hname Hmatch.
  assert (Hinner : forall (st : dict) rest acc s0 a s0',
            run (for_fold rest (go_interface labels match_text st) acc) s0 = (Ret a, s0') ->
            (forall k, k ∈ acc.*1 -> k ∈ a.*1) /\
            (interface ∈ rest -> exists id, interface !! "id" = Some id /\ id ∈ a.*1)).
  { intros st rest. induction rest as [|x rest IH]; intros acc s0 a s0' Hr; simpl in Hr.
    { rewrite run_ret in Hr. injection Hr as <- _.
      split; [done | by intros ?%elem_of_nil]. }
    apply run_bind_Ret_inv in Hr as (acc1 & s1 & Hone & Hr).
    destruct (IH _ _ _ _ Hr) as [Hmono Hfound].
    apply go_interface_Ret_inv in Hone as (name' & Hname' & Hcases).
    split.
    - intros k Hk. apply Hmono.
      destruct Hcases as [[_ ->] | (_ & id & sid' & _ & _ & ->)]; [done|].
      by apply od_set_keys_mono.
    - intros [->|Hrest]%elem_of_cons; [| by apply Hfound].
      destruct Hcases as [[Hno _] | (_ & id & sid' & Hid & _ & ->)]; [congruence|].
      exists id. split; [done|]. apply Hmono, od_set_key_in. }
  assert (Houter : forall rest acc s0 a s0',
            run (for_fold rest (go_site w exclude_hub_sites labels match_text) acc) s0
            = (Ret a, s0') ->
            (forall k, k ∈ acc.*1 -> k ∈ a.*1) /\
            (site ∈ rest -> exists id, interface !! "id" = Some id /\ id ∈ a.*1)).
  { intros rest. induction rest as [|x rest IH]; intros acc s0 a s0' Hr; simpl in Hr.
    { rewrite run_ret in Hr. injection Hr as <- _.
      split; [done | by intros ?%elem_of_nil]. }
    apply run_bind_Ret_inv in Hr as (acc1 & s1 & Hone & Hr).
    destruct (IH _ _ _ _ Hr) as [Hmono Hfound].
    assert (Hone' := Hone).
    apply go_site_Ret_inv in Hone
      as (role' & Hrole' & [[Hhub ->] | (Hne' & sid' & Hsid' &
            [[Hfail ->] | (_ & items' & s2 & Hitems' & Hloop)])]).
    - split; [done|]. intros [->|Hrest]%elem_of_cons; [congruence | by apply Hfound].
    - split; [done|]. intros [->|Hrest]%elem_of_cons; [congruence | by apply Hfound].
    - destruct (Hinner _ _ _ _ _ _ Hloop) as [Hmono' Hfound'].
      split; [by intros k Hk; apply Hmono, Hmono'|].
      intros [->|Hrest]%elem_of_cons; [| by apply Hfound].
      assert (sid' = sid) as -> by congruence.
      assert (items' = items) as -> by congruence.
      destruct (Hfound' Hin) as (id & Hid & Hk). exists id. split; [done | by apply Hmono]. }
  by apply (Houter _ _ _ _ _ Hrun).
Qed.

Lemma discovery_is_complete_witness :
  let w := Scenario.controller [Scenario.internet_label] ∅ in
  let labels : gmap value dict :=
    {[ VStr "L1" := label_record (VStr "public-1") (VStr "Internet") (VStr "broadband") ]} in
  let sites := [Scenario.branch; Scenario.datacenter] in
  let m := [(VStr "i1", Scenario.matched Scenario.lte_primary);
            (VStr "i3", Scenario.matched Scenario.lte_backup)] in
  (run (for_fold sites (go_site w exclude_hub_sites labels "lte") [])
     (init_state [] [])).1 = Ret m /\
  exists id, Scenario.lte_backup !! "id" = Some id /\ id ∈ m.*1.
Proof.
  intros w labels sites m.
  pose proof (surjective_pairing
                (run (for_fold sites (go_site w exclude_hub_sites labels "lte") [])
                   (init_state [] []))) as Hr.
  assert (H1 : (run (for_fold sites (go_site w exclude_hub_sites labels "lte") [])
                  (init_state [] [])).1 = Ret m) by (vm_compute; reflexivity).
  rewrite H1 in Hr. split; [exact H1 |].
  apply (discovery_is_complete w labels "lte" sites (init_state [] []) m _
           Scenario.branch (VStr "SPOKE") (VStr "s1")
           [Scenario.lte_primary; Scenario.fiber_1; Scenario.lte_backup]
           Scenario.lte_backup (VStr "lte_backup") Hr).
  - by left.
  - reflexivity.
  - discriminate.
  - reflexivity.
  - reflexivity.
  - reflexivity.
  - right. right. by left.
  - reflexivity.
  - reflexivity.
Defined.

(** ** A confirmed run, end to end *)

Lemma puts_no_put (es : list event) : Forall (fun e => ~ is_put e) es -> puts es = [].
Proof.
  induction 1 as [|e es He _ IH]; [done|].
  by destruct e.
Qed.

Lemma puts_no_input_no_put (es : list event) : Forall no_input_no_put es -> puts es = [].
Proof.
  intros H. apply puts_no_put. eapply Forall_impl; [exact H|].
  intros e He Hp. by destruct e.
Qed.

Lemma puts_asked (prompt : string) (pre : list string) : puts (asked prompt pre) = [].
Proof.
  unfold asked. simpl. rewrite puts_app. simpl. rewrite app_nil_r.
  induction pre as [|l pre IH]; [done|]. simpl. exact IH.
Qed.

(** A quiet computation that is run before the prompt leaves the run
    before the prompt; if the run gets to the prompt, it returned. *)
Lemma before_prompt_quiet {A} (c : M A) lines s o s' :
  quiet no_input_no_put c -> run c s = (o, s') -> before_prompt lines s ->
  before_prompt lines s'.
Proof.
  intros Hq Hrun (Hin & Hputs & Hstdin).
  destruct (Hq _ _ _ Hrun) as (Hs & es & Htr & Hes).
  pose proof (no_input_no_put_not_put _ Hes) as [_ Hnin].
  split; [| split; [| congruence]].
  - rewrite Htr. by intros [?|?]%elem_of_app.
  - by rewrite Htr, puts_app, Hputs, (puts_no_input_no_put _ Hes).
Qed.

Lemma before_prompt_bind {A B} (c : M A) (f : A -> M B) lines s o s' :
  quiet no_input_no_put c -> run (c ≫= f) s = (o, s') ->
  before_prompt lines s -> Input "Enter yes or no: " ∈ trace s' ->
  exists a s1, run c s = (Ret a, s1) /\ run (f a) s1 = (o, s') /\ before_prompt lines s1.
Proof.
  intros Hq Hrun Hbefore Hasked.
  apply run_bind_inv in Hrun as [(a & s1 & H1 & H2) | (o1 & H1 & _)].
  - exists a, s1. split; [done|]. split; [done|]. by eapply before_prompt_quiet.
  - destruct (before_prompt_quiet _ _ _ _ _ Hq H1 Hbefore) as [Hnin _]. done.
Qed.

Lemma go_interfaces_discovered labels match_text (site : dict) sid
    (items : list dict) acc s m s' :
  site !! "id" = Some sid ->
  run (for_fold items (go_interface labels match_text site) acc) s = (Ret m, s') ->
  m = foldl (record_interface match_text sid) acc items.
Proof.
  intros Hsid. revert acc s.
  induction items as [|interface items IH]; intros acc s Hrun; simpl in Hrun.
  { rewrite run_ret in Hrun. by injection Hrun as <- _. }
  apply run_bind_Ret_inv in Hrun as (acc1 & s1 & Hone & Hrun).
  rewrite (IH _ _ Hrun). simpl. f_equal. unfold record_interface.
  apply go_interface_Ret_inv in Hone
    as (name & Hname & [[Hno ->] | (Hyes & id & sid' & Hid & Hsid' & ->)]);
    rewrite Hname.
  - destruct (interface !! "id"); by rewrite ?Hno.
  - rewrite Hid, Hyes. congruence.
Qed.

(** The loop over the sites, when it runs to its end, has built
    [discovered]. *)
Lemma discovery_builds w labels match_text (site_list : list dict) s m s' :
  run (for_fold site_list (go_site w exclude_hub_sites labels match_text) []) s
  = (Ret m, s') ->
  m = discovered w match_text site_list.
Proof.
  unfold discovered. generalize (@nil (value * entry)) as acc. revert s.
  induction site_list as [|site site_list IH]; intros s acc Hrun; simpl in Hrun.
  { rewrite run_ret in Hrun. by injection Hrun as <- _. }
  apply run_bind_Ret_inv in Hrun as (acc1 & s1 & Hsite & Hrun).
  rewrite (IH _ _ Hrun). simpl. f_equal. unfold record_site.
  apply go_site_Ret_inv in Hsite
    as (role & Hrole & [[-> ->] | (Hne & sid & Hsid &
          [[Hfail ->] | (Hok & items & s2 & Hitems & Hloop)])]);
    rewrite Hrole.
  - destruct (site !! "id"); [| done]. by rewrite decide_True.
  - by rewrite Hsid, decide_False, Hfail.
  - rewrite Hsid, decide_False, Hok, Hitems by done. simpl.
    by apply (go_interfaces_discovered _ _ _ sid) in Hloop.
Qed.

Lemma go_confirmed w CLIARGS lines s o s' :
  confirms lines -> before_prompt lines s ->
  run (go w CLIARGS) s = (o, s') ->
  Input "Enter yes or no: " ∈ trace s' ->
  o = Ret tt /\
  exists site_list labels s0 s1 es,
    content_items (w_sites w) = Some site_list /\
    run (for_fold site_list
           (go_site w exclude_hub_sites labels (matchtext CLIARGS)) []) s0
    = (Ret (discovered w (matchtext CLIARGS) site_list), s1) /\
    trace s' = trace s1 ++ es /\
    NoDup (discovered w (matchtext CLIARGS) site_list).*1 /\
    Forall (recorded w (matchtext CLIARGS) site_list)
      (discovered w (matchtext CLIARGS) site_list) /\
    puts (trace s') =
    map (fun item => (site_id item.2, item.1, patch_spec CLIARGS (data item.2)))
      (discovered w (matchtext CLIARGS) site_list).
Proof.
  intros (pre & a & post & Hlines & Hpre & Ha) Hbefore Hrun Hasked.
  unfold go, go_with in Hrun.
  apply (before_prompt_bind _ _ lines) in Hrun as (resp & s1 & _ & Hrun & Hb1);
    [| unfold get_tenants; quiet_auto fail | done | done].
  apply (before_prompt_bind _ _ lines) in Hrun as ([] & s2 & _ & Hrun & Hb2);
    [| quiet_auto ltac:(apply quiet_logout; exact I) | done | done].
  apply (before_prompt_bind _ _ lines) in Hrun as (labels & s3 & _ & Hrun & Hb3);
    [| apply quiet_go_labels | done | done].
  apply (before_prompt_bind _ _ lines) in Hrun as (resp' & s4 & Hsites & Hrun & Hb4);
    [| unfold get_sites; quiet_auto fail | done | done].
  unfold get_sites in Hsites. revert Hsites. run_simpl. intros [= <- _].
  destruct (cgx_status (w_sites w)).
  2: { assert (Hq : quiet no_input_no_put
                      (logout ≫= fun _ =>
                       print ["ERROR: API Call failure when enumerating SITES in tenant! Exiting!"]
                       ≫= fun _ => jd w (w_sites w) ≫= fun v => sys_exit (A:=unit) (ExitValue v))).
       { unfold jd. quiet_auto ltac:(apply quiet_logout; exact I). }
       by destruct (before_prompt_quiet _ _ _ _ _ Hq Hrun Hb4) as [Hnin _]. }
  apply (before_prompt_bind _ _ lines) in Hrun as (site_list & s5 & Hitems & Hrun & Hb5);
    [| quiet_auto fail | done | done].
  assert (Hsl : content_items (w_sites w) = Some site_list).
  { destruct (content_items (w_sites w)); [| discriminate].
    simpl in Hitems. rewrite run_ret in Hitems. by injection Hitems as <- _. }
  apply (before_prompt_bind _ _ lines) in Hrun as (matched & s6 & Hdisc & Hrun & Hb6);
    [| apply quiet_for_fold; intros; apply quiet_go_site | done | done].
  destruct Hb6 as (Hnin6 & Hputs6 & Hstdin6).
  rewrite (run_bind_ret _ _ _ _ _
    (verify_change_reads _ s6 pre a post true
       ltac:(by rewrite Hstdin6) Hpre Ha)) in Hrun.
  change (truthy (VBool true)) with true in Hrun. cbv iota in Hrun.
  rewrite !run_print_bind in Hrun.
  destruct (go_mutate_returns w CLIARGS matched
    (push (push (read_to s6 (asked (confirmation_prompt CLIARGS) pre) post)
             [Print ["Changing Sites:"]]) [Print [""]])
    (discovery_records_well_formed _ _ _ _ _ _ _ _ Hdisc)) as (es & Hmut & Hputs).
  unfold returns in Hmut. rewrite Hmut in Hrun. injection Hrun as <- <-.
  split; [done|].
  destruct (discovery_sound w labels (matchtext CLIARGS) site_list _ _ _ Hdisc)
    as [Hnd Hrec].
  pose proof (discovery_builds w labels (matchtext CLIARGS) site_list _ _ _ Hdisc)
    as Hbuilt.
  subst matched.
  exists site_list, labels, s5, s6,
    (asked (confirmation_prompt CLIARGS) pre ++
     [Print ["Changing Sites:"]] ++ [Print [""]] ++ es).
  split; [done|]. split; [done|]. split; [| split; [done|]; split; [done|]].
  - unfold asked. simpl. rewrite <- ?app_assoc. simpl. rewrite <- ?app_assoc.
    reflexivity.
  - simpl. rewrite !puts_app, Hputs6, puts_asked, Hputs. done.
Qed.

(** X18.  A confirmed run, end to end.  When the script gets to the prompt
    and the user confirms, the loop over the sites has run to its end in
    this run and built [discovered], the list that the responses of the
    controller determine; the updates that the run submits are exactly
    those of the entries of that list, each once and in the order of the
    list, with its patched payload and scoped to its site and identifier;
    the entries have distinct identifiers, match the text and belong to
    sites that are no hubs; and the script returns normally with the logout
    as its last act. *)
Theorem confirmed_run_submits_each_once w CLIARGS lines attempts o s' :
  confirms lines ->
  run (main w CLIARGS) (init_state lines attempts) = (o, s') ->
  Input "Enter yes or no: " ∈ trace s' ->
  o = Ret tt /\ last (trace s') = Some GetLogout /\
  exists site_list labels s0 s1 es,
    content_items (w_sites w) = Some site_list /\
    run (for_fold site_list
           (go_site w exclude_hub_sites labels (matchtext CLIARGS)) []) s0
    = (Ret (discovered w (matchtext CLIARGS) site_list), s1) /\
    trace s' = trace s1 ++ es /\
    NoDup (discovered w (matchtext CLIARGS) site_list).*1 /\
    Forall (recorded w (matchtext CLIARGS) site_list)
      (discovered w (matchtext CLIARGS) site_list) /\
    puts (trace s') =
    map (fun item => (site_id item.2, item.1, patch_spec CLIARGS (data item.2)))
      (discovered w (matchtext CLIARGS) site_list).
Proof.
  intros Hconf Hrun Hasked. unfold main in Hrun.
  apply (before_prompt_bind _ _ lines) in Hrun as ([] & s1 & _ & Hrun & Hb1);
    [| apply quiet_authenticate | by repeat split; [intros ?%elem_of_nil|..] | done].
  apply run_bind_inv in Hrun as [([] & s2 & Hgo & Hout) | (o1 & Hgo & Hn1 & _)].
  - unfold logout in Hout. revert Hout. run_simpl. intros [= <- <-].
    assert (Hin2 : Input "Enter yes or no: " ∈ trace s2).
    { simpl in Hasked. apply elem_of_app in Hasked as [? | Hl]; [done|].
      apply elem_of_cons in Hl as [? | Hl]; [done|].
      apply elem_of_cons in Hl as [? | Hl]; [done|]. by apply elem_of_nil in Hl. }
    destruct (go_confirmed w CLIARGS lines s1 _ _ Hconf Hb1 Hgo Hin2)
      as (_ & site_list & labels & s0 & s3 & es & Hsl & Hloop & Htr & Hnd & Hrec & Hputs).
    split; [done|]. split.
    { simpl. by rewrite last_app. }
    exists site_list, labels, s0, s3, (es ++ [Print ["Logging out"]; GetLogout]).
    split; [done|]. split; [done|]. split.
    { simpl. by rewrite Htr, <- app_assoc. }
    split; [done|]. split; [done|].
    simpl. by rewrite puts_app, Hputs, app_nil_r.
  - destruct (go_confirmed w CLIARGS lines s1 _ _ Hconf Hb1 Hgo Hasked) as [-> _].
    by destruct (Hn1 tt).
Qed.

Lemma confirmed_run_submits_each_once_witness :
  let w := Scenario.controller [Scenario.internet_label] ∅ in
  let CLIARGS := Scenario.args (Some "good") "off" "off" in
  let r := run (main w CLIARGS) (init_state ["perhaps"; "yes"] []) in
  confirms ["perhaps"; "yes"] /\
  Input "Enter yes or no: " ∈ trace r.2 /\
  r.1 = Ret tt /\ last (trace r.2) = Some GetLogout /\
  puts (trace r.2) =
  map (fun item => (site_id item.2, item.1, patch_spec CLIARGS (data item.2)))
    (discovered w "lte" [Scenario.branch; Scenario.datacenter]).
Proof.
  intros w CLIARGS r.
  assert (Hc : confirms ["perhaps"; "yes"]).
  { exists ["perhaps"], "yes", []. split; [reflexivity|]. split.
    - apply Forall_cons_2; [by vm_compute | apply Forall_nil_2].
    - by vm_compute. }
  assert (Hin : Input "Enter yes or no: " ∈ trace r.2).
  { apply (bool_decide_unpack _). by vm_compute. }
  destruct (confirmed_run_submits_each_once w CLIARGS ["perhaps"; "yes"] [] r.1 r.2
              Hc (surjective_pairing r) Hin)
    as (Ho & Hlast & site_list & _ & _ & _ & _ & Hsl & _ & _ & _ & _ & Hputs).
  injection Hsl as <-.
  split; [exact Hc|]. split; [exact Hin|]. split; [exact Ho|].
  split; [exact Hlast | exact Hputs].
Defined.

(** ** One interface, one site *)

Lemma returns_label_field labels (interface : dict) field label_id (l : dict) v s :
  interface !! "label_id" = Some label_id ->
  labels !! label_id = Some l ->
  l !! field = Some v ->
  returns (label_field labels interface field) s v [].
Proof.
  intros Hid Hl Hv. unfold returns, label_field.
  rewrite (run_getitem_bind _ _ _ _ _ Hid), Hl.
  unfold getitem. by rewrite Hv, run_ret, push_nil.
Qed.

(** X19.  What discovery does with a matching interface.  When the circuit
    name matches, the interface has its identifier, its label is in the
    dictionary and its three monitored fields are present, the interface is
    recorded under its identifier with the identifier of the site and its
    payload as fetched, and its summary is printed: site name, circuit
    name, category, label, description, BFD mode, LQM flag and BWM mode,
    then an empty line. *)
Theorem matching_interface_is_recorded labels match_text (site : dict) matched
    (interface : dict) s name id sid site_name label_id category lbl description
    bfd lq bw :
  interface !! "name" = Some name ->
  string_match name (VStr match_text) = true ->
  interface !! "id" = Some id ->
  site !! "id" = Some sid ->
  site !! "name" = Some site_name ->
  interface !! "label_id" = Some label_id ->
  labels !! label_id = Some (label_record category lbl description) ->
  interface !! "bfd_mode" = Some bfd ->
  interface !! "lqm_enabled" = Some lq ->
  interface !! "bw_config_mode" = Some bw ->
  returns (go_interface labels match_text site matched interface) s
    (od_set id {| site_id := sid; data := interface |} matched)
    [Print ["Found Circuit Match at SITE:"; py_str site_name];
     Print ["  Circuit Name        :"; py_str name];
     Print ["  Circuit Category    :"; py_str category];
     Print ["  Circuit Label       :"; py_str lbl];
     Print ["  Circuit Description :"; py_str description];
     Print ["  Circuit BFD MODE    :"; py_str bfd];
     Print ["  Circuit LQM Enabled :"; py_str lq];
     Print ["  Circuit BWM MODE    :"; py_str bw];
     Print [""]].
Proof.
  intros Hname Hmatch Hid Hsid Hsname Hlabel Hl Hbfd Hlq Hbw.
  unfold returns, go_interface.
  rewrite (run_getitem_bind _ _ _ _ _ Hname), Hmatch.
  rewrite (run_getitem_bind _ _ _ _ _ Hid), (run_getitem_bind _ _ _ _ _ Hsid).
  cbv zeta.
  rewrite (run_getitem_bind _ _ _ _ _ Hsname), run_print_bind.
  rewrite (run_getitem_bind _ _ _ _ _ Hname), run_print_bind.
  rewrite (run_bind_returns _ _ _ _ _
    (returns_label_field labels interface "name" label_id _ category _ Hlabel Hl eq_refl)).
  rewrite run_print_bind.
  rewrite (run_bind_returns _ _ _ _ _
    (returns_label_field labels interface "label" label_id _ lbl _ Hlabel Hl eq_refl)).
  rewrite run_print_bind.
  rewrite (run_bind_returns _ _ _ _ _
    (returns_label_field labels interface "description" label_id _ description _
       Hlabel Hl eq_refl)).
  rewrite run_print_bind.
  rewrite (run_getitem_bind _ _ _ _ _ Hbfd), run_print_bind.
  rewrite (run_getitem_bind _ _ _ _ _ Hlq), run_print_bind.
  rewrite (run_getitem_bind _ _ _ _ _ Hbw), run_print_bind.
  rewrite run_print_bind, run_ret, !push_push. reflexivity.
Qed.

Lemma matching_interface_is_recorded_witness :
  exists es,
    returns (go_interface
               {[ VStr "L1" := label_record (VStr "public-1") (VStr "Internet")
                                 (VStr "broadband") ]}
               "lte" Scenario.branch [] Scenario.lte_primary) (init_state [] [])
      [(VStr "i1", Scenario.matched Scenario.lte_primary)] es /\
    length es = 9.
Proof.
  eexists. split.
  - apply (matching_interface_is_recorded _ "lte" Scenario.branch [] Scenario.lte_primary
             (init_state [] []) (VStr "LTE-Primary") (VStr "i1") (VStr "s1") (VStr "Branch")
             (VStr "L1") (VStr "public-1") (VStr "Internet") (VStr "broadband")
             (VStr "aggressive") (VBool true) (VStr "manual")); reflexivity.
  - reflexivity.
Defined.

(** X20.  An interface whose circuit name does not match is passed over
    without a trace, whatever else it holds or lacks; an interface without
    a [name] stops discovery with a [KeyError]. *)
Theorem other_interfaces_are_passed_over labels match_text (site : dict) matched
    (interface : dict) s :
  (forall name, interface !! "name" = Some name ->
     string_match name (VStr match_text) = false ->
     returns (go_interface labels match_text site matched interface) s matched []) /\
  (interface !! "name" = None ->
   run (go_interface labels match_text site matched interface) s
   = (Raise (KeyError (VStr "name")), s)).
Proof.
  split.
  - intros name Hname Hno. unfold returns, go_interface.
    by rewrite (run_getitem_bind _ _ _ _ _ Hname), Hno, run_ret, push_nil.
  - intros Hnone. unfold go_interface. apply run_bind_raise.
    by apply run_getitem_None.
Qed.

Lemma other_interfaces_are_passed_over_witness :
  returns (go_interface ∅ "lte" Scenario.branch [] Scenario.fiber_1)
    (init_state [] []) [] [] /\
  run (go_interface ∅ "lte" Scenario.branch [] ∅) (init_state [] [])
  = (Raise (KeyError (VStr "name")), init_state [] []).
Proof.
  split.
  - by apply (proj1 (other_interfaces_are_passed_over ∅ "lte" Scenario.branch []
                       Scenario.fiber_1 (init_state [] [])) (VStr "Fiber-1")).
  - by apply (proj2 (other_interfaces_are_passed_over ∅ "lte" Scenario.branch []
                       ∅ (init_state [] []))).
Defined.

(** X21.  A response that is a success and carries no [items] stops the
    script with a [TypeError]: the loop of the labels and the loop of the
    WAN interfaces of a site iterate over [None]. *)
Theorem missing_items_raise_type_error w :
  (resp_truth (w_waninterfacelabels w) = true ->
   content_items (w_waninterfacelabels w) = None ->
   forall s, run (go_labels w) s = (Raise TypeError, push s [GetWanInterfaceLabels])) /\
  (forall labels match_text matched (site : dict) sid role s,
     site !! "element_cluster_role" = Some role -> role <> VStr "HUB" ->
     site !! "id" = Some sid ->
     resp_truth (w_waninterfaces w sid) = true ->
     content_items (w_waninterfaces w sid) = None ->
     run (go_site w exclude_hub_sites labels match_text matched site) s
     = (Raise TypeError, push s [GetWanInterfaces sid])).
Proof.
  split.
  - intros Hok Hnone s. unfold go_labels, get_waninterfacelabels.
    run_simpl. rewrite Hok, Hnone. simpl iter_items. by run_simpl.
  - intros labels match_text matched site sid role s Hrole Hne Hid Hok Hnone.
    unfold go_site, site_selected, exclude_hub_sites, get_waninterfaces.
    run_simpl. rewrite (run_getitem_bind _ _ _ _ _ Hrole). run_simpl.
    rewrite bool_decide_eq_true_2 by done.
    rewrite (run_getitem_bind _ _ _ _ _ Hid). run_simpl.
    rewrite Hok, Hnone. simpl iter_items. by run_simpl.
Qed.

Lemma missing_items_raise_type_error_witness :
  let empty := {| resp_truth := true; cgx_status := true;
                  content_name := VNone; content_items := None |} in
  let w := {| w_environ := ∅; w_files := ∅;
              w_use_token := fun _ => Some "tenant-1";
              w_tenants := Scenario.ok [];
              w_waninterfacelabels := empty;
              w_sites := Scenario.ok [Scenario.branch];
              w_waninterfaces := fun _ => empty;
              w_put_waninterfaces := fun _ _ _ _ => true;
              w_jd := fun _ => VNone |} in
  (run (go_labels w) (init_state [] [])).1 = Raise TypeError /\
  (run (go_site w exclude_hub_sites ∅ "lte" [] Scenario.branch) (init_state [] [])).1
  = Raise TypeError.
Proof.
  intros empty w. split.
  - by rewrite (proj1 (missing_items_raise_type_error w) eq_refl eq_refl).
  - by rewrite (proj2 (missing_items_raise_type_error w) ∅ "lte" [] Scenario.branch
                  (VStr "s1") (VStr "SPOKE") (init_state [] [])
                  eq_refl ltac:(discriminate) eq_refl eq_refl eq_refl).
Defined.

(** X22.  A site without [element_cluster_role] stops discovery with a
    [KeyError] before anything is fetched for it, and so does a site that
    is no hub and has no [id]. *)
Theorem incomplete_site_raises w labels match_text matched (site : dict) s :
  (site !! "element_cluster_role" = None ->
   run (go_site w exclude_hub_sites labels match_text matched site) s
   = (Raise (KeyError (VStr "element_cluster_role")), s)) /\
  (forall role, site !! "element_cluster_role" = Some role -> role <> VStr "HUB" ->
     site !! "id" = None ->
     run (go_site w exclude_hub_sites labels match_text matched site) s
     = (Raise (KeyError (VStr "id")), s)).
Proof.
  split.
  - intros Hnone. unfold go_site, site_selected, exclude_hub_sites.
    apply run_bind_raise, run_bind_raise. by apply run_getitem_None.
  - intros role Hrole Hne Hnone. unfold go_site, site_selected, exclude_hub_sites.
    run_simpl. rewrite (run_getitem_bind _ _ _ _ _ Hrole). run_simpl.
    rewrite bool_decide_eq_true_2 by done.
    apply run_bind_raise. by apply run_getitem_None.
Qed.

Lemma incomplete_site_raises_witness :
  let w := Scenario.controller [Scenario.internet_label] ∅ in
  run (go_site w exclude_hub_sites ∅ "lte" [] {[ "id" := VStr "s9" ]}) (init_state [] [])
  = (Raise (KeyError (VStr "element_cluster_role")), init_state [] []) /\
  run (go_site w exclude_hub_sites ∅ "lte" []
         {[ "element_cluster_role" := VStr "SPOKE" ]}) (init_state [] [])
  = (Raise (KeyError (VStr "id")), init_state [] []).
Proof.
  intros w. split.
  - by apply (proj1 (incomplete_site_raises w ∅ "lte" [] {[ "id" := VStr "s9" ]}
                       (init_state [] []))).
  - by apply (proj2 (incomplete_site_raises w ∅ "lte" []
                       {[ "element_cluster_role" := VStr "SPOKE" ]} (init_state [] []))
                (VStr "SPOKE")).
Defined.

(** ** The order of what is recorded *)

Lemma go_interfaces_keys labels match_text (site : dict) (items : list dict) acc s m s' :
  run (for_fold items (go_interface labels match_text site) acc) s = (Ret m, s') ->
  m.*1 = foldl add_key acc.*1 (matching_ids match_text items).
Proof.
  revert acc s. induction items as [|interface items IH]; intros acc s Hrun;
    simpl in Hrun.
  { rewrite run_ret in Hrun. by injection Hrun as <- _. }
  apply run_bind_Ret_inv in Hrun as (acc1 & s1 & Hone & Hrun).
  rewrite (IH _ _ Hrun). unfold matching_ids. simpl.
  apply go_interface_Ret_inv in Hone
    as (name & Hname & [[Hno ->] | (Hyes & id & sid & Hid & _ & ->)]);
    rewrite Hname.
  - by rewrite Hno.
  - rewrite Hyes, Hid. simpl. by rewrite od_set_keys.
Qed.

(** X23.  The order of the recorded interfaces.  When the loop over the
    sites runs to its end, the keys of [matched_wan_labels] are the
    identifiers of the matching interfaces in the order in which discovery
    went through them, site after site and interface after interface, each
    identifier standing where it was first met. *)
Theorem discovery_keeps_iteration_order w labels match_text (site_list : list dict)
    s m s' :
  run (for_fold site_list (go_site w exclude_hub_sites labels match_text) []) s
  = (Ret m, s') ->
  m.*1 = foldl add_key [] (matching_ids match_text (visited_interfaces w site_list)).
Proof.
  change (@nil value) with ((@nil (value * entry)).*1) at 1.
  generalize (@nil (value * entry)) as acc. revert s.
  induction site_list as [|site site_list IH]; intros s acc Hrun; simpl in Hrun.
  { rewrite run_ret in Hrun. by injection Hrun as <- _. }
  apply run_bind_Ret_inv in Hrun as (acc1 & s1 & Hsite & Hrun).
  rewrite (IH _ _ Hrun). unfold visited_interfaces, matching_ids. simpl.
  rewrite omap_app, foldl_app. f_equal.
  apply go_site_Ret_inv in Hsite
    as (role & Hrole & [[-> ->] | (Hne & sid & Hsid &
          [[Hfail ->] | (Hok & items & s2 & Hitems & Hloop)])]);
    rewrite Hrole.
  - destruct (site !! "id"); [| done]. by rewrite decide_True.
  - by rewrite Hsid, decide_False, Hfail.
  - rewrite Hsid, decide_False, Hok, Hitems by done. simpl.
    by apply go_interfaces_keys in Hloop.
Qed.

Lemma discovery_keeps_iteration_order_witness :
  let w := Scenario.controller [Scenario.internet_label] ∅ in
  let labels : gmap value dict :=
    {[ VStr "L1" := label_record (VStr "public-1") (VStr "Internet") (VStr "broadband") ]} in
  let sites := [Scenario.branch; Scenario.datacenter] in
  let m := [(VStr "i1", Scenario.matched Scenario.lte_primary);
            (VStr "i3", Scenario.matched Scenario.lte_backup)] in
  (run (for_fold sites (go_site w exclude_hub_sites labels "lte") [])
     (init_state [] [])).1 = Ret m /\
  m.*1 = foldl add_key [] (matching_ids "lte" (visited_interfaces w sites)).
Proof.
  intros w labels sites m.
  pose proof (surjective_pairing
                (run (for_fold sites (go_site w exclude_hub_sites labels "lte") [])
                   (init_state [] []))) as Hr.
  assert (H1 : (run (for_fold sites (go_site w exclude_hub_sites labels "lte") [])
                  (init_state [] [])).1 = Ret m) by (vm_compute; reflexivity).
  rewrite H1 in Hr. split; [exact H1 |].
  exact (discovery_keeps_iteration_order w labels "lte" sites (init_state [] []) m _ Hr).
Defined.
